(** * HarmLens: decision-and-audit engine

    A shallow embedding of the scoring engine, the decision policy, the
    moderation queue, the escalation tracker and the audit ledger of
    HarmLens, followed by the properties established about them.

    Conventions of the embedding:
    - a Python [str] is a [string] whose characters are the code points
      below 256;
    - a Python [float] is a binary64 primitive float, with the IEEE
      operations Python uses;
    - a Python [int] is a [Z];
    - a dict that is used as a record with optional keys is a record with
      [option] fields; a dict that is serialized keeps its items in an
      association list, in insertion order;
    - an SQL table is the list of its rows in rowid order. *)

From Stdlib Require Import ZArith List String Ascii Bool Lia Floats.
From Stdlib Require Import DecimalString.
From stdpp Require Import base list sorting strings.
Import ListNotations.

Set Warnings "-register-all,-inexact-float".

Local Open Scope string_scope.
Local Open Scope list_scope.
Local Open Scope Z_scope.

(** ** hashlib.sha256 *)

Module Sha256.

Definition w32 (x : Z) : Z := x mod 2 ^ 32.

Definition rotr (n x : Z) : Z :=
  w32 (Z.lor (Z.shiftr x n) (Z.shiftl x (32 - n))).

Definition shr (n x : Z) : Z := Z.shiftr x n.

Definition Ch (x y z : Z) : Z :=
  Z.lxor (Z.land x y) (Z.land (Z.lxor x (2 ^ 32 - 1)) z).

Definition Maj (x y z : Z) : Z :=
  Z.lxor (Z.lxor (Z.land x y) (Z.land x z)) (Z.land y z).

Definition Sigma0 (x : Z) : Z :=
  Z.lxor (Z.lxor (rotr 2 x) (rotr 13 x)) (rotr 22 x).

Definition Sigma1 (x : Z) : Z :=
  Z.lxor (Z.lxor (rotr 6 x) (rotr 11 x)) (rotr 25 x).

Definition sigma0 (x : Z) : Z :=
  Z.lxor (Z.lxor (rotr 7 x) (rotr 18 x)) (shr 3 x).

Definition sigma1 (x : Z) : Z :=
  Z.lxor (Z.lxor (rotr 17 x) (rotr 19 x)) (shr 10 x).

(** The round constants are the leading 32 fractional bits of the cube
    roots of the first 64 primes, the initial state those of the square
    roots of the first 8; both tables are computed here. *)

Definition is_prime (n : Z) : bool :=
  forallb (fun d => negb (n mod d =? 0))
          (List.filter (fun d => d * d <=? n) (map Z.of_nat (seq 2 20))).

Definition primes64 : list Z :=
  Eval vm_compute in List.filter is_prime (map Z.of_nat (seq 2 310)).

Definition icbrt (n : Z) : Z :=
  fold_left (fun r b => let c := r + 2 ^ Z.of_nat b in
                        if c * c * c <=? n then c else r)
            (rev (seq 0 40)) 0.

Definition K256 : list Z :=
  Eval vm_compute in map (fun p => w32 (icbrt (p * 2 ^ 96))) primes64.

Definition H256 : list Z :=
  Eval vm_compute in
    map (fun p => w32 (Z.sqrt (p * 2 ^ 64))) (firstn 8 primes64).

(** Padding: a 1 bit, zeros up to 56 mod 64 bytes, then the bit length
    as a 64-bit big-endian number. *)

Definition be_bytes (n : nat) (x : Z) : list Z :=
  map (fun i => Z.shiftr x (8 * Z.of_nat i) mod 256) (rev (seq 0 n)).

Definition pad (msg : list Z) : list Z :=
  let len := Z.of_nat (length msg) in
  let zeros := Z.to_nat ((55 - len) mod 64) in
  msg ++ [128] ++ repeat 0 zeros ++ be_bytes 8 (8 * len).

Fixpoint be_words (fuel : nat) (bs : list Z) : list Z :=
  match fuel, bs with
  | S fuel', b0 :: b1 :: b2 :: b3 :: rest =>
      (((b0 * 256 + b1) * 256 + b2) * 256 + b3) :: be_words fuel' rest
  | _, _ => []
  end.

Definition nthw (l : list Z) (i : nat) : Z := nth i l 0.

(** Message schedule: the 16 words of the block, extended to 64. *)
Definition schedule (block : list Z) : list Z :=
  fold_left
    (fun w t =>
       w ++ [w32 (sigma1 (nthw w (t - 2)) + nthw w (t - 7)
                  + sigma0 (nthw w (t - 15)) + nthw w (t - 16))])
    (seq 16 48) block.

Definition round (st : list Z) (kw : Z * Z) : list Z :=
  match st with
  | [a; b; c; d; e; f; g; h] =>
      let t1 := h + Sigma1 e + Ch e f g + fst kw + snd kw in
      let t2 := Sigma0 a + Maj a b c in
      [w32 (t1 + t2); a; b; c; w32 (d + t1); e; f; g]
  | _ => st
  end.

Definition compress (st block : list Z) : list Z :=
  let st' := fold_left round (combine K256 (schedule block)) st in
  map (fun p => w32 (fst p + snd p)) (combine st st').

Fixpoint blocks (fuel : nat) (ws : list Z) : list (list Z) :=
  match fuel, ws with
  | _, [] => []
  | O, _ => []
  | S fuel', _ => firstn 16 ws :: blocks fuel' (skipn 16 ws)
  end.

Definition digest_words (msg : list Z) : list Z :=
  let bs := pad msg in
  let ws := be_words (length bs) bs in
  fold_left compress (blocks (length ws) ws) H256.

Definition hex_digit (d : Z) : ascii :=
  nth (Z.to_nat d)
      (list_ascii_of_string "0123456789abcdef") "0"%char.

Definition hex_byte (b : Z) : string :=
  String (hex_digit (b / 16)) (String (hex_digit (b mod 16)) EmptyString).

(** [hashlib.sha256(bytes).hexdigest()] *)
Definition hexdigest (msg : list Z) : string :=
  String.concat EmptyString
    (map hex_byte (flat_map (be_bytes 4) (digest_words msg))).

(** [str.encode()] on text whose code points are all below 128, which is
    what [json.dumps] emits under its default [ensure_ascii]. *)
Definition encode (s : string) : list Z :=
  map (fun c => Z.of_N (N_of_ascii c)) (list_ascii_of_string s).

End Sha256.

(** ** json.dumps(data, sort_keys=True) *)

Module Json.

(** The values [json.dumps] accepts here.  A float is carried as the text
    [repr] prints for it; the items of a dict are in insertion order, and
    its keys are strings. *)
Inductive json : Type :=
| JNull
| JBool (b : bool)
| JInt (n : Z)
| JFloat (repr : string)
| JStr (s : string)
| JList (elems : list json)
| JDict (items : list (string * json)).

(** Python's truth value of a JSON value ([if not data: ...]). *)
Definition truthy (v : json) : bool :=
  match v with
  | JNull => false
  | JBool b => b
  | JInt n => negb (n =? 0)
  | JFloat r => negb (String.eqb r "0.0" || String.eqb r "-0.0")
  | JStr s => negb (String.eqb s EmptyString)
  | JList l => negb (Nat.eqb (length l) 0)
  | JDict d => negb (Nat.eqb (length d) 0)
  end.

Definition dquote : string := String (ascii_of_nat 34) EmptyString.

Definition hex4 (n : Z) : string :=
  String.concat EmptyString
    (map (fun i => String (Sha256.hex_digit (Z.shiftr n (4 * i) mod 16))
                          EmptyString) [3; 2; 1; 0]).

(** [json.encoder.py_encode_basestring_ascii]: the short escapes, then
    every character outside [' '..'~'] as a [\u] escape. *)
Definition escape_char (c : ascii) : string :=
  let n := Z.of_N (N_of_ascii c) in
  if n =? 34 then "\" +:+ dquote
  else if n =? 92 then "\\"
  else if n =? 10 then "\n"
  else if n =? 13 then "\r"
  else if n =? 9 then "\t"
  else if n =? 12 then "\f"
  else if n =? 8 then "\b"
  else if (32 <=? n) && (n <=? 126) then String c EmptyString
  else "\u" +:+ hex4 n.

Definition encode_str (s : string) : string :=
  dquote +:+ String.concat EmptyString
                           (map escape_char (list_ascii_of_string s))
         +:+ dquote.

Definition key_le (a b : string * string) : Prop :=
  String.leb (fst a) (fst b) = true.

#[export] Instance key_le_dec a b : Decision (key_le a b).
Proof. unfold key_le. apply _. Defined.

(** [sorted(dct.items())], on the items already rendered. *)
Definition sort_items (l : list (string * string)) : list (string * string) :=
  merge_sort key_le l.

Definition render_item (kv : string * string) : string :=
  encode_str (fst kv) +:+ ": " +:+ snd kv.

Fixpoint dumps (sort_keys : bool) (v : json) : string :=
  match v with
  | JNull => "null"
  | JBool true => "true"
  | JBool false => "false"
  | JInt n => NilZero.string_of_int (Z.to_int n)
  | JFloat r => r
  | JStr s => encode_str s
  | JList l => "[" +:+ String.concat ", " (map (dumps sort_keys) l) +:+ "]"
  | JDict d =>
      let rendered := map (fun kv => (fst kv, dumps sort_keys (snd kv))) d in
      let ordered := if sort_keys then sort_items rendered else rendered in
      "{" +:+ String.concat ", " (map render_item ordered) +:+ "}"
  end.

End Json.
Export Json.

(** ** core/blockchain.py *)

Module Blockchain.

(** [hash_data], the same in both classes:
    [hashlib.sha256(json.dumps(data, sort_keys=True).encode()).hexdigest()] *)
Definition hash_data (data : json) : string :=
  let data_str := dumps true data in
  Sha256.hexdigest (Sha256.encode data_str).

(** *** LocalBlockchainSimulator *)

Module LocalBlockchainSimulator.

(** One entry of [chain["blocks"]]. *)
Record Block : Type := mkBlock {
  block_number : Z;
  timestamp : string;
  content_id : string;
  data : json;
  previous_hash : string;
  hash : string
}.

(** The dict [log_analysis] builds before it adds the ["hash"] key. *)
Definition block_dict (number : Z) (ts cid : string) (payload : json)
           (prev : string) : json :=
  JDict [("block_number", JInt number);
         ("timestamp", JStr ts);
         ("content_id", JStr cid);
         ("data", payload);
         ("previous_hash", JStr prev)].

Definition unsealed (b : Block) : json :=
  block_dict (block_number b) (timestamp b) (content_id b) (data b)
             (previous_hash b).

(** ["0" * 64] *)
Definition genesis_hash : string :=
  Eval vm_compute in String.concat EmptyString (repeat "0" 64).

(** [chain["blocks"][-1]["hash"] if chain["blocks"] else "0" * 64] *)
Definition last_hash (blocks : list Block) : string :=
  match last blocks with
  | Some b => hash b
  | None => genesis_hash
  end.

(** The chain file holds [{"blocks": [...]}]; the state is that list.
    [now] is the reading of [datetime.utcnow().isoformat()]. *)
Definition log_analysis (blocks : list Block) (now : string)
           (cid : string) (analysis : json) (content_text : string)
  : string * list Block :=
  let number := Z.of_nat (length blocks) in
  let payload := JDict [("content_text", JStr content_text);
                        ("analysis", analysis)] in
  let prev := last_hash blocks in
  let h := hash_data (block_dict number now cid payload prev) in
  let block := mkBlock number now cid payload prev h in
  (h, blocks ++ [block]).

Definition get_audit_record (blocks : list Block) (cid : string)
  : option Block :=
  find (fun b => String.eqb (content_id b) cid) blocks.

(** One call of [log_analysis], with the clock reading it sees. *)
Record LogCall : Type := mkLogCall {
  call_now : string;
  call_content_id : string;
  call_analysis : json;
  call_content_text : string
}.

(** The chain file after a sequence of calls, the calls one at a time. *)
Definition log_all (blocks : list Block) (calls : list LogCall)
  : list Block :=
  fold_left
    (fun blocks c =>
       snd (log_analysis blocks (call_now c) (call_content_id c)
                         (call_analysis c) (call_content_text c)))
    calls blocks.

End LocalBlockchainSimulator.

(** *** BlockchainAuditManager *)

Module BlockchainAuditManager.

(** What [getAuditRecord] returns, by the contract's ABI. *)
Record AuditRecord : Type := mkAuditRecord {
  ipfs_hash : string;
  risk_score : Z;
  action : string;
  record_timestamp : Z;
  auditor : string
}.

(** The two services the manager talks to.  [contract] is [None] when no
    contract is loaded; the call [getAuditRecord(content_id).call()] gives
    [None] when it raises.  [ipfs_cat] is the gateway's [/api/v0/cat]:
    [Some] for a 200 reply whose body parses, [None] otherwise. *)
Record Manager : Type := mkManager {
  contract : option (string -> option AuditRecord);
  ipfs_cat : string -> option json
}.

Definition get_audit_record (m : Manager) (cid : string)
  : option AuditRecord :=
  match contract m with
  | None => None
  | Some getAuditRecord => getAuditRecord cid
  end.

Definition retrieve_from_ipfs (m : Manager) (cid : string) : option json :=
  ipfs_cat m cid.

Definition verify_audit_integrity (m : Manager) (cid : string) : bool :=
  match get_audit_record m cid with
  | None => false
  | Some record =>
      match retrieve_from_ipfs m (ipfs_hash record) with
      | None => false
      | Some ipfs_data =>
          if negb (truthy ipfs_data) then false
          else
            let computed_hash := hash_data ipfs_data in
            true
      end
  end.

End BlockchainAuditManager.

End Blockchain.

(** ** core/action_executor.py *)

Module ActionExecutor.

(** [self.blockchain]: nothing, the Ethereum manager, or the local
    simulator with the blocks of its chain file. *)
Inductive Backend : Type :=
| NoBlockchain
| Ethereum (m : Blockchain.BlockchainAuditManager.Manager)
| Simulator (blocks : list Blockchain.LocalBlockchainSimulator.Block).

(** [hasattr(self.blockchain, 'verify_audit_integrity')]: the simulator
    class defines no such method. *)
Definition has_verify (b : Backend) : bool :=
  match b with
  | Ethereum _ => true
  | _ => false
  end.

(** [self.blockchain] as a truth value. *)
Definition enabled (b : Backend) : bool :=
  match b with
  | NoBlockchain => false
  | _ => true
  end.

Definition verify_audit_integrity (b : Backend) (cid : string) : bool :=
  if enabled b && has_verify b then
    match b with
    | Ethereum m =>
        Blockchain.BlockchainAuditManager.verify_audit_integrity m cid
    | _ => false
    end
  else false.

End ActionExecutor.

(** ** Python numbers and exceptions *)

Module Py.

(** A call returns a value or raises; an exception is named by its
    class. *)
Inductive result (A : Type) : Type :=
| Ok (a : A)
| Raise (exn : string).
Arguments Ok {A} a.
Arguments Raise {A} exn.

(** [max(a, b)] keeps [a] unless [b > a]; [min(a, b)] keeps [a] unless
    [b < a].  A NaN never compares, so it is kept where it stands
    first. *)
Definition max (a b : float) : float :=
  if (a <? b)%float then b else a.

Definition min (a b : float) : float :=
  if (b <? a)%float then b else a.

(** Nearest integer to [m * 2^e], ties to the even one. *)
Definition round_half_even (m e : Z) : Z :=
  if 0 <=? e then m * 2 ^ e
  else
    let d := 2 ^ (- e) in
    let q := m / d in
    let r := m mod d in
    if 2 * r <? d then q
    else if d <? 2 * r then q + 1
    else if Z.even q then q else q + 1.

(** [int(round(x))]: [round] raises on NaN and on the infinities. *)
Definition int_round (x : float) : result Z :=
  match Prim2SF x with
  | S754_nan => Raise "ValueError"
  | S754_infinity _ => Raise "OverflowError"
  | S754_zero _ => Ok 0
  | S754_finite s m e =>
      let n := round_half_even (Zpos m) e in
      Ok (if s then - n else n)
  end.

End Py.

(** ** The signals dict and the scoring result *)

(** The [signals] dict; a key that is absent is [None]. *)
Record Signals : Type := mkSignals {
  emotion_score : option float;
  cta_score : option float;
  tox_score : option float;
  context_score : option float;
  child_score : option float;
  child_flag : option bool;
  toxicity_severity : option string;
  requires_immediate_action : option bool;
  toxicity_categories : option (list string);
  child_severity : option string;
  child_exploitation_matches : option Z;
  child_combination_matches : option Z
}.

(** [signals.get(key, default)] *)
Definition get {A : Type} (field : option A) (default : A) : A :=
  match field with
  | Some v => v
  | None => default
  end.

(** The dict the scoring functions return.  [result_child_severity] is
    present in the result of core/signals/improved_scoring.py only. *)
Record ScoringResult : Type := mkScoringResult {
  risk_score : Z;
  risk_label : string;
  breakdown : list (string * float);
  child_escalation : bool;
  immediate_action_required : bool;
  result_toxicity_severity : string;
  result_child_severity : option string
}.

Definition severe_categories : list string :=
  ["Threats/Violence"; "Hate Speech"; "Sexual Harassment";
   "Extremist Content"; "Slurs/Derogatory Language"].

(** [sum(1 for cat in toxicity_categories if cat in severe_categories)] *)
Definition severe_count (toxicity_categories : list string) : Z :=
  Z.of_nat (length (List.filter (fun cat => existsb (String.eqb cat)
                                               severe_categories)
                           toxicity_categories)).

Definition label_of (risk_score : Z) : string :=
  if risk_score <=? 49 then "Low"
  else if risk_score <=? 74 then "Medium"
  else "High".

(** What the specification calls a malformed score: NaN, or outside
    [0, 1]. *)
Definition malformed (score : float) : bool :=
  is_nan score || (score <? 0)%float || (1 <? score)%float.

(** The five scores as the scoring functions read them. *)
Definition scores (signals : Signals) : list float :=
  [get (emotion_score signals) 0%float; get (cta_score signals) 0%float;
   get (tox_score signals) 0%float; get (context_score signals) 0%float;
   get (child_score signals) 0%float].

Definition has_nan (signals : Signals) : bool := existsb is_nan (scores signals).

(** The weighted sum in the words of the specification: child-safety 0.35,
    toxicity 0.30, emotion 0.20, call-to-action 0.10, context 0.05. *)
Definition spec_base_score (signals : Signals) : float :=
  (0.35 * get (child_score signals) 0 + 0.30 * get (tox_score signals) 0
   + 0.20 * get (emotion_score signals) 0 + 0.10 * get (cta_score signals) 0
   + 0.05 * get (context_score signals) 0)%float.

(** The score and the label of a scoring result, or the exception. *)
Definition outcome (r : Py.result ScoringResult) : Py.result (Z * string) :=
  match r with
  | Py.Ok a => Py.Ok (risk_score a, risk_label a)
  | Py.Raise e => Py.Raise e
  end.

(** ** core/scoring.py *)

Module Scoring.

Definition base_score (signals : Signals) : float :=
  let emotion := get (emotion_score signals) 0%float in
  let cta := get (cta_score signals) 0%float in
  let tox := get (tox_score signals) 0%float in
  let context := get (context_score signals) 0%float in
  let child := get (child_score signals) 0%float in
  (0.40 * tox + 0.25 * emotion + 0.15 * cta + 0.10 * context
   + 0.10 * child)%float.

(** The score after the overrides, before it is rounded and capped. *)
Definition overridden (signals : Signals) : float :=
  let emotion := get (emotion_score signals) 0%float in
  let cta := get (cta_score signals) 0%float in
  let tox := get (tox_score signals) 0%float in
  let child := get (child_score signals) 0%float in
  let child_flag := get (child_flag signals) false in
  let toxicity_severity := get (toxicity_severity signals) "low" in
  let requires_immediate_action :=
    get (requires_immediate_action signals) false in
  let toxicity_categories := get (toxicity_categories signals) [] in
  let risk_score := (base_score signals * 100)%float in
  let risk_score :=
    if requires_immediate_action then Py.max risk_score 85 else risk_score in
  let risk_score :=
    if String.eqb toxicity_severity "critical" then Py.max risk_score 90
    else if String.eqb toxicity_severity "high" then Py.max risk_score 75
    else risk_score in
  let severe_count := severe_count toxicity_categories in
  let risk_score :=
    if 2 <=? severe_count then Py.max risk_score 85
    else if 1 <=? severe_count then Py.max risk_score 70
    else risk_score in
  let risk_score :=
    if child_flag && (0.5 <? child)%float then Py.max risk_score 85
    else risk_score in
  let risk_score :=
    if (0.7 <? tox)%float && (0.6 <? emotion)%float
    then Py.min (risk_score * 1.2) 100 else risk_score in
  let risk_score :=
    if (0.7 <? tox)%float && (0.6 <? cta)%float
    then Py.min (risk_score * 1.25) 100 else risk_score in
  risk_score.

Definition calculate_improved_harm_score (signals : Signals)
  : Py.result ScoringResult :=
  let emotion := get (emotion_score signals) 0%float in
  let cta := get (cta_score signals) 0%float in
  let tox := get (tox_score signals) 0%float in
  let context := get (context_score signals) 0%float in
  let child := get (child_score signals) 0%float in
  let child_flag := get (child_flag signals) false in
  let toxicity_severity := get (toxicity_severity signals) "low" in
  let requires_immediate_action :=
    get (requires_immediate_action signals) false in
  match Py.int_round (overridden signals) with
  | Py.Raise e => Py.Raise e
  | Py.Ok rounded =>
      let risk_score := Z.min rounded 100 in
      Py.Ok {| risk_score := risk_score;
               risk_label := label_of risk_score;
               breakdown := [("Toxicity", tox); ("Emotion", emotion);
                             ("Call-to-Action", cta);
                             ("Context Sensitivity", context);
                             ("Child Safety", child)];
               child_escalation := child_flag && (0.5 <? child)%float;
               immediate_action_required := requires_immediate_action;
               result_toxicity_severity := toxicity_severity;
               result_child_severity := None |}
  end.

Definition calculate_harm_score := calculate_improved_harm_score.

End Scoring.

(** ** core/signals/improved_scoring.py *)

Module ImprovedScoring.

Definition base_score (signals : Signals) : float :=
  let emotion := get (emotion_score signals) 0%float in
  let cta := get (cta_score signals) 0%float in
  let tox := get (tox_score signals) 0%float in
  let context := get (context_score signals) 0%float in
  let child := get (child_score signals) 0%float in
  (0.35 * child + 0.30 * tox + 0.20 * emotion + 0.10 * cta
   + 0.05 * context)%float.

(** Overrides 1 to 4, one [if]/[elif] chain: the score and the updated
    [requires_immediate_action]. *)
Definition child_overrides (signals : Signals) (risk_score : float)
           (requires_immediate_action : bool) : float * bool :=
  let child := get (child_score signals) 0%float in
  let child_flag := get (child_flag signals) false in
  let child_severity := get (child_severity signals) "none" in
  let child_exploitation_matches :=
    get (child_exploitation_matches signals) 0 in
  let child_combination_matches :=
    get (child_combination_matches signals) 0 in
  if String.eqb child_severity "critical"
     || (1 <=? child_combination_matches)
  then (Py.max risk_score 95, true)
  else if String.eqb child_severity "high"
          || (2 <=? child_exploitation_matches)
  then (Py.max risk_score 85, true)
  else if child_flag && (0.6 <? child)%float
  then (Py.max risk_score 80, requires_immediate_action)
  else if child_flag && (1 <=? child_exploitation_matches)
  then (Py.max risk_score 85, true)
  else (risk_score, requires_immediate_action).

(** The score after overrides 1 to 10, before it is rounded and capped,
    with the final [requires_immediate_action]. *)
Definition overridden (signals : Signals) : float * bool :=
  let emotion := get (emotion_score signals) 0%float in
  let cta := get (cta_score signals) 0%float in
  let tox := get (tox_score signals) 0%float in
  let child_flag := get (child_flag signals) false in
  let toxicity_severity := get (toxicity_severity signals) "low" in
  let requires_immediate_action :=
    get (requires_immediate_action signals) false in
  let toxicity_categories := get (toxicity_categories signals) [] in
  let risk_score := (base_score signals * 100)%float in
  let '(risk_score, requires_immediate_action) :=
    child_overrides signals risk_score requires_immediate_action in
  let risk_score :=
    if requires_immediate_action && negb child_flag
    then Py.max risk_score 85 else risk_score in
  let risk_score :=
    if String.eqb toxicity_severity "critical" then Py.max risk_score 90
    else if String.eqb toxicity_severity "high" then Py.max risk_score 75
    else risk_score in
  let severe_count := severe_count toxicity_categories in
  let risk_score :=
    if 2 <=? severe_count then Py.max risk_score 85
    else if 1 <=? severe_count then Py.max risk_score 70
    else risk_score in
  let risk_score :=
    if (0.7 <? tox)%float && (0.6 <? emotion)%float
    then Py.min (risk_score * 1.2) 100 else risk_score in
  let risk_score :=
    if (0.7 <? tox)%float && (0.6 <? cta)%float
    then Py.min (risk_score * 1.25) 100 else risk_score in
  let risk_score :=
    if child_flag && ((0.6 <? tox)%float || (0.6 <? emotion)%float)
    then Py.min (risk_score * 1.3) 100 else risk_score in
  (risk_score, requires_immediate_action).

Definition calculate_improved_harm_score (signals : Signals)
  : Py.result ScoringResult :=
  let emotion := get (emotion_score signals) 0%float in
  let cta := get (cta_score signals) 0%float in
  let tox := get (tox_score signals) 0%float in
  let context := get (context_score signals) 0%float in
  let child := get (child_score signals) 0%float in
  let child_flag := get (child_flag signals) false in
  let toxicity_severity := get (toxicity_severity signals) "low" in
  let child_severity := get (child_severity signals) "none" in
  let '(risk_score, requires_immediate_action) := overridden signals in
  match Py.int_round risk_score with
  | Py.Raise e => Py.Raise e
  | Py.Ok rounded =>
      let risk_score := Z.min rounded 100 in
      Py.Ok {| risk_score := risk_score;
               risk_label := label_of risk_score;
               breakdown := [("Child Safety", child); ("Toxicity", tox);
                             ("Emotion", emotion); ("Call-to-Action", cta);
                             ("Context Sensitivity", context)];
               child_escalation := child_flag && (0.5 <? child)%float;
               immediate_action_required :=
                 requires_immediate_action
                 || existsb (String.eqb child_severity)
                            ["critical"; "high"];
               result_toxicity_severity := toxicity_severity;
               result_child_severity := Some child_severity |}
  end.

Definition calculate_harm_score := calculate_improved_harm_score.

End ImprovedScoring.

(** ** core/actions.py *)

Module Actions.

Record Action : Type := mkAction {
  action : string;
  queue : string;
  priority : string;
  rationale : string;
  recommended_steps : list string
}.

(** The [signals] argument is not read. *)
Definition recommend_action (scoring_result : ScoringResult) : Action :=
  let risk_score := risk_score scoring_result in
  let child_escalation := child_escalation scoring_result in
  if child_escalation then
    {| action := "ESCALATE IMMEDIATELY";
       queue := "Child Safety";
       priority := "CRITICAL";
       rationale := "Child safety concern requires immediate human review by specialized team.";
       recommended_steps :=
         ["Route to Child Safety specialists";
          "Preserve all evidence";
          "Immediate review required (SLA: <15 min)";
          "Consider account investigation"] |}
  else if risk_score <=? 39 then
    {| action := "Monitor";
       queue := "Automated Monitoring";
       priority := "LOW";
       rationale := "Low harm risk. Continue automated monitoring for patterns.";
       recommended_steps :=
         ["Log for pattern analysis";
          "No immediate action required";
          "Track engagement metrics";
          "Re-evaluate if viral spread detected"] |}
  else if risk_score <=? 69 then
    {| action := "Add Warning / Reduce Reach";
       queue := "Automated + Sampling Review";
       priority := "MEDIUM";
       rationale := "Moderate harm risk. Apply soft interventions to reduce potential spread.";
       recommended_steps :=
         ["Append context/fact-check label if available";
          "Reduce algorithmic amplification";
          "Flag for random sampling review";
          "Monitor user reports"] |}
  else
    {| action := "Human Review Required";
       queue := "Priority Review Queue";
       priority := "HIGH";
       rationale := "High harm risk. Requires human judgment before further action.";
       recommended_steps :=
         ["Route to human moderators immediately";
          "Temporarily reduce reach pending review";
          "Review account history";
          "Prepare for potential removal/suspension"] |}.

End Actions.

(** ** core/database.py *)

Module Database.

(** A row of [content_analysis], with the columns the queue query reads. *)
Record AnalysisRow : Type := mkAnalysisRow {
  analysis_content_id : string;
  content_text : string;
  analysis_risk_score : Z;
  reasons : option string
}.

(** A row of [moderation_queue].  A nullable column is an [option]; a
    timestamp is the text [CURRENT_TIMESTAMP] gives,
    [YYYY-MM-DD HH:MM:SS]. *)
Record QueueRow : Type := mkQueueRow {
  id : Z;
  content_id : string;
  queue_name : string;
  priority : string;
  assigned_to : option string;
  status : string;
  created_at : string;
  reviewed_at : option string;
  reviewer_decision : option string;
  reviewer_notes : option string
}.

(** A row of [escalations]. *)
Record EscalationRow : Type := mkEscalationRow {
  esc_id : Z;
  esc_content_id : string;
  escalated_by : string;
  escalation_reason : string;
  escalation_type : string;
  esc_priority : string;
  esc_status : string;
  esc_assigned_to : option string;
  response_time_estimate : option string;
  esc_created_at : string;
  updated_at : string;
  responded_at : option string;
  resolved_at : option string;
  resolution_notes : option string
}.

Record ModerationDatabase : Type := mkDatabase {
  content_analysis : list AnalysisRow;
  moderation_queue : list QueueRow;
  escalations : list EscalationRow
}.

(** [INTEGER PRIMARY KEY AUTOINCREMENT]: one more than the largest id in
    use; no statement of the class deletes a row. *)
Definition next_id (ids : list Z) : Z := 1 + fold_right Z.max 0 ids.

(** [add_to_queue]: one INSERT, the other columns take their defaults.
    SQLite does not enforce the foreign key unless asked to, and the
    class never asks.  [now] is the reading of [CURRENT_TIMESTAMP]. *)
Definition add_to_queue (db : ModerationDatabase) (now : string)
           (content_id queue_name priority : string) : ModerationDatabase :=
  let row :=
    {| id := next_id (map id (moderation_queue db));
       content_id := content_id;
       queue_name := queue_name;
       priority := priority;
       assigned_to := None;
       status := "pending";
       created_at := now;
       reviewed_at := None;
       reviewer_decision := None;
       reviewer_notes := None |} in
  {| content_analysis := content_analysis db;
     moderation_queue := moderation_queue db ++ [row];
     escalations := escalations db |}.

(** The joined row [get_queue_items] returns:
    [q.*, c.content_text, c.risk_score, c.reasons]. *)
Record QueueItem : Type := mkQueueItem {
  entry : QueueRow;
  item_content_text : string;
  item_risk_score : Z;
  item_reasons : option string
}.

(** [CASE q.priority WHEN 'CRITICAL' THEN 1 ... ELSE 4 END] *)
Definition priority_rank (priority : string) : Z :=
  if String.eqb priority "CRITICAL" then 1
  else if String.eqb priority "HIGH" then 2
  else if String.eqb priority "MEDIUM" then 3
  else 4.

(** The ORDER BY key compared: the rank, then [created_at] as text. *)
Definition order_leb (a b : QueueItem) : bool :=
  let ra := priority_rank (priority (entry a)) in
  let rb := priority_rank (priority (entry b)) in
  (ra <? rb)
  || ((ra =? rb)
      && String.leb (created_at (entry a)) (created_at (entry b))).

Definition order_le (a b : QueueItem) : Prop := order_leb a b = true.

#[export] Instance order_le_dec a b : Decision (order_le a b).
Proof. unfold order_le. apply _. Defined.

(** Python's truth value of an optional string argument. *)
Definition given (arg : option string) : bool :=
  match arg with
  | Some s => negb (String.eqb s EmptyString)
  | None => false
  end.

(** [FROM moderation_queue q JOIN content_analysis c
     ON q.content_id = c.content_id WHERE ...], before ORDER BY. *)
Definition select_queue_items (db : ModerationDatabase)
           (queue_name : option string) (status : string)
  : list QueueItem :=
  let wanted (q : QueueRow) : bool :=
    if given queue_name
    then String.eqb (Database.queue_name q) (get queue_name EmptyString)
         && String.eqb (Database.status q) status
    else String.eqb (Database.status q) status in
  flat_map
    (fun q =>
       map (fun c => {| entry := q;
                        item_content_text := content_text c;
                        item_risk_score := analysis_risk_score c;
                        item_reasons := reasons c |})
           (List.filter (fun c => String.eqb (content_id q)
                                        (analysis_content_id c))
                   (content_analysis db)))
    (List.filter wanted (moderation_queue db)).

(** ORDER BY.  The sorter is stable: rows whose keys are equal stay in
    the order in which the scan produced them, which is the rowid order
    of the outer table.  Each row is put before the first row that does
    not sort before it. *)
Fixpoint insert_sorted {A : Type} (leb : A -> A -> bool) (x : A)
         (l : list A) : list A :=
  match l with
  | [] => [x]
  | y :: rest =>
      if leb x y then x :: l else y :: insert_sorted leb x rest
  end.

Fixpoint order_by {A : Type} (leb : A -> A -> bool) (l : list A) : list A :=
  match l with
  | [] => []
  | x :: rest => insert_sorted leb x (order_by leb rest)
  end.

(** Two rows as an ORDER BY leaves them: in the order of their keys, and
    in the order [before] when the keys are equal. *)
Definition kept {A : Type} (leb : A -> A -> bool) (before : A -> A -> Prop)
           (a b : A) : Prop :=
  leb a b = true /\ (leb b a = true -> before a b).

(** [status] defaults to ['pending'] at the call. *)
Definition get_queue_items (db : ModerationDatabase)
           (queue_name : option string) (status : string)
  : list QueueItem :=
  order_by order_leb (select_queue_items db queue_name status).

(** [COALESCE(?, column)] *)
Definition coalesce (arg column : option string) : option string :=
  match arg with
  | Some v => Some v
  | None => column
  end.

(** [update_queue_status]: one UPDATE ... WHERE id = ?. *)
Definition update_queue_status (db : ModerationDatabase) (now : string)
           (queue_id : Z) (status : string)
           (reviewer decision notes : option string) : ModerationDatabase :=
  let update (q : QueueRow) : QueueRow :=
    if id q =? queue_id then
      {| id := id q;
         content_id := content_id q;
         queue_name := queue_name q;
         priority := priority q;
         assigned_to := coalesce reviewer (assigned_to q);
         status := status;
         created_at := created_at q;
         reviewed_at := Some now;
         reviewer_decision := coalesce decision (reviewer_decision q);
         reviewer_notes := coalesce notes (reviewer_notes q) |}
    else q in
  {| content_analysis := content_analysis db;
     moderation_queue := map update (moderation_queue db);
     escalations := escalations db |}.

Definition time_estimate (priority : string) : string :=
  if String.eqb priority "CRITICAL" then "< 1 hour"
  else if String.eqb priority "HIGH" then "2-4 hours"
  else if String.eqb priority "MEDIUM" then "4-8 hours"
  else if String.eqb priority "LOW" then "24-48 hours"
  else "24-48 hours".

(** [create_escalation] returns [cursor.lastrowid]. *)
Definition create_escalation (db : ModerationDatabase) (now : string)
           (content_id escalated_by reason escalation_type priority : string)
  : Z * ModerationDatabase :=
  let escalation_id := next_id (map esc_id (escalations db)) in
  let row :=
    {| esc_id := escalation_id;
       esc_content_id := content_id;
       escalated_by := escalated_by;
       escalation_reason := reason;
       escalation_type := escalation_type;
       esc_priority := priority;
       esc_status := "pending";
       esc_assigned_to := None;
       response_time_estimate := Some (time_estimate priority);
       esc_created_at := now;
       updated_at := now;
       responded_at := None;
       resolved_at := None;
       resolution_notes := None |} in
  (escalation_id,
   {| content_analysis := content_analysis db;
      moderation_queue := moderation_queue db;
      escalations := escalations db ++ [row] |}).

(** [update_escalation_status]: the SET list is assembled field by
    field, then one UPDATE ... WHERE id = ? runs. *)
Definition update_escalation_status (db : ModerationDatabase) (now : string)
           (escalation_id : Z) (status : string)
           (assigned_to resolution_notes : option string)
  : ModerationDatabase :=
  let update (e : EscalationRow) : EscalationRow :=
    if esc_id e =? escalation_id then
      {| esc_id := esc_id e;
         esc_content_id := esc_content_id e;
         escalated_by := escalated_by e;
         escalation_reason := escalation_reason e;
         escalation_type := escalation_type e;
         esc_priority := esc_priority e;
         esc_status := status;
         esc_assigned_to :=
           if given assigned_to then assigned_to else esc_assigned_to e;
         response_time_estimate := response_time_estimate e;
         esc_created_at := esc_created_at e;
         updated_at := now;
         responded_at :=
           if String.eqb status "responded"
              && match resolution_notes with None => true | _ => false end
           then Some now else responded_at e;
         resolved_at :=
           if String.eqb status "resolved" then Some now
           else resolved_at e;
         resolution_notes :=
           if String.eqb status "resolved" && given resolution_notes
           then resolution_notes else Database.resolution_notes e |}
    else e in
  {| content_analysis := content_analysis db;
     moderation_queue := moderation_queue db;
     escalations := map update (escalations db) |}.

End Database.

(** ** Concrete inputs used below *)

Module Scenarios.
Import Database Blockchain.
Import LocalBlockchainSimulator BlockchainAuditManager.

(** The analysis the integration test logs. *)
Definition sample_analysis : json :=
  JDict [("risk_score", JInt 85); ("risk_label", JStr "High");
         ("action", JStr "Human Review Required");
         ("priority", JStr "HIGH");
         ("categories", JList [JStr "Test"]);
         ("reasons", JList [JStr "Test reason"])].

Definition two_calls : list LogCall :=
  [mkLogCall "2026-02-07T23:26:02.123456" "test_001" sample_analysis
             "Test content";
   mkLogCall "2026-02-07T23:26:03.000001" "test_002" sample_analysis
             "More test content"].

(** The two blocks those calls leave in the chain file, computed. *)
Definition two_blocks : list Block :=
  Eval vm_compute in log_all [] two_calls.

Definition second_block : Block :=
  Eval vm_compute in
    match two_blocks with
    | [_; b] => b
    | _ => mkBlock 0 EmptyString EmptyString JNull EmptyString EmptyString
    end.

(** The audit data [log_analysis_to_blockchain] stores to IPFS and whose
    digest it logs on chain, and the same data with the decision
    rewritten afterwards. *)
Definition audit_data : json :=
  JDict [("content_id", JStr "post-1");
         ("content_text", JStr "Test content");
         ("risk_score", JInt 85); ("risk_label", JStr "High");
         ("categories", JList [JStr "Test"]);
         ("action", JStr "Human Review Required");
         ("priority", JStr "HIGH");
         ("reasons", JList [JStr "Test reason"]);
         ("timestamp", JStr "2026-02-07T23:26:02.123456");
         ("system_version", JStr "HarmLens v1.0")].

Definition tampered_audit_data : json :=
  JDict [("content_id", JStr "post-1");
         ("content_text", JStr "Test content");
         ("risk_score", JInt 5); ("risk_label", JStr "Low");
         ("categories", JList [JStr "Test"]);
         ("action", JStr "Monitor");
         ("priority", JStr "LOW");
         ("reasons", JList [JStr "Test reason"]);
         ("timestamp", JStr "2026-02-07T23:26:02.123456");
         ("system_version", JStr "HarmLens v1.0")].

Definition logged_record : AuditRecord :=
  mkAuditRecord "QmAudit1" 85 "Human Review Required" 1770506762
                "0x90F8bf6A479f320ead074411a4B0e7944Ea8c9C1".

(** A manager whose contract holds that record for post-1 and whose
    IPFS gateway serves [stored] under the record's CID. *)
Definition manager_serving (stored : json) : Manager :=
  mkManager
    (Some (fun cid => if String.eqb cid "post-1" then Some logged_record
                      else None))
    (fun cid => if String.eqb cid "QmAudit1" then Some stored else None).

(** A queue with one reviewed entry, reviewed by alice. *)
Definition reviewed_once : ModerationDatabase :=
  let db0 := mkDatabase [] [] [] in
  let db1 := add_to_queue db0 "2026-02-07 23:26:02" "post-1"
                          "Priority Review Queue" "HIGH" in
  update_queue_status db1 "2026-02-07 23:30:00" 1 "reviewed"
                      (Some "alice") (Some "approve") None.

(** One escalation, created and then taken in progress by admin. *)
Definition escalated_once : ModerationDatabase :=
  let db0 := mkDatabase [] [] [] in
  let db1 := snd (create_escalation db0 "2026-02-07 23:26:02" "post-1"
                                    "moderator" "Possible grooming"
                                    "child_safety" "CRITICAL") in
  update_escalation_status db1 "2026-02-07 23:28:00" 1 "in-progress"
                           (Some "admin") None.

(** A signals dict that carries the five scores only, as the API server
    builds it when no flag is raised. *)
Definition scores_only (emotion cta tox context child : float) : Signals :=
  mkSignals (Some emotion) (Some cta) (Some tox) (Some context)
            (Some child) None None None None None None None.

(** Toxicity 1, everything else 0. *)
Definition tox_only : Signals := scores_only 0 0 1 0 0.

(** A toxicity score of -3, and one that is NaN. *)
Definition negative_tox : Signals := scores_only 0 0 (-3) 0 0.
Definition nan_tox : Signals := scores_only 0 0 nan 0 0.

(** Toxicity and emotion 1.5. *)
Definition above_one : Signals := scores_only 1.5 0 1.5 0 0.

(** A flagged item with one exploitation match and medium severity, at
    a given child-safety score; every other score is 0. *)
Definition flagged_child (child : float) : Signals :=
  mkSignals (Some 0%float) (Some 0%float) (Some 0%float) (Some 0%float)
            (Some child) (Some true) (Some "low") (Some false) (Some [])
            (Some "medium") (Some 1) (Some 0).

(** A scoring result with a given score, label and escalation flag. *)
Definition assessment (score : Z) (label : string) (escalation : bool)
  : ScoringResult :=
  mkScoringResult score label [] escalation false "low" None.

End Scenarios.

(** ** core/scoring.py: the harm categories *)

Module Categories.

(** The loop that removes duplicates while it keeps the order: [seen] is
    the set, [unique] the list built so far. *)
Fixpoint dedupe (categories seen unique : list string) : list string :=
  match categories with
  | [] => unique
  | cat :: rest =>
      if existsb (String.eqb cat) seen then dedupe rest seen unique
      else dedupe rest (cat :: seen) (unique ++ [cat])
  end.

(** [category_map.get(context_topic, 'Sensitive Context')] *)
Definition category_map (context_topic : string) : string :=
  if String.eqb context_topic "health" then "Health Misinformation Risk"
  else if String.eqb context_topic "election"
  then "Election Misinformation Risk"
  else if String.eqb context_topic "communal" then "Communal Tension Risk"
  else if String.eqb context_topic "disaster"
  then "Disaster/Emergency Misinformation"
  else "Sensitive Context".

(** [toxicity_categories == ['Safe']] *)
Definition safe_only (toxicity_categories : list string) : bool :=
  match toxicity_categories with
  | [cat] => String.eqb cat "Safe"
  | _ => false
  end.

(** The list before duplicates are removed.  The keys [emotion_labels]
    and [context_topic] of the signals dict are the two extra
    arguments. *)
Definition collected (signals : Signals)
           (emotion_labels : option (list string))
           (context_topic : option string) (threshold : float)
  : list string :=
  let toxicity_categories := get (toxicity_categories signals) [] in
  let categories :=
    if negb (Nat.eqb (length toxicity_categories) 0)
       && negb (safe_only toxicity_categories)
    then toxicity_categories else [] in
  let categories :=
    if (threshold <=? get (emotion_score signals) 0)%float then
      let emotion_labels := get emotion_labels [] in
      if existsb (String.eqb "fear") emotion_labels
         || existsb (String.eqb "anger") emotion_labels
      then categories ++ ["Panic/Fear-mongering"]
      else if existsb (String.eqb "sadness") emotion_labels
      then categories ++ ["High Emotional Intensity"]
      else categories
    else categories in
  let categories :=
    if (threshold <=? get (cta_score signals) 0)%float
    then categories ++ ["Mobilization/Call-to-Action"] else categories in
  let categories :=
    if (threshold <=? get (context_score signals) 0)%float then
      let context_topic := get context_topic "none" in
      if negb (String.eqb context_topic "none")
      then categories ++ [category_map context_topic] else categories
    else categories in
  let categories :=
    if get (child_flag signals) false then
      if negb (existsb (String.eqb "Child Safety") categories)
      then categories ++ ["Child Safety Concern"] else categories
    else categories in
  categories.

(** [get_improved_harm_categories], the same text in core/scoring.py and
    core/signals/improved_scoring.py; [threshold] defaults to 0.3 at the
    call. *)
Definition get_improved_harm_categories (signals : Signals)
           (emotion_labels : option (list string))
           (context_topic : option string) (threshold : float)
  : list string :=
  let unique_categories :=
    dedupe (collected signals emotion_labels context_topic threshold) [] [] in
  match unique_categories with
  | [] => unique_categories ++ ["General Content"]
  | _ => unique_categories
  end.

Definition get_harm_categories := get_improved_harm_categories.

End Categories.

(** ** core/actions.py: the action card *)

Module ActionCard.

Record Card : Type := mkCard {
  title : string;
  card_queue : string;
  card_priority : string;
  priority_color : string;
  card_rationale : string;
  steps : list string
}.

Definition priority_colors : list (string * string) :=
  [("CRITICAL", "#dc2626"); ("HIGH", "#ea580c"); ("MEDIUM", "#f59e0b");
   ("LOW", "#10b981")].

(** [d.get(key, default)] on a dict given by its items. *)
Definition lookup_default (d : list (string * string)) (key default : string)
  : string :=
  match find (fun kv => String.eqb (fst kv) key) d with
  | Some kv => snd kv
  | None => default
  end.

Definition format_action_card (action_result : Actions.Action) : Card :=
  {| title := Actions.action action_result;
     card_queue := Actions.queue action_result;
     card_priority := Actions.priority action_result;
     priority_color :=
       lookup_default priority_colors (Actions.priority action_result)
                      "#6b7280";
     card_rationale := Actions.rationale action_result;
     steps := Actions.recommended_steps action_result |}.

End ActionCard.

(** ** core/database.py: every table *)

Module Storage.
Import Database.

(** A row of [content_analysis], all columns. *)
Record ContentRow : Type := mkContentRow {
  row_id : Z;
  row_content_id : string;
  row_user_id : option string;
  row_platform : option string;
  row_content_text : string;
  row_risk_score : Z;
  row_risk_label : string;
  row_categories : option string;
  row_action : string;
  row_priority : string;
  row_queue : string;
  row_reasons : option string;
  row_child_escalation : bool;
  row_processing_time_ms : float;
  row_created_at : string;
  row_status : string
}.

Record ActionLogRow : Type := mkActionLogRow {
  log_id : Z;
  log_content_id : string;
  action_type : string;
  action_result : option string;
  executed_at : string;
  log_error : option string
}.

Record WebhookLogRow : Type := mkWebhookLogRow {
  delivery_id : Z;
  delivery_content_id : string;
  webhook_url : string;
  status_code : Z;
  response : string;
  delivered_at : string
}.

(** The five tables of the database file. *)
Record Store : Type := mkStore {
  contents : list ContentRow;
  queue_rows : list QueueRow;
  escalation_rows : list EscalationRow;
  action_log : list ActionLogRow;
  webhook_log : list WebhookLogRow
}.

(** The three tables the queue and escalation statements work on, with
    the columns of [content_analysis] that the queue query reads. *)
Definition view (s : Store) : ModerationDatabase :=
  {| content_analysis :=
       map (fun r => mkAnalysisRow (row_content_id r) (row_content_text r)
                                   (row_risk_score r) (row_reasons r))
           (contents s);
     moderation_queue := queue_rows s;
     escalations := escalation_rows s |}.

(** A statement that writes the queue or the escalations, run on the
    store. *)
Definition write (s : Store) (db : ModerationDatabase) : Store :=
  {| contents := contents s;
     queue_rows := moderation_queue db;
     escalation_rows := escalations db;
     action_log := action_log s;
     webhook_log := webhook_log s |}.

(** The [analysis] and [request_data] dicts of [save_analysis]. *)
Record Analysis : Type := mkAnalysis {
  risk_score : Z;
  risk_label : string;
  categories : list string;
  action : string;
  priority : string;
  queue : string;
  reasons : list string;
  child_escalation : option bool;
  processing_time_ms : option float
}.

Record RequestData : Type := mkRequestData {
  user_id : option string;
  platform : option string;
  text : option string
}.

(** [json.dumps] of a list of strings. *)
Definition dumps_list (l : list string) : string :=
  dumps false (JList (map JStr l)).

(** [save_analysis].  The INSERT fails with IntegrityError, and the
    method returns False, when the content id is in the table already
    (UNIQUE) or the text is None (NOT NULL). *)
Definition save_analysis (s : Store) (now : string) (content_id : string)
           (analysis : Analysis) (request_data : RequestData)
  : bool * Store :=
  if existsb (fun r => String.eqb (row_content_id r) content_id) (contents s)
  then (false, s)
  else
    match text request_data with
    | None => (false, s)
    | Some content_text =>
        let row :=
          {| row_id := next_id (map row_id (contents s));
             row_content_id := content_id;
             row_user_id := user_id request_data;
             row_platform := platform request_data;
             row_content_text := content_text;
             row_risk_score := risk_score analysis;
             row_risk_label := risk_label analysis;
             row_categories := Some (dumps_list (categories analysis));
             row_action := action analysis;
             row_priority := priority analysis;
             row_queue := queue analysis;
             row_reasons := Some (dumps_list (reasons analysis));
             row_child_escalation := get (child_escalation analysis) false;
             row_processing_time_ms :=
               get (processing_time_ms analysis) 0%float;
             row_created_at := now;
             row_status := "pending" |} in
        (true,
         {| contents := contents s ++ [row];
            queue_rows := queue_rows s;
            escalation_rows := escalation_rows s;
            action_log := action_log s;
            webhook_log := webhook_log s |})
    end.

Definition add_to_queue (s : Store) (now content_id queue_name priority : string)
  : Store :=
  write s (Database.add_to_queue (view s) now content_id queue_name priority).

Definition get_queue_items (s : Store) (queue_name : option string)
           (status : string) : list QueueItem :=
  Database.get_queue_items (view s) queue_name status.

Definition update_queue_status (s : Store) (now : string) (queue_id : Z)
           (status : string) (reviewer decision notes : option string)
  : Store :=
  write s (Database.update_queue_status (view s) now queue_id status
                                        reviewer decision notes).

Definition log_action (s : Store) (now content_id action_type : string)
           (result error : option string) : Store :=
  {| contents := contents s;
     queue_rows := queue_rows s;
     escalation_rows := escalation_rows s;
     action_log :=
       action_log s
       ++ [mkActionLogRow (next_id (map log_id (action_log s))) content_id
                          action_type result now error];
     webhook_log := webhook_log s |}.

Definition log_webhook_delivery (s : Store) (now content_id webhook_url : string)
           (status_code : Z) (response : string) : Store :=
  {| contents := contents s;
     queue_rows := queue_rows s;
     escalation_rows := escalation_rows s;
     action_log := action_log s;
     webhook_log :=
       webhook_log s
       ++ [mkWebhookLogRow (next_id (map delivery_id (webhook_log s)))
                           content_id webhook_url status_code response now] |}.

(** A row [get_escalations] returns:
    [e.*, c.content_text, c.risk_score, c.risk_label, c.categories], the
    last four NULL when the LEFT JOIN finds no analysis. *)
Record EscalationItem : Type := mkEscalationItem {
  escalation : EscalationRow;
  item_text : option string;
  item_score : option Z;
  item_label : option string;
  item_categories : option string
}.

(** The ORDER BY key of [get_escalations] compared: the priority rank,
    then [created_at] descending. *)
Definition escalation_leb (a b : EscalationItem) : bool :=
  let ra := priority_rank (esc_priority (escalation a)) in
  let rb := priority_rank (esc_priority (escalation b)) in
  (ra <? rb)
  || ((ra =? rb)
      && String.leb (esc_created_at (escalation b))
                    (esc_created_at (escalation a))).

Definition escalation_le (a b : EscalationItem) : Prop :=
  escalation_leb a b = true.

#[export] Instance escalation_le_dec a b : Decision (escalation_le a b).
Proof. unfold escalation_le. apply _. Defined.

(** [FROM escalations e LEFT JOIN content_analysis c ON ... WHERE 1=1]
    with the optional conditions, before ORDER BY. *)
Definition select_escalations (s : Store) (status escalated_by : option string)
  : list EscalationItem :=
  let wanted (e : EscalationRow) : bool :=
    (if given status then String.eqb (esc_status e) (get status EmptyString)
     else true)
    && (if given escalated_by
        then String.eqb (Database.escalated_by e)
                        (get escalated_by EmptyString)
        else true) in
  flat_map
    (fun e =>
       match List.filter (fun c => String.eqb (esc_content_id e)
                                              (row_content_id c))
                         (contents s) with
       | [] => [mkEscalationItem e None None None None]
       | matches =>
           map (fun c => mkEscalationItem e (Some (row_content_text c))
                                          (Some (row_risk_score c))
                                          (Some (row_risk_label c))
                                          (row_categories c))
               matches
       end)
    (List.filter wanted (escalation_rows s)).

Definition get_escalations (s : Store) (status escalated_by : option string)
  : list EscalationItem :=
  order_by escalation_leb (select_escalations s status escalated_by).

Definition create_escalation (s : Store)
           (now content_id escalated_by reason escalation_type priority : string)
  : Z * Store :=
  let '(escalation_id, db) :=
    Database.create_escalation (view s) now content_id escalated_by reason
                               escalation_type priority in
  (escalation_id, write s db).

Definition update_escalation_status (s : Store) (now : string)
           (escalation_id : Z) (status : string)
           (assigned_to resolution_notes : option string) : Store :=
  write s (Database.update_escalation_status (view s) now escalation_id
                                             status assigned_to
                                             resolution_notes).

End Storage.

(** ** More concrete inputs *)

Module Cases.
Import Blockchain LocalBlockchainSimulator Scenarios.

Definition first_block : Block :=
  Eval vm_compute in
    match two_blocks with
    | b :: _ => b
    | _ => mkBlock 0 EmptyString EmptyString JNull EmptyString EmptyString
    end.

(** The first content id logged again, now as low risk. *)
Definition relog : LogCall :=
  mkLogCall "2026-02-08T08:00:00.000000" "test_001"
            (JDict [("risk_score", JInt 5); ("risk_label", JStr "Low")])
            "Test content".

End Cases.

(** ** core/action_executor.py: executing the actions *)

Module Execution.
Import Database Storage.

(** [self.webhooks]: the three URLs read from the environment. *)
Record Webhooks : Type := mkWebhooks {
  high_risk : option string;
  child_safety : option string;
  escalation_url : option string
}.

(** What [requests.post] does: a response with its status code and text,
    or an exception with its message. *)
Inductive HttpOutcome : Type :=
| Responded (status_code : Z) (text : string)
| Failed (message : string).

(** What surrounds one call: the configured webhooks, the HTTP service,
    the readings of [CURRENT_TIMESTAMP] and of
    [datetime.utcnow().isoformat()] at the successive statements, and, for
    the Ethereum manager, what [log_analysis_to_blockchain],
    [log_escalation_to_blockchain] and [store_to_ipfs] return once a
    contract is loaded. *)
Record Environment : Type := mkEnvironment {
  webhooks : Webhooks;
  post : string -> json -> HttpOutcome;
  current_timestamp : nat -> string;
  utcnow : nat -> string;
  analysis_tx : option string;
  escalation_tx : option string;
  ipfs_cid : option string
}.

(** The executor: its database and [self.blockchain]. *)
Record Executor : Type := mkExecutor {
  db : Store;
  blockchain : ActionExecutor.Backend
}.

(** The dict [execute_analysis_actions] returns. *)
Record Results : Type := mkResults {
  result_content_id : string;
  database_saved : bool;
  queue_added : bool;
  webhook_sent : bool;
  blockchain_logged : bool;
  ipfs_hash : option string;
  tx_hash : option string;
  errors : list string
}.

(** [x in ['HIGH', 'CRITICAL', 'MEDIUM']] and the like. *)
Definition among (x : string) (l : list string) : bool :=
  existsb (String.eqb x) l.

(** The list [_send_webhooks] builds first: event type and URL. *)
Definition webhooks_to_send (hooks : Webhooks) (analysis : Analysis)
  : list (string * string) :=
  (if get (child_escalation analysis) false then
     if given (child_safety hooks)
     then [("child_safety", get (child_safety hooks) EmptyString)] else []
   else [])
  ++ (if among (priority analysis) ["HIGH"; "CRITICAL"] then
        if given (high_risk hooks)
        then [("high_risk", get (high_risk hooks) EmptyString)] else []
      else []).

Definition webhook_payload (webhook_type content_id : string)
           (analysis : Analysis) (timestamp : string) : json :=
  JDict [("event", JStr webhook_type);
         ("content_id", JStr content_id);
         ("risk_score", JInt (risk_score analysis));
         ("risk_label", JStr (risk_label analysis));
         ("action", JStr (action analysis));
         ("priority", JStr (priority analysis));
         ("categories", JList (map JStr (categories analysis)));
         ("timestamp", JStr timestamp)].

(** The result dict of [_send_webhooks], with the store. *)
Record WebhookResult : Type := mkWebhookResult {
  sent : bool;
  responses : list (string * Z * bool);
  webhook_error : option string
}.

(** The loop over the webhooks to send; [tick] counts the statements. *)
Fixpoint send_each (env : Environment) (content_id : string)
         (analysis : Analysis) (to_send : list (string * string))
         (tick : nat) (s : Store) (result : WebhookResult)
  : Store * WebhookResult :=
  match to_send with
  | [] => (s, result)
  | (webhook_type, webhook_url) :: rest =>
      let payload :=
        webhook_payload webhook_type content_id analysis
                        (utcnow env tick) in
      match post env webhook_url payload with
      | Responded code body =>
          let s :=
            log_webhook_delivery s (current_timestamp env tick) content_id
                                 webhook_url code
                                 (String.substring 0 500 body) in
          send_each env content_id analysis rest (S tick) s
                    {| sent := true;
                       responses :=
                         responses result
                         ++ [(webhook_type, code, code =? 200)];
                       webhook_error := webhook_error result |}
      | Failed message =>
          let s :=
            log_webhook_delivery s (current_timestamp env tick) content_id
                                 webhook_url 0 message in
          send_each env content_id analysis rest (S tick) s
                    {| sent := sent result;
                       responses := responses result;
                       webhook_error :=
                         Some ("Webhook " +:+ webhook_type +:+ " failed: "
                                          +:+ message) |}
      end
  end.

Definition _send_webhooks (env : Environment) (s : Store)
           (content_id : string) (analysis : Analysis) (tick : nat)
  : Store * WebhookResult :=
  send_each env content_id analysis
            (webhooks_to_send (webhooks env) analysis) tick s
            {| sent := false; responses := []; webhook_error := None |}.

(** The message of the AttributeError raised when the local simulator
    is asked for a method of the Ethereum manager. *)
Definition no_attribute (method : string) : string :=
  "'LocalBlockchainSimulator' object has no attribute '" +:+ method +:+ "'".

(** What the Ethereum manager's logging method returns: None without a
    contract. *)
Definition manager_tx (m : Blockchain.BlockchainAuditManager.Manager)
           (tx : option string) : option string :=
  match Blockchain.BlockchainAuditManager.contract m with
  | None => None
  | Some _ => tx
  end.

Definition execute_analysis_actions (env : Environment) (ex : Executor)
           (content_id : string) (analysis : Analysis)
           (request_data : RequestData) : Results * Executor :=
  (* 1. Save to database *)
  let '(saved, s) :=
    save_analysis (db ex) (current_timestamp env 0) content_id analysis
                  request_data in
  let s :=
    if saved
    then log_action s (current_timestamp env 1) content_id "analysis_saved"
                    (Some "success") None
    else s in
  (* 2. Add to moderation queue if needed *)
  let queued := among (priority analysis) ["HIGH"; "CRITICAL"; "MEDIUM"] in
  let s :=
    if queued then
      let s := add_to_queue s (current_timestamp env 2) content_id
                            (queue analysis) (priority analysis) in
      log_action s (current_timestamp env 3) content_id "added_to_queue"
                 (Some (queue analysis)) None
    else s in
  (* 3. Send webhook notifications *)
  let '(s, webhook_result) := _send_webhooks env s content_id analysis 4 in
  let errors :=
    match webhook_error webhook_result with
    | Some e => [e]
    | None => []
    end in
  (* 4. Log to blockchain with IPFS storage *)
  match blockchain ex with
  | ActionExecutor.NoBlockchain =>
      (mkResults content_id saved queued (sent webhook_result) false None
                 None errors,
       mkExecutor s (blockchain ex))
  | ActionExecutor.Simulator _ =>
      (mkResults content_id saved queued (sent webhook_result) false None
                 None
                 (errors ++ ["Blockchain logging failed: "
                               +:+ no_attribute "log_analysis_to_blockchain"]),
       mkExecutor s (blockchain ex))
  | ActionExecutor.Ethereum m =>
      let tx := manager_tx m (analysis_tx env) in
      if given tx then
        let s := log_action s (current_timestamp env 6) content_id
                            "blockchain_logged"
                            (Some ("tx: " +:+ get tx EmptyString)) None in
        (mkResults content_id saved queued (sent webhook_result) true
                   (ipfs_cid env) tx errors,
         mkExecutor s (blockchain ex))
      else
        (mkResults content_id saved queued (sent webhook_result) false None
                   None errors,
         mkExecutor s (blockchain ex))
  end.

(** The dict [execute_escalation_actions] returns. *)
Record EscalationResults : Type := mkEscalationResults {
  esc_result_content_id : string;
  esc_blockchain_logged : bool;
  esc_tx_hash : option string;
  esc_webhook_sent : bool;
  esc_errors : list string
}.

(** [_send_escalation_webhook]: the value under ["sent"]. *)
Definition _send_escalation_webhook (env : Environment)
           (content_id decision notes : string) : bool :=
  if negb (given (escalation_url (webhooks env))) then false
  else
    let payload :=
      JDict [("event", JStr "escalation_reviewed");
             ("content_id", JStr content_id);
             ("decision", JStr decision);
             ("notes", JStr notes);
             ("timestamp", JStr (utcnow env 1))] in
    match post env (get (escalation_url (webhooks env)) EmptyString)
               payload with
    | Responded code _ => code =? 200
    | Failed _ => false
    end.

Definition execute_escalation_actions (env : Environment) (ex : Executor)
           (content_id reviewer_address decision notes : string)
  : EscalationResults * Executor :=
  let webhook_sent := _send_escalation_webhook env content_id decision notes in
  match blockchain ex with
  | ActionExecutor.NoBlockchain =>
      (mkEscalationResults content_id false None webhook_sent [], ex)
  | ActionExecutor.Simulator _ =>
      (mkEscalationResults
         content_id false None webhook_sent
         ["Blockchain logging failed: "
            +:+ no_attribute "log_escalation_to_blockchain"],
       ex)
  | ActionExecutor.Ethereum m =>
      let tx := manager_tx m (escalation_tx env) in
      if given tx then
        (mkEscalationResults content_id true tx webhook_sent [],
         mkExecutor
           (log_action (db ex) (current_timestamp env 0) content_id
                       "escalation_logged"
                       (Some ("tx: " +:+ get tx EmptyString)) None)
           (blockchain ex))
      else (mkEscalationResults content_id false None webhook_sent [], ex)
  end.

(** [get_queue_items] of the executor; [queue_name] defaults to None. *)
Definition get_queue_items (ex : Executor) (queue_name : option string)
  : list QueueItem :=
  Storage.get_queue_items (db ex) queue_name "pending".

(** [process_queue_item]; it returns a dict of its arguments. *)
Definition process_queue_item (env : Environment) (ex : Executor)
           (queue_id : Z) (reviewer decision : string)
           (notes : option string) : Executor :=
  let s := update_queue_status (db ex) (current_timestamp env 0) queue_id
                               "reviewed" (Some reviewer) (Some decision)
                               notes in
  let queue_items := Storage.get_queue_items s None "pending" in
  let content_id :=
    match find (fun item => id (entry item) =? queue_id) queue_items with
    | Some item => Some (Database.content_id (entry item))
    | None => None
    end in
  let s :=
    if given content_id
    then log_action s (current_timestamp env 1)
                    (get content_id EmptyString) "human_review"
                    (Some ("Decision: " +:+ decision)) None
    else s in
  mkExecutor s (blockchain ex).

End Execution.

(** ** core/auth.py: roles, users and tokens *)

Module Auth.

Inductive Role : Type := ADMIN | MODERATOR | REVIEWER | VIEWER.

Definition role_value (r : Role) : string :=
  match r with
  | ADMIN => "admin"
  | MODERATOR => "moderator"
  | REVIEWER => "reviewer"
  | VIEWER => "viewer"
  end.

Inductive Permission : Type :=
| VIEW_CONTENT
| ANALYZE_CONTENT
| VIEW_AUDIT_LOG
| EXPORT_AUDIT_LOG
| MANAGE_QUEUE
| REVIEW_CONTENT
| ESCALATE
| MANAGE_USERS
| VIEW_BLOCKCHAIN
| VERIFY_BLOCKCHAIN.

Definition permission_value (p : Permission) : string :=
  match p with
  | VIEW_CONTENT => "view_content"
  | ANALYZE_CONTENT => "analyze_content"
  | VIEW_AUDIT_LOG => "view_audit_log"
  | EXPORT_AUDIT_LOG => "export_audit_log"
  | MANAGE_QUEUE => "manage_queue"
  | REVIEW_CONTENT => "review_content"
  | ESCALATE => "escalate"
  | MANAGE_USERS => "manage_users"
  | VIEW_BLOCKCHAIN => "view_blockchain"
  | VERIFY_BLOCKCHAIN => "verify_blockchain"
  end.

#[export] Instance Role_eq_dec : EqDecision Role.
Proof. solve_decision. Defined.

#[export] Instance Permission_eq_dec : EqDecision Permission.
Proof. solve_decision. Defined.

Definition ROLE_PERMISSIONS (r : Role) : list Permission :=
  match r with
  | ADMIN =>
      [VIEW_CONTENT; ANALYZE_CONTENT; VIEW_AUDIT_LOG; EXPORT_AUDIT_LOG;
       MANAGE_QUEUE; REVIEW_CONTENT; ESCALATE; MANAGE_USERS;
       VIEW_BLOCKCHAIN; VERIFY_BLOCKCHAIN]
  | MODERATOR =>
      [VIEW_CONTENT; ANALYZE_CONTENT; VIEW_AUDIT_LOG; EXPORT_AUDIT_LOG;
       MANAGE_QUEUE; REVIEW_CONTENT; ESCALATE; VIEW_BLOCKCHAIN;
       VERIFY_BLOCKCHAIN]
  | REVIEWER =>
      [VIEW_CONTENT; VIEW_AUDIT_LOG; REVIEW_CONTENT; VIEW_BLOCKCHAIN]
  | VIEWER => [VIEW_CONTENT]
  end.

(** A [datetime] is counted in microseconds; [isoformat] and
    [fromisoformat] are inverse to each other, so a time that is stored
    as text and read back is the same time. *)
Definition datetime : Type := Z.

Definition hours (n : Z) : Z := n * 3600000000.

Record User : Type := mkUser {
  user_id : string;
  username : string;
  role : Role;
  eth_address : option string;
  email : option string;
  created_at : datetime;
  last_login : option datetime
}.

Definition has_permission (u : User) (permission : Permission) : bool :=
  existsb (fun p => bool_decide (permission = p)) (ROLE_PERMISSIONS (role u)).

(** The [to_dict] of a user, which [_save_users] writes. *)
Definition permissions_of (u : User) : list string :=
  map permission_value (ROLE_PERMISSIONS (role u)).

(** A Python dict with string keys: the items in insertion order.
    Assigning to a key that is present replaces its value where it
    stands; [del] removes the key. *)
Definition dict (V : Type) : Type := list (string * V).

Fixpoint dict_get {V : Type} (d : dict V) (key : string) : option V :=
  match d with
  | [] => None
  | (k, v) :: rest => if String.eqb k key then Some v else dict_get rest key
  end.

Fixpoint dict_set {V : Type} (d : dict V) (key : string) (value : V)
  : dict V :=
  match d with
  | [] => [(key, value)]
  | (k, v) :: rest =>
      if String.eqb k key then (k, value) :: rest
      else (k, v) :: dict_set rest key value
  end.

Definition dict_del {V : Type} (d : dict V) (key : string) : dict V :=
  List.filter (fun item => negb (String.eqb (fst item) key)) d.

Definition values {V : Type} (d : dict V) : list V := map snd d.

(** What is stored under a token. *)
Record TokenData : Type := mkTokenData {
  token_user_id : string;
  token_username : string;
  token_role : string;
  expires_at : datetime;
  token_created_at : datetime
}.

(** The manager: [self.users] and [self.tokens].  The two files are
    written after each change and read by [__init__] only. *)
Record AuthManager : Type := mkAuthManager {
  users : dict User;
  tokens : dict TokenData
}.

Definition _create_default_admin (m : AuthManager) (now : datetime)
  : AuthManager :=
  if existsb (fun u => bool_decide (role u = ADMIN)) (values (users m))
  then m
  else
    {| users :=
         dict_set (users m) "admin_001"
                  (mkUser "admin_001" "admin" ADMIN None
                          (Some "admin@harmlens.ai") now None);
       tokens := tokens m |}.

(** [__init__], given what the two files held. *)
Definition init (loaded_users : dict User) (loaded_tokens : dict TokenData)
           (now : datetime) : AuthManager :=
  _create_default_admin (mkAuthManager loaded_users loaded_tokens) now.

(** [create_user]; [hex] is what [secrets.token_hex(4)] gave. *)
Definition create_user (m : AuthManager) (hex : string) (now : datetime)
           (username : string) (role : Role)
           (eth_address email : option string) : User * AuthManager :=
  let user_id := role_value role +:+ "_" +:+ hex in
  let user := mkUser user_id username role eth_address email now None in
  (user, {| users := dict_set (users m) user_id user; tokens := tokens m |}).

Definition get_user (m : AuthManager) (user_id : string) : option User :=
  dict_get (users m) user_id.

Definition get_user_by_username (m : AuthManager) (username : string)
  : option User :=
  find (fun u => String.eqb (Auth.username u) username) (values (users m)).

(** [generate_token]; [token] is what [secrets.token_urlsafe(32)] gave and
    [clock] the three readings of [datetime.utcnow()]. *)
Definition generate_token (m : AuthManager) (token : string)
           (clock : nat -> datetime) (user_id : string)
           (expires_in_hours : Z) : Py.result (string * AuthManager) :=
  match get_user m user_id with
  | None => Py.Raise "ValueError"
  | Some user =>
      let data :=
        {| token_user_id := user_id;
           token_username := username user;
           token_role := role_value (role user);
           expires_at := clock 0%nat + hours expires_in_hours;
           token_created_at := clock 1%nat |} in
      let user :=
        mkUser (Auth.user_id user) (username user) (role user)
               (eth_address user) (email user) (created_at user)
               (Some (clock 2%nat)) in
      Py.Ok (token,
             {| users := dict_set (users m) user_id user;
                tokens := dict_set (tokens m) token data |})
  end.

Definition validate_token (m : AuthManager) (now : datetime) (token : string)
  : option User * AuthManager :=
  match dict_get (tokens m) token with
  | None => (None, m)
  | Some token_data =>
      if expires_at token_data <? now
      then (None, {| users := users m; tokens := dict_del (tokens m) token |})
      else (get_user m (token_user_id token_data), m)
  end.

Definition revoke_token (m : AuthManager) (token : string) : AuthManager :=
  match dict_get (tokens m) token with
  | Some _ => {| users := users m; tokens := dict_del (tokens m) token |}
  | None => m
  end.

Definition check_permission (u : User) (permission : Permission) : bool :=
  has_permission u permission.

Definition list_users (m : AuthManager) (role : option Role) : list User :=
  match role with
  | Some r => List.filter (fun u => bool_decide (Auth.role u = r))
                          (values (users m))
  | None => values (users m)
  end.

Definition update_user_role (m : AuthManager) (user_id : string)
           (new_role : Role) : bool * AuthManager :=
  match get_user m user_id with
  | None => (false, m)
  | Some user =>
      (true,
       {| users :=
            dict_set (users m) user_id
                     (mkUser (Auth.user_id user) (username user) new_role
                             (eth_address user) (email user)
                             (created_at user) (last_login user));
          tokens := tokens m |})
  end.

Definition delete_user (m : AuthManager) (user_id : string)
  : bool * AuthManager :=
  match dict_get (users m) user_id with
  | Some _ =>
      (true, {| users := dict_del (users m) user_id; tokens := tokens m |})
  | None => (false, m)
  end.

(** An entry of [get_audit_access_log]. *)
Record AccessEntry : Type := mkAccessEntry {
  access_user_id : string;
  access_username : string;
  access_role : string;
  last_access : datetime
}.

Definition get_audit_access_log (m : AuthManager) : list AccessEntry :=
  flat_map
    (fun item =>
       let data := snd item in
       match get_user m (token_user_id data) with
       | Some user =>
           if has_permission user VIEW_AUDIT_LOG
           then [mkAccessEntry (token_user_id data) (token_username data)
                               (token_role data) (token_created_at data)]
           else []
       | None => []
       end)
    (tokens m).

(** [get_current_user] *)
Definition get_current_user (token : string) (m : AuthManager)
           (now : datetime) : option User * AuthManager :=
  validate_token m now token.

(** [require_permission(permission)(func)] called with a user. *)
Definition require_permission {A : Type} (permission : Permission)
           (func : User -> A) (user : User) : Py.result A :=
  if negb (has_permission user permission) then Py.Raise "PermissionError"
  else Py.Ok (func user).

End Auth.

(** ** Concrete stores, environments and managers *)

Module Samples.
Import Database Storage Execution.

Definition empty_store : Store := mkStore [] [] [] [] [].

Definition high_risk_analysis : Analysis :=
  mkAnalysis 82 "High" ["Toxicity"] "Human Review Required" "HIGH"
             "Priority Review Queue" ["Strong toxic language"] None None.

Definition post_request : RequestData :=
  mkRequestData (Some "user_17") (Some "forum") (Some "Example text").

Definition one_saved : Store :=
  snd (save_analysis empty_store "2026-02-08 08:00:00" "post-1"
                     high_risk_analysis post_request).

Definition one_queued : Store :=
  add_to_queue one_saved "2026-02-08 08:00:01" "post-1"
               "Priority Review Queue" "HIGH".

(** No webhook configured, no blockchain, a clock that stands still. *)
Definition quiet : Environment :=
  mkEnvironment (mkWebhooks None None None)
                (fun _ _ => Failed "connection refused")
                (fun _ => "2026-02-08 09:00:00")
                (fun _ => "2026-02-08T09:00:00.000000")
                None None None.

Definition plain_executor : Executor :=
  mkExecutor one_queued ActionExecutor.NoBlockchain.

(** A manager started from no files, then a reviewer who logs in at
    time 20 for 24 hours. *)
Definition fresh_manager : Auth.AuthManager := Auth.init [] [] 0.

Definition rita : Auth.User :=
  fst (Auth.create_user fresh_manager "1a2b3c4d" 10 "rita" Auth.REVIEWER None
                        None).

Definition with_rita : Auth.AuthManager :=
  snd (Auth.create_user fresh_manager "1a2b3c4d" 10 "rita" Auth.REVIEWER None
                        None).

Definition rita_logged_in : Auth.AuthManager :=
  match Auth.generate_token with_rita "tok-rita" (fun _ => 20)
                            "reviewer_1a2b3c4d" 24 with
  | Py.Ok (_, m) => m
  | Py.Raise _ => with_rita
  end.

Definition rita_token : Auth.TokenData :=
  Auth.mkTokenData "reviewer_1a2b3c4d" "rita" "reviewer"
                   (20 + 24 * 3600000000) 20.

(** One analysed content; then a HIGH entry for it and a CRITICAL entry
    for a content that was never analysed. *)
Definition analysed_once : ModerationDatabase :=
  mkDatabase [mkAnalysisRow "post-1" "Example text" 82 (Some "[]")] [] [].


(** Three HIGH entries created in the same second. *)
Definition same_second : ModerationDatabase :=
  Database.add_to_queue
    (Database.add_to_queue
       (Database.add_to_queue analysed_once "2026-02-08 08:00:01" "post-1"
                              "Priority Review Queue" "HIGH")
       "2026-02-08 08:00:01" "post-1" "Priority Review Queue" "HIGH")
    "2026-02-08 08:00:01" "post-1" "Priority Review Queue" "HIGH".

Definition two_keys : list (string * json) :=
  [("risk_score", JInt 82); ("action", JStr "Human Review Required")].

Definition two_keys_swapped : list (string * json) :=
  [("action", JStr "Human Review Required"); ("risk_score", JInt 82)].

End Samples.

(** * Properties *)

(** ** The digest agrees with the published test vectors *)

Example sha256_empty :
  Sha256.hexdigest [] =
  "e3b0c44298fc1c149afbf4c8996fb92427ae41e4649b934ca495991b7852b855".
Proof. vm_compute. reflexivity. Qed.

Example sha256_abc :
  Sha256.hexdigest (Sha256.encode "abc") =
  "ba7816bf8f01cfea414140de5dae2223b00361a396177a9cb410ff61f20015ad".
Proof. vm_compute. reflexivity. Qed.

(** ** Text comparison is a total preorder *)

Section StringOrder.

Lemma string_leb_compare (s1 s2 : string) :
  String.leb s1 s2 = true <-> String.compare s1 s2 <> Gt.
Proof.
  unfold String.leb. destruct (String.compare s1 s2); split; congruence.
Qed.

Lemma string_compare_cons (a b : ascii) (s t : string) :
  String.compare (String a s) (String b t) =
  match N.compare (N_of_ascii a) (N_of_ascii b) with
  | Eq => String.compare s t
  | c => c
  end.
Proof. reflexivity. Qed.

Lemma string_leb_trans (s1 s2 s3 : string) :
  String.leb s1 s2 = true -> String.leb s2 s3 = true ->
  String.leb s1 s3 = true.
Proof.
  rewrite !string_leb_compare. revert s2 s3.
  induction s1 as [|a s1 IH]; intros [|b s2] [|c s3]; simpl; try congruence.
  change (String.compare (String a s1) (String b s2) <> Gt ->
          String.compare (String b s2) (String c s3) <> Gt ->
          String.compare (String a s1) (String c s3) <> Gt).
  rewrite !string_compare_cons.
  destruct (N.compare_spec (N_of_ascii a) (N_of_ascii b)) as [Hab|Hab|Hab];
    destruct (N.compare_spec (N_of_ascii b) (N_of_ascii c)) as [Hbc|Hbc|Hbc];
    destruct (N.compare_spec (N_of_ascii a) (N_of_ascii c)) as [Hac|Hac|Hac];
    try congruence; try lia; auto.
  apply IH.
Qed.

End StringOrder.

(** ** The serialization that is hashed is canonical *)

Section Canonical.

#[global] Instance key_le_total : Total key_le.
Proof. intros a b. apply String.leb_total. Qed.

#[global] Instance key_le_trans : Transitive key_le.
Proof. intros a b c. apply string_leb_trans. Qed.

Lemma unique_key_inj {A : Type} (l : list (string * A)) (x y : string * A) :
  NoDup (map fst l) -> In x l -> In y l -> fst x = fst y -> x = y.
Proof.
  induction l as [|z l IH]; simpl; [tauto|].
  intros Hnd [->|Hx] [->|Hy] Hk; auto.
  - apply NoDup_cons in Hnd as [Hz _]. exfalso. apply Hz.
    rewrite Hk. apply list_elem_of_In, in_map, Hy.
  - apply NoDup_cons in Hnd as [Hz _]. exfalso. apply Hz.
    rewrite <- Hk. apply list_elem_of_In, in_map, Hx.
  - apply NoDup_cons in Hnd as [_ Hnd]. auto.
Qed.

Lemma sort_items_insertion_order (r1 r2 : list (string * string)) :
  NoDup (map fst r1) -> r1 ≡ₚ r2 -> sort_items r1 = sort_items r2.
Proof.
  intros Hnd Hp. unfold sort_items.
  apply (StronglySorted_unique_strong key_le).
  - intros x1 x2 H1 H2 L12 L21.
    rewrite merge_sort_Permutation in H1, H2. rewrite <- Hp in H2.
    apply (unique_key_inj r1); [exact Hnd|apply list_elem_of_In..|];
      [exact H1|exact H2|].
    apply String.leb_antisym; assumption.
  - apply StronglySorted_merge_sort; apply _.
  - apply StronglySorted_merge_sort; apply _.
  - rewrite !merge_sort_Permutation. exact Hp.
Qed.

(** With [sort_keys=True] the text, and so the digest, of a dict does not
    depend on the order in which its keys were inserted. *)
Lemma dumps_sorted_insertion_order (d1 d2 : list (string * json)) :
  NoDup (map fst d1) -> d1 ≡ₚ d2 ->
  dumps true (JDict d1) = dumps true (JDict d2)
  /\ Blockchain.hash_data (JDict d1) = Blockchain.hash_data (JDict d2).
Proof.
  intros Hnd Hp.
  assert (E : dumps true (JDict d1) = dumps true (JDict d2)).
  { simpl. do 4 f_equal. apply sort_items_insertion_order.
    - rewrite map_map. simpl. exact Hnd.
    - apply Permutation_map, Hp. }
  split; [exact E|]. unfold Blockchain.hash_data. rewrite E. reflexivity.
Qed.

Lemma dumps_sorted_insertion_order_witness :
  dumps true (JDict Samples.two_keys) = dumps true (JDict Samples.two_keys_swapped)
  /\ Blockchain.hash_data (JDict Samples.two_keys)
     = Blockchain.hash_data (JDict Samples.two_keys_swapped).
Proof.
  apply (dumps_sorted_insertion_order Samples.two_keys
                                      Samples.two_keys_swapped).
  - apply (bool_decide_unpack _). vm_compute. exact I.
  - apply perm_swap.
Defined.

End Canonical.

(** ** The ORDER BY key is a total preorder *)

Section QueueOrder.
Import Database.




End QueueOrder.

(** ** ORDER BY sorts, and keeps the order of equal keys *)

Lemma StronglySorted_weaken {A : Type} (R R' : A -> A -> Prop) (l : list A) :
  (forall a b, R a b -> R' a b) -> StronglySorted R l -> StronglySorted R' l.
Proof.
  intros H Hs. induction Hs as [|a l Hs IH Hall]; constructor; [exact IH|].
  eapply Forall_impl; [exact Hall|]. intros b. apply H.
Qed.

Section OrderBy.
Import Database.
Context {A : Type} (leb : A -> A -> bool).

Lemma insert_sorted_Permutation (x : A) (l : list A) :
  insert_sorted leb x l ≡ₚ x :: l.
Proof.
  induction l as [|y l IH]; simpl; [reflexivity|].
  destruct (leb x y); [reflexivity|].
  rewrite IH. apply perm_swap.
Qed.

Lemma order_by_Permutation (l : list A) : order_by leb l ≡ₚ l.
Proof.
  induction l as [|x l IH]; simpl; [reflexivity|].
  rewrite insert_sorted_Permutation, IH. reflexivity.
Qed.

Lemma order_by_In (l : list A) (x : A) : In x (order_by leb l) <-> In x l.
Proof.
  rewrite <- !list_elem_of_In, order_by_Permutation. reflexivity.
Qed.

Hypothesis leb_total : forall a b, leb a b = true \/ leb b a = true.
Hypothesis leb_trans :
  forall a b c, leb a b = true -> leb b c = true -> leb a c = true.

Lemma insert_sorted_stable (before : A -> A -> Prop) (x : A) (l : list A) :
  Forall (before x) l ->
  StronglySorted (kept leb before) l ->
  StronglySorted (kept leb before) (insert_sorted leb x l).
Proof.
  intros Hx Hs. induction Hs as [|y l Hs IH Hy]; simpl.
  - repeat constructor.
  - apply Forall_cons_1 in Hx as [Hxy Hxl].
    destruct (leb x y) eqn:E.
    + constructor; [constructor; assumption|].
      constructor; [split; [exact E|intros _; exact Hxy]|].
      rewrite List.Forall_forall in *. intros z Hz. split.
      * apply (leb_trans x y z E). apply (Hy z Hz).
      * intros _. apply Hxl, Hz.
    + constructor; [apply IH, Hxl|].
      rewrite List.Forall_forall in *. intros z Hz.
      apply list_elem_of_In in Hz. rewrite insert_sorted_Permutation in Hz.
      apply list_elem_of_In in Hz. destruct Hz as [<-|Hz]; [|apply Hy, Hz].
      split; [destruct (leb_total x y); congruence|congruence].
Qed.

Lemma order_by_stable (before : A -> A -> Prop) (l : list A) :
  StronglySorted before l -> StronglySorted (kept leb before) (order_by leb l).
Proof.
  intros Hs. induction Hs as [|x l Hs IH Hx]; simpl; [constructor|].
  apply insert_sorted_stable; [|exact IH].
  rewrite List.Forall_forall in *. intros z Hz.
  apply Hx, order_by_In, Hz.
Qed.

Lemma order_by_sorted (l : list A) :
  StronglySorted (fun a b => leb a b = true) (order_by leb l).
Proof.
  assert (Hs : StronglySorted (fun _ _ : A => True) l).
  { induction l; constructor; [assumption|].
    apply List.Forall_forall. tauto. }
  apply order_by_stable in Hs.
  induction Hs as [|x l' Hs IH Hx]; constructor; [exact IH|].
  eapply List.Forall_impl; [|exact Hx]. intros z [H _]. exact H.
Qed.

End OrderBy.

(** ** Ordered queue retrieval *)

Section QueueRetrieval.
Import Database.


Lemma priority_rank_range (p : string) : 1 <= priority_rank p <= 4.
Proof.
  unfold priority_rank.
  repeat match goal with |- context [String.eqb ?a ?b] =>
                           destruct (String.eqb a b) end; lia.
Qed.

(** The rows the SELECT matches: a queue row with the wanted status (and
    queue, when a queue name is given), joined with each analysis row of
    its content id. *)
Lemma select_queue_items_spec (db : ModerationDatabase)
      (queue_name : option string) (wanted_status : string)
      (item : QueueItem) :
  In item (select_queue_items db queue_name wanted_status)
  <-> In (entry item) (moderation_queue db)
      /\ status (entry item) = wanted_status
      /\ (given queue_name = true ->
          queue_name = Some (Database.queue_name (entry item)))
      /\ exists c, In c (content_analysis db)
                   /\ analysis_content_id c = content_id (entry item)
                   /\ item = mkQueueItem (entry item) (content_text c)
                                         (analysis_risk_score c) (reasons c).
Proof.
  unfold select_queue_items. rewrite in_flat_map. split.
  - intros (q & Hq & Hitem).
    apply filter_In in Hq as [Hq Hw].
    apply in_map_iff in Hitem as (c & <- & Hc).
    apply filter_In in Hc as [Hc Hid]. apply String.eqb_eq in Hid.
    simpl. split; [exact Hq|].
    destruct (given queue_name) eqn:G.
    + apply andb_true_iff in Hw as [Hn Hs].
      apply String.eqb_eq in Hn, Hs.
      split; [exact Hs|]. split; [|eauto].
      intros _. destruct queue_name; [|discriminate G].
      simpl in Hn. congruence.
    + apply String.eqb_eq in Hw.
      split; [exact Hw|]. split; [discriminate|eauto].
  - intros (Hq & Hs & Hn & c & Hc & Hid & Hitem).
    exists (entry item). split.
    + apply filter_In. split; [exact Hq|].
      destruct (given queue_name) eqn:G.
      * rewrite (Hn eq_refl). simpl. rewrite String.eqb_refl.
        apply String.eqb_eq, Hs.
      * apply String.eqb_eq, Hs.
    + apply in_map_iff. exists c. split; [symmetry; exact Hitem|].
      apply filter_In. split; [exact Hc|]. apply String.eqb_eq. congruence.
Qed.





(** Three HIGH entries created in the same second come back in the order
    of their ids. *)
Example get_queue_items_same_second :
  map (fun item => id (entry item))
      (get_queue_items Samples.same_second None "pending")
  = [1; 2; 3].
Proof. vm_compute. reflexivity. Qed.


End QueueRetrieval.

(** ** The moderation queue table *)

Section QueueTable.
Import Database Scenarios.

Lemma next_id_fresh (ids : list Z) : Forall (fun x => x < next_id ids) ids.
Proof.
  unfold next_id. induction ids as [|x ids IH]; constructor; simpl.
  - lia.
  - eapply Forall_impl; [exact IH|]. simpl. intros y Hy. lia.
Qed.

(** C6, as the code has it.  [add_to_queue] always inserts: the table
    grows by one pending row for the given content id, queue and
    priority, whose id is larger than every id already in the table, so
    the number of rows for that content id in that queue goes up by one
    whether or not there was one before. *)
Theorem add_to_queue_always_inserts
        (db : ModerationDatabase) (now cid qn p : string) :
  let db' := add_to_queue db now cid qn p in
  let same q := String.eqb (content_id q) cid
                && String.eqb (queue_name q) qn in
  exists row,
    moderation_queue db' = moderation_queue db ++ [row]
    /\ (content_id row, queue_name row, priority row, status row,
        created_at row) = (cid, qn, p, "pending", now)
    /\ Forall (fun q => id q < id row) (moderation_queue db)
    /\ length (List.filter same (moderation_queue db'))
       = S (length (List.filter same (moderation_queue db))).
Proof.
  intros db' same. eexists. split; [reflexivity|]. simpl.
  split; [reflexivity|]. split.
  - pose proof (next_id_fresh (map id (moderation_queue db))) as H.
    rewrite Forall_map in H. exact H.
  - rewrite List.filter_app, length_app. simpl.
    unfold same at 2. simpl. rewrite !String.eqb_refl. simpl. lia.
Qed.

(** C6, as stated, fails: enqueueing the same content id into the same
    queue twice leaves two rows, with the ids 1 and 2. *)
Lemma add_to_queue_twice_two_rows :
  let db0 := mkDatabase [] [] [] in
  let db1 := add_to_queue db0 "2026-02-07 23:26:02" "post-1"
                          "Priority Review Queue" "HIGH" in
  let db2 := add_to_queue db1 "2026-02-07 23:26:05" "post-1"
                          "Priority Review Queue" "HIGH" in
  map (fun q => (id q, content_id q, queue_name q, status q))
      (moderation_queue db2)
  = [(1, "post-1", "Priority Review Queue", "pending");
     (2, "post-1", "Priority Review Queue", "pending")].
Proof. reflexivity. Qed.

(** C7, as the code has it.  [update_queue_status] rewrites the row with
    the given id whatever its state: the status and [reviewed_at] are
    set, and each of reviewer, decision and notes that is given replaces
    what was recorded; the other columns stay. *)
Theorem update_queue_status_overwrites
        (db : ModerationDatabase) (now : string) (queue_id : Z)
        (new_status : string) (reviewer decision notes : option string)
        (i : nat) (q : QueueRow) :
  moderation_queue db !! i = Some q ->
  id q = queue_id ->
  exists q',
    moderation_queue
      (update_queue_status db now queue_id new_status reviewer decision
                           notes) !! i = Some q'
    /\ status q' = new_status
    /\ reviewed_at q' = Some now
    /\ assigned_to q'
       = match reviewer with Some r => Some r | None => assigned_to q end
    /\ reviewer_decision q'
       = match decision with
         | Some d => Some d
         | None => reviewer_decision q
         end
    /\ reviewer_notes q'
       = match notes with Some n => Some n | None => reviewer_notes q end
    /\ (id q', content_id q', queue_name q', priority q', created_at q')
       = (id q, content_id q, queue_name q, priority q, created_at q).
Proof.
  intros Hq <-. eexists. split.
  - simpl. rewrite list_lookup_fmap, Hq. simpl.
    rewrite Z.eqb_refl. reflexivity.
  - simpl. unfold coalesce. repeat (split; [reflexivity|]). reflexivity.
Qed.

Lemma update_queue_status_overwrites_witness :
  exists q',
    moderation_queue
      (update_queue_status reviewed_once "2026-02-07 23:31:00" 1 "reviewed"
                           (Some "bob") (Some "remove") None) !! 0%nat
    = Some q'
    /\ status q' = "reviewed"
    /\ reviewed_at q' = Some "2026-02-07 23:31:00"
    /\ assigned_to q' = Some "bob"
    /\ reviewer_decision q' = Some "remove"
    /\ reviewer_notes q' = None
    /\ (id q', content_id q', queue_name q', priority q', created_at q')
       = (1, "post-1", "Priority Review Queue", "HIGH",
          "2026-02-07 23:26:02").
Proof.
  exact (update_queue_status_overwrites
           reviewed_once "2026-02-07 23:31:00" 1 "reviewed"
           (Some "bob") (Some "remove") None 0
           (mkQueueRow 1 "post-1" "Priority Review Queue" "HIGH"
                       (Some "alice") "reviewed" "2026-02-07 23:26:02"
                       (Some "2026-02-07 23:30:00") (Some "approve") None)
           eq_refl eq_refl).
Defined.

(** C7, as stated, fails: after alice has reviewed the entry with the
    decision approve, a review by bob with the decision remove goes
    through and replaces both. *)
Lemma second_review_replaces_first :
  map (fun q => (id q, status q, assigned_to q, reviewer_decision q))
      (moderation_queue reviewed_once)
  = [(1, "reviewed", Some "alice", Some "approve")]
  /\ map (fun q => (id q, status q, assigned_to q, reviewer_decision q))
         (moderation_queue
            (update_queue_status reviewed_once "2026-02-07 23:31:00" 1
                                 "reviewed" (Some "bob") (Some "remove")
                                 None))
     = [(1, "reviewed", Some "bob", Some "remove")].
Proof. split; reflexivity. Qed.

End QueueTable.

(** ** The escalation table *)

Section EscalationTable.
Import Database Scenarios.

(** C10.  [update_escalation_status] always writes the status and
    [updated_at] of the row with the given id.  It writes [responded_at]
    exactly when the new status is responded and no resolution notes are
    passed: with the status responded and notes that are not None,
    [responded_at] keeps the value it had, as it does for every other
    status.  It writes [resolution_notes] only when the new status is
    resolved (and the notes are a non-empty string). *)
Theorem update_escalation_status_responded_at
        (db : ModerationDatabase) (now : string) (escalation_id : Z)
        (new_status : string) (assignee notes : option string)
        (i : nat) (e : EscalationRow) :
  escalations db !! i = Some e ->
  esc_id e = escalation_id ->
  exists e',
    escalations
      (update_escalation_status db now escalation_id new_status assignee
                                notes) !! i = Some e'
    /\ esc_status e' = new_status
    /\ updated_at e' = now
    /\ (new_status = "responded" -> notes = None ->
        responded_at e' = Some now)
    /\ (new_status = "responded" -> notes <> None ->
        responded_at e' = responded_at e)
    /\ (new_status <> "responded" -> responded_at e' = responded_at e)
    /\ (new_status <> "resolved" ->
        resolution_notes e' = resolution_notes e)
    /\ (new_status = "resolved" ->
        resolution_notes e'
        = if given notes then notes else resolution_notes e).
Proof.
  intros He <-. eexists. split.
  - simpl. rewrite list_lookup_fmap, He. simpl.
    rewrite Z.eqb_refl. reflexivity.
  - simpl. repeat (split; [reflexivity|]).
    repeat split.
    + intros -> ->. reflexivity.
    + intros ->. destruct notes; [reflexivity|congruence].
    + intros Hs. apply String.eqb_neq in Hs. rewrite Hs. reflexivity.
    + intros Hs. apply String.eqb_neq in Hs. rewrite Hs. reflexivity.
    + intros ->. reflexivity.
Qed.

Lemma update_escalation_status_responded_at_witness :
  exists e',
    escalations
      (update_escalation_status escalated_once "2026-02-07 23:40:00" 1
                                "responded" None (Some "Called the parents"))
      !! 0%nat = Some e'
    /\ esc_status e' = "responded"
    /\ updated_at e' = "2026-02-07 23:40:00"
    /\ ("responded" = "responded" -> Some "Called the parents" = None ->
        responded_at e' = Some "2026-02-07 23:40:00")
    /\ ("responded" = "responded" -> Some "Called the parents" <> None ->
        responded_at e' = None)
    /\ ("responded" <> "responded" -> responded_at e' = None)
    /\ ("responded" <> "resolved" -> resolution_notes e' = None)
    /\ ("responded" = "resolved" ->
        resolution_notes e'
        = if given (Some "Called the parents")
          then Some "Called the parents" else None).
Proof.
  exact (update_escalation_status_responded_at
           escalated_once "2026-02-07 23:40:00" 1 "responded" None
           (Some "Called the parents") 0
           (mkEscalationRow 1 "post-1" "moderator" "Possible grooming"
                            "child_safety" "CRITICAL" "in-progress"
                            (Some "admin") (Some "< 1 hour")
                            "2026-02-07 23:26:02" "2026-02-07 23:28:00"
                            None None None)
           eq_refl eq_refl).
Defined.

(** The row after that call: responded, and still without a
    [responded_at] or notes. *)
Example responded_with_notes_leaves_responded_at_unset :
  map (fun e => (esc_status e, updated_at e, responded_at e,
                 resolution_notes e))
      (escalations
         (update_escalation_status escalated_once "2026-02-07 23:40:00" 1
                                   "responded" None
                                   (Some "Called the parents")))
  = [("responded", "2026-02-07 23:40:00", None, None)].
Proof. reflexivity. Qed.

End EscalationTable.

(** ** The hash chain of the local ledger *)

Section Ledger.
Import Blockchain LocalBlockchainSimulator Scenarios.




(** One call, on any chain: the block it appends and the digest it
    returns. *)
Lemma log_analysis_appends (blocks : list Block) (now cid : string)
      (analysis : json) (content_text : string) :
  exists b,
    log_analysis blocks now cid analysis content_text
    = (hash b, blocks ++ [b])
    /\ block_number b = Z.of_nat (length blocks)
    /\ previous_hash b = last_hash blocks
    /\ hash b = hash_data (unsealed b)
    /\ (timestamp b, content_id b) = (now, cid)
    /\ data b = JDict [("content_text", JStr content_text);
                       ("analysis", analysis)].
Proof.
  exists (mkBlock (Z.of_nat (length blocks)) now cid
                  (JDict [("content_text", JStr content_text);
                          ("analysis", analysis)])
                  (last_hash blocks)
                  (hash_data
                     (block_dict (Z.of_nat (length blocks)) now cid
                                 (JDict [("content_text", JStr content_text);
                                         ("analysis", analysis)])
                                 (last_hash blocks)))).
  repeat split.
Qed.

(** The serialization that is hashed lists the five keys in sorted
    order, whatever the order [log_analysis] inserted them in. *)
Lemma block_dict_canonical (number : Z) (ts cid : string) (payload : json)
      (prev : string) :
  dumps true (block_dict number ts cid payload prev)
  = "{" +:+ String.concat ", "
        [ encode_str "block_number" +:+ ": " +:+ dumps true (JInt number);
          encode_str "content_id" +:+ ": " +:+ encode_str cid;
          encode_str "data" +:+ ": " +:+ dumps true payload;
          encode_str "previous_hash" +:+ ": " +:+ encode_str prev;
          encode_str "timestamp" +:+ ": " +:+ encode_str ts ]
      +:+ "}".
Proof. reflexivity. Qed.



(** The two blocks of that chain: numbers, links and digests. *)
Example two_blocks_linked :
  map (fun b => (block_number b, content_id b, previous_hash b, hash b))
      (log_all [] two_calls)
  = [(0, "test_001",
      "0000000000000000000000000000000000000000000000000000000000000000",
      hash_data (block_dict 0 "2026-02-07T23:26:02.123456" "test_001"
                            (JDict [("content_text", JStr "Test content");
                                    ("analysis", sample_analysis)])
                            genesis_hash));
     (1, "test_002", previous_hash second_block, hash second_block)]
  /\ previous_hash second_block
     = hash_data (block_dict 0 "2026-02-07T23:26:02.123456" "test_001"
                             (JDict [("content_text", JStr "Test content");
                                     ("analysis", sample_analysis)])
                             genesis_hash).
Proof. split; vm_compute; reflexivity. Qed.

End Ledger.

(** ** NaN in binary64 arithmetic *)

Section NaN.

Lemma is_nan_spec (x : float) : is_nan x = true <-> Prim2SF x = S754_nan.
Proof.
  split; intros H.
  - unfold Prim2SF. rewrite H. reflexivity.
  - unfold is_nan. rewrite FloatAxioms.eqb_spec, H. reflexivity.
Qed.

Lemma mul_nan_l (x y : float) : is_nan x = true -> is_nan (x * y) = true.
Proof.
  intros H. apply is_nan_spec in H. apply is_nan_spec.
  rewrite FloatAxioms.mul_spec, H. destruct (Prim2SF y); reflexivity.
Qed.

Lemma mul_nan_r (x y : float) : is_nan y = true -> is_nan (x * y) = true.
Proof.
  intros H. apply is_nan_spec in H. apply is_nan_spec.
  rewrite FloatAxioms.mul_spec, H. destruct (Prim2SF x); reflexivity.
Qed.

Lemma add_nan_l (x y : float) : is_nan x = true -> is_nan (x + y) = true.
Proof.
  intros H. apply is_nan_spec in H. apply is_nan_spec.
  rewrite FloatAxioms.add_spec, H. destruct (Prim2SF y); reflexivity.
Qed.

Lemma add_nan_r (x y : float) : is_nan y = true -> is_nan (x + y) = true.
Proof.
  intros H. apply is_nan_spec in H. apply is_nan_spec.
  rewrite FloatAxioms.add_spec, H. destruct (Prim2SF x); reflexivity.
Qed.

Lemma ltb_nan_l (x y : float) : is_nan x = true -> (x <? y)%float = false.
Proof.
  intros H. apply is_nan_spec in H. rewrite FloatAxioms.ltb_spec, H. reflexivity.
Qed.

Lemma ltb_nan_r (x y : float) : is_nan y = true -> (x <? y)%float = false.
Proof.
  intros H. apply is_nan_spec in H. rewrite FloatAxioms.ltb_spec, H.
  destruct (Prim2SF x); reflexivity.
Qed.

Lemma max_nan (r floor : float) :
  is_nan r = true -> is_nan (Py.max r floor) = true.
Proof.
  intros H. unfold Py.max. rewrite (ltb_nan_l _ _ H). exact H.
Qed.

Lemma min_nan (r cap : float) :
  is_nan r = true -> is_nan (Py.min r cap) = true.
Proof.
  intros H. unfold Py.min. rewrite (ltb_nan_r _ _ H). exact H.
Qed.

Lemma int_round_nan (x : float) :
  is_nan x = true -> Py.int_round x = Py.Raise "ValueError".
Proof.
  intros H. apply is_nan_spec in H. unfold Py.int_round.
  rewrite H. reflexivity.
Qed.

Lemma int_round_cases (x : float) :
  (exists n, Py.int_round x = Py.Ok n)
  \/ Py.int_round x = Py.Raise "ValueError"
  \/ Py.int_round x = Py.Raise "OverflowError".
Proof.
  unfold Py.int_round. destruct (Prim2SF x); eauto.
Qed.

End NaN.

(** ** The weighted base score *)

Section BaseScore.
Import Scenarios.

(** C4, as the code has it.  The base score is a weighted sum of the
    five scores, scaled by 100 before any override.  In
    core/signals/improved_scoring.py the weights are 0.35 child safety,
    0.30 toxicity, 0.20 emotion, 0.10 call-to-action and 0.05 context; in
    core/scoring.py, the module the API server imports, they are 0.40
    toxicity, 0.25 emotion, 0.15 call-to-action, 0.10 context and 0.10
    child safety.  With the five scores alone and toxicity not above
    0.7 no override applies, and the score that is rounded is that
    sum.  In both modules the scaled sum rounds to 0 when every score is 0
    and to 100 when every score is 1. *)
Theorem base_score_weights (signals : Signals)
        (emotion cta tox context child : float) :
  ImprovedScoring.base_score signals
  = (0.35 * get (child_score signals) 0 + 0.30 * get (tox_score signals) 0
     + 0.20 * get (emotion_score signals) 0
     + 0.10 * get (cta_score signals) 0
     + 0.05 * get (context_score signals) 0)%float
  /\ Scoring.base_score signals
     = (0.40 * get (tox_score signals) 0
        + 0.25 * get (emotion_score signals) 0
        + 0.15 * get (cta_score signals) 0
        + 0.10 * get (context_score signals) 0
        + 0.10 * get (child_score signals) 0)%float
  /\ ((0.7 <? tox)%float = false ->
      fst (ImprovedScoring.overridden
             (scores_only emotion cta tox context child))
      = ((0.35 * child + 0.30 * tox + 0.20 * emotion + 0.10 * cta
          + 0.05 * context) * 100)%float
      /\ Scoring.overridden (scores_only emotion cta tox context child)
         = ((0.40 * tox + 0.25 * emotion + 0.15 * cta + 0.10 * context
             + 0.10 * child) * 100)%float)
  /\ map (fun s => Py.int_round (ImprovedScoring.base_score s * 100))
         [scores_only 0 0 0 0 0; scores_only 1 1 1 1 1]
     = [Py.Ok 0; Py.Ok 100]
  /\ map (fun s => Py.int_round (Scoring.base_score s * 100))
         [scores_only 0 0 0 0 0; scores_only 1 1 1 1 1]
     = [Py.Ok 0; Py.Ok 100].
Proof.
  split; [reflexivity|]. split; [reflexivity|].
  split; [|split; vm_compute; reflexivity].
  intros Htox. unfold ImprovedScoring.overridden, Scoring.overridden.
  simpl. rewrite Htox. split; reflexivity.
Qed.

Lemma base_score_weights_witness :
  fst (ImprovedScoring.overridden (scores_only 0.2 0.1 0.5 0.3 0.4))
  = ((0.35 * 0.4 + 0.30 * 0.5 + 0.20 * 0.2 + 0.10 * 0.1 + 0.05 * 0.3)
     * 100)%float
  /\ Scoring.overridden (scores_only 0.2 0.1 0.5 0.3 0.4)
     = ((0.40 * 0.5 + 0.25 * 0.2 + 0.15 * 0.1 + 0.10 * 0.3 + 0.10 * 0.4)
        * 100)%float.
Proof.
  apply (proj1 (proj2 (proj2 (base_score_weights
                                tox_only 0.2 0.1 0.5 0.3 0.4)))).
  reflexivity.
Defined.

Lemma float_neq (x y : float) : Prim2SF x <> Prim2SF y -> x <> y.
Proof. intros H ->. apply H. reflexivity. Qed.

(** C4, as stated, fails for the engine the API server imports: with
    toxicity 1 and every other score 0, core/scoring.py starts from 40
    where the stated weights give 30. *)
Lemma scoring_base_is_not_spec_base :
  Scoring.base_score tox_only <> spec_base_score tox_only
  /\ outcome (Scoring.calculate_harm_score tox_only) = Py.Ok (40, "Low")
  /\ Py.int_round (spec_base_score tox_only * 100) = Py.Ok 30
  /\ outcome (ImprovedScoring.calculate_harm_score tox_only)
     = Py.Ok (30, "Low").
Proof.
  split; [apply float_neq; vm_compute; discriminate|].
  repeat split; vm_compute; reflexivity.
Qed.

End BaseScore.

(** ** Malformed signals *)

Section Malformed.
Import Scenarios.

Lemma base_score_nan (signals : Signals) :
  has_nan signals = true ->
  is_nan (Scoring.base_score signals) = true
  /\ is_nan (ImprovedScoring.base_score signals) = true.
Proof.
  unfold has_nan, scores, Scoring.base_score, ImprovedScoring.base_score.
  simpl. rewrite !orb_true_iff.
  intros [H|[H|[H|[H|[H|H]]]]]; try discriminate; split;
    repeat first [ apply mul_nan_r; exact H
                 | apply add_nan_r; apply mul_nan_r; exact H
                 | apply add_nan_l ].
Qed.

(** Peel one [if]/[elif] chain off a score: it is NaN when the score it
    started from is. *)
Ltac nan_chain :=
  repeat match goal with
         | |- context [if ?c then _ else _] => destruct c
         end;
  repeat first [ assumption | apply max_nan | apply min_nan
               | apply mul_nan_l ].

Lemma scoring_overridden_nan (signals : Signals) :
  has_nan signals = true -> is_nan (Scoring.overridden signals) = true.
Proof.
  intros H0. destruct (base_score_nan _ H0) as [H _].
  apply (mul_nan_l _ 100%float) in H.
  unfold Scoring.overridden. cbv zeta.
  revert H. generalize (Scoring.base_score signals * 100)%float.
  intros r Hr. nan_chain.
Qed.

Lemma child_overrides_nan (signals : Signals) (r : float) (b : bool) :
  is_nan r = true ->
  is_nan (fst (ImprovedScoring.child_overrides signals r b)) = true.
Proof.
  intros Hr. unfold ImprovedScoring.child_overrides. cbv zeta.
  repeat match goal with
         | |- context [if ?c then _ else _] => destruct c
         end; simpl; try apply max_nan; exact Hr.
Qed.

Lemma improved_overridden_nan (signals : Signals) :
  has_nan signals = true ->
  is_nan (fst (ImprovedScoring.overridden signals)) = true.
Proof.
  intros H0. destruct (base_score_nan _ H0) as [_ H].
  apply (mul_nan_l _ 100%float) in H.
  unfold ImprovedScoring.overridden. cbv zeta.
  pose proof (child_overrides_nan
                signals _ (get (requires_immediate_action signals) false) H)
    as Hc.
  destruct (ImprovedScoring.child_overrides _ _ _) as [r ria].
  simpl in Hc |- *. clear H. nan_chain.
Qed.

(** C5, as the code has it.  The scoring functions do not validate
    their signals and know no InvalidSignal.  A NaN among the five
    scores reaches [round], which raises ValueError, so no result is
    produced; whatever the signals, the only failures are the ValueError
    and the OverflowError of [round]; and the only bound a result is
    given is the cap at 100. *)
Theorem scoring_does_not_validate (signals : Signals) :
  (has_nan signals = true ->
   Scoring.calculate_harm_score signals = Py.Raise "ValueError"
   /\ ImprovedScoring.calculate_harm_score signals = Py.Raise "ValueError")
  /\ (forall e, Scoring.calculate_harm_score signals = Py.Raise e ->
                e <> "InvalidSignal"
                /\ (e = "ValueError" \/ e = "OverflowError"))
  /\ (forall e, ImprovedScoring.calculate_harm_score signals = Py.Raise e ->
                e <> "InvalidSignal"
                /\ (e = "ValueError" \/ e = "OverflowError"))
  /\ (forall r, Scoring.calculate_harm_score signals = Py.Ok r ->
                Py.int_round (Scoring.overridden signals)
                = Py.Ok (risk_score r) \/ risk_score r = 100)
  /\ (forall r, ImprovedScoring.calculate_harm_score signals = Py.Ok r ->
                Py.int_round (fst (ImprovedScoring.overridden signals))
                = Py.Ok (risk_score r) \/ risk_score r = 100).
Proof.
  unfold Scoring.calculate_harm_score, ImprovedScoring.calculate_harm_score,
    Scoring.calculate_improved_harm_score,
    ImprovedScoring.calculate_improved_harm_score.
  cbv zeta.
  pose proof (scoring_overridden_nan signals) as Hs.
  pose proof (improved_overridden_nan signals) as Hi.
  destruct (ImprovedScoring.overridden signals) as [ri ria]. simpl in Hi.
  pose proof (int_round_cases (Scoring.overridden signals)) as Cs.
  pose proof (int_round_cases ri) as Ci.
  split.
  { intros H. rewrite (int_round_nan _ (Hs H)), (int_round_nan _ (Hi H)).
    split; reflexivity. }
  split.
  { intros e. destruct Cs as [[n ->]|[->| ->]]; intros [= <-];
      (split; [discriminate|auto]). }
  split.
  { intros e. destruct Ci as [[n ->]|[->| ->]]; intros [= <-];
      (split; [discriminate|auto]). }
  split.
  - intros r. destruct Cs as [[n ->]|[->| ->]]; try discriminate.
    intros [= <-]. simpl. destruct (Z.min_spec n 100) as [[_ ->]|[_ ->]];
      [left|right]; reflexivity.
  - intros r. simpl. destruct Ci as [[n ->]|[->| ->]]; try discriminate.
    intros [= <-]. simpl. destruct (Z.min_spec n 100) as [[_ ->]|[_ ->]];
      [left|right]; reflexivity.
Qed.

Lemma scoring_does_not_validate_witness :
  Scoring.calculate_harm_score nan_tox = Py.Raise "ValueError"
  /\ ImprovedScoring.calculate_harm_score nan_tox = Py.Raise "ValueError".
Proof.
  apply (proj1 (scoring_does_not_validate nan_tox)). reflexivity.
Defined.

(** C5, as stated, fails: a toxicity score of -3 is malformed and is
    scored all the same, as risk -120 with the label Low (-90 in the
    improved engine); scores of 1.5 are scored as 100. *)
Lemma out_of_range_signal_is_scored :
  malformed (-3) = true /\ malformed 1.5 = true
  /\ outcome (Scoring.calculate_harm_score negative_tox)
     = Py.Ok (-120, "Low")
  /\ outcome (ImprovedScoring.calculate_harm_score negative_tox)
     = Py.Ok (-90, "Low")
  /\ outcome (Scoring.calculate_harm_score above_one)
     = Py.Ok (100, "High").
Proof. repeat split; vm_compute; reflexivity. Qed.

Example missing_scores_read_as_zero :
  outcome (Scoring.calculate_harm_score
             (mkSignals None None None None None None None None None None
                        None None)) = Py.Ok (0, "Low")
  /\ outcome (ImprovedScoring.calculate_harm_score
                (mkSignals None None None None None None None None None None
                           None None)) = Py.Ok (0, "Low").
Proof. split; vm_compute; reflexivity. Qed.

Example nan_signal_raises_value_error :
  has_nan nan_tox = true
  /\ Scoring.calculate_harm_score nan_tox = Py.Raise "ValueError"
  /\ ImprovedScoring.calculate_harm_score nan_tox = Py.Raise "ValueError".
Proof. repeat split; vm_compute; reflexivity. Qed.

End Malformed.

(** ** Raising one score *)

Section Monotonicity.
Import Scenarios.

(** C9 fails in core/signals/improved_scoring.py.  For a flagged item
    with one exploitation match, raising the child-safety score from 0.5
    to 0.7 with everything else fixed lowers the risk score from 85 to
    80: above 0.6 the chain of overrides stops at the floor of 80 and
    never reaches the floor of 85 for a flag with an exploitation match.
    core/scoring.py gives 5 and 85 on the same two inputs. *)
Lemma raising_child_score_lowers_risk :
  (0.5 <? 0.7)%float = true
  /\ outcome (ImprovedScoring.calculate_improved_harm_score
                (flagged_child 0.5)) = Py.Ok (85, "High")
  /\ outcome (ImprovedScoring.calculate_improved_harm_score
                (flagged_child 0.7)) = Py.Ok (80, "High")
  /\ outcome (Scoring.calculate_improved_harm_score (flagged_child 0.5))
     = Py.Ok (5, "Low")
  /\ outcome (Scoring.calculate_improved_harm_score (flagged_child 0.7))
     = Py.Ok (85, "High").
Proof. repeat split; vm_compute; reflexivity. Qed.

End Monotonicity.

(** ** The decision policy *)

Section DecisionPolicy.
Import Actions Scenarios.

(** C3, as the code has it.  [recommend_action] is a first-match table:
    with [child_escalation] set it escalates immediately, at CRITICAL
    priority, to Child Safety; otherwise a risk score up to 39 gives
    Monitor, LOW, Automated Monitoring, a score from 40 to 69 gives Add
    Warning / Reduce Reach, MEDIUM, Automated + Sampling Review, and a
    score of 70 or more gives Human Review Required, HIGH, Priority
    Review Queue.  Rationale and steps are fixed per branch: two results
    with the same priority are the same card. *)
Theorem recommend_action_table (r : ScoringResult) :
  let card := recommend_action r in
  (child_escalation r = true ->
   (action card, priority card, queue card)
   = ("ESCALATE IMMEDIATELY", "CRITICAL", "Child Safety"))
  /\ (child_escalation r = false -> risk_score r <= 39 ->
      (action card, priority card, queue card)
      = ("Monitor", "LOW", "Automated Monitoring"))
  /\ (child_escalation r = false -> 40 <= risk_score r <= 69 ->
      (action card, priority card, queue card)
      = ("Add Warning / Reduce Reach", "MEDIUM",
         "Automated + Sampling Review"))
  /\ (child_escalation r = false -> 70 <= risk_score r ->
      (action card, priority card, queue card)
      = ("Human Review Required", "HIGH", "Priority Review Queue"))
  /\ (forall r', priority (recommend_action r') = priority card ->
                 recommend_action r' = card).
Proof.
  intros card. subst card. unfold recommend_action.
  repeat split.
  - intros ->. reflexivity.
  - intros -> H. apply Z.leb_le in H. rewrite H. reflexivity.
  - intros -> [H1 H2].
    assert ((risk_score r <=? 39) = false) as -> by (apply Z.leb_gt; lia).
    apply Z.leb_le in H2. rewrite H2. reflexivity.
  - intros -> H.
    assert ((risk_score r <=? 39) = false) as -> by (apply Z.leb_gt; lia).
    assert ((risk_score r <=? 69) = false) as -> by (apply Z.leb_gt; lia).
    reflexivity.
  - intros r'.
    destruct (child_escalation r), (child_escalation r'),
      (risk_score r <=? 39), (risk_score r <=? 69),
      (risk_score r' <=? 39), (risk_score r' <=? 69);
      simpl; intros H; try reflexivity; discriminate H.
Qed.

Lemma recommend_action_table_witness :
  (action (recommend_action (assessment 45 "Low" false)),
   priority (recommend_action (assessment 45 "Low" false)),
   queue (recommend_action (assessment 45 "Low" false)))
  = ("Add Warning / Reduce Reach", "MEDIUM", "Automated + Sampling Review").
Proof.
  apply (proj1 (proj2 (proj2 (recommend_action_table
                                (assessment 45 "Low" false))))).
  - reflexivity.
  - simpl. lia.
Defined.

(** C3, as stated, fails between 40 and 49 and between 70 and 74: a
    score of 45, which the scoring functions label Low, gets Add Warning
    / Reduce Reach at MEDIUM priority, and a score of 72, labelled
    Medium, gets Human Review Required at HIGH priority. *)
Lemma recommend_action_thresholds_39_69 :
  label_of 45 = "Low"
  /\ (action (recommend_action (assessment 45 "Low" false)),
      priority (recommend_action (assessment 45 "Low" false)),
      queue (recommend_action (assessment 45 "Low" false)))
     = ("Add Warning / Reduce Reach", "MEDIUM",
        "Automated + Sampling Review")
  /\ label_of 72 = "Medium"
  /\ (action (recommend_action (assessment 72 "Medium" false)),
      priority (recommend_action (assessment 72 "Medium" false)),
      queue (recommend_action (assessment 72 "Medium" false)))
     = ("Human Review Required", "HIGH", "Priority Review Queue").
Proof. repeat split. Qed.

End DecisionPolicy.

(** ** Verification of an audit record *)

Section Verification.
Import Blockchain BlockchainAuditManager Scenarios.

(** What [verify_audit_integrity] decides on: that the contract returns
    a record and that the gateway serves non-empty data under its CID.
    The digest it computes is not compared with anything. *)
Lemma verify_audit_integrity_spec (m : Manager) (cid : string) :
  verify_audit_integrity m cid = true
  <-> exists record stored,
      get_audit_record m cid = Some record
      /\ retrieve_from_ipfs m (ipfs_hash record) = Some stored
      /\ truthy stored = true.
Proof.
  unfold verify_audit_integrity. split.
  - destruct (get_audit_record m cid) as [record|]; [|easy].
    destruct (retrieve_from_ipfs m (ipfs_hash record)) as [stored|] eqn:Ei;
      [|easy].
    destruct (truthy stored) eqn:Et; [|easy].
    intros _. exists record, stored. auto.
  - intros (record & stored & -> & -> & ->). reflexivity.
Qed.

(** With the local simulator as back end nothing is ever verified. *)
Lemma simulator_never_verifies
      (blocks : list LocalBlockchainSimulator.Block) (cid : string) :
  ActionExecutor.verify_audit_integrity (ActionExecutor.Simulator blocks) cid
  = false.
Proof. reflexivity. Qed.

(** C1 fails in the code.  After the data stored on IPFS for post-1 has
    been rewritten, so that its digest is no longer the one that was
    logged with the record, [verify_audit_integrity] still returns True,
    through the executor as well; and with the local simulator as back
    end the executor returns False for a block of an intact chain. *)
Lemma verify_accepts_tampered_data :
  hash_data tampered_audit_data <> hash_data audit_data
  /\ verify_audit_integrity (manager_serving audit_data) "post-1" = true
  /\ verify_audit_integrity (manager_serving tampered_audit_data) "post-1"
     = true
  /\ ActionExecutor.verify_audit_integrity
       (ActionExecutor.Ethereum (manager_serving tampered_audit_data))
       "post-1" = true
  /\ LocalBlockchainSimulator.get_audit_record
       (LocalBlockchainSimulator.log_all [] two_calls) "test_001" <> None
  /\ ActionExecutor.verify_audit_integrity
       (ActionExecutor.Simulator
          (LocalBlockchainSimulator.log_all [] two_calls)) "test_001"
     = false.
Proof.
  split; [vm_compute; discriminate|].
  repeat split; try (vm_compute; reflexivity).
  vm_compute. discriminate.
Qed.

End Verification.

(** ** Looking a record up in the local ledger *)

Section LedgerLookup.
Import Blockchain LocalBlockchainSimulator.

Lemma find_app_first {A : Type} (f : A -> bool) (l l' : list A) :
  find f (l ++ l')
  = match find f l with
    | Some x => Some x
    | None => find f l'
    end.
Proof.
  induction l as [|x l IH]; simpl; [reflexivity|].
  destruct (f x); [reflexivity|exact IH].
Qed.

Lemma log_all_extends (blocks : list Block) (calls : list LogCall) :
  exists added,
    log_all blocks calls = blocks ++ added
    /\ map content_id added = map call_content_id calls.
Proof.
  revert blocks. induction calls as [|c calls IH]; intros blocks.
  - exists []. split; [symmetry; apply app_nil_r|reflexivity].
  - destruct (IH (snd (log_analysis blocks (call_now c) (call_content_id c)
                                    (call_analysis c) (call_content_text c))))
      as (added & E & Hids).
    change (log_all blocks (c :: calls))
      with (log_all (snd (log_analysis blocks (call_now c)
                                       (call_content_id c) (call_analysis c)
                                       (call_content_text c))) calls).
    rewrite E. simpl. eexists (_ :: added). split.
    + rewrite <- app_assoc. reflexivity.
    + simpl. rewrite Hids. reflexivity.
Qed.

(** The chain file is append-only: whatever it holds, a sequence of
    [log_analysis] calls leaves every block in place and adds one block
    per call. *)
Theorem log_all_append_only (blocks : list Block) (calls : list LogCall) :
  take (length blocks) (log_all blocks calls) = blocks
  /\ length (log_all blocks calls) = (length blocks + length calls)%nat.
Proof.
  destruct (log_all_extends blocks calls) as (added & -> & Hids).
  split.
  - rewrite take_app_length. reflexivity.
  - rewrite length_app. f_equal.
    rewrite <- (length_map content_id), Hids. apply length_map.
Qed.

(** A record that [get_audit_record] finds for a content id is the one
    it finds after any further [log_analysis] calls: logging the same
    content id again never replaces what a lookup returns. *)
Theorem get_audit_record_first_wins
        (blocks : list Block) (cid : string) (b : Block)
        (calls : list LogCall) :
  get_audit_record blocks cid = Some b ->
  get_audit_record (log_all blocks calls) cid = Some b.
Proof.
  intros H. destruct (log_all_extends blocks calls) as (added & -> & _).
  unfold get_audit_record in *. rewrite find_app_first, H. reflexivity.
Qed.

Lemma get_audit_record_first_wins_witness :
  get_audit_record (log_all (log_all [] Scenarios.two_calls) [Cases.relog])
                   "test_001"
  = Some Cases.first_block.
Proof.
  apply (get_audit_record_first_wins
           (log_all [] Scenarios.two_calls) "test_001" Cases.first_block
           [Cases.relog]).
  vm_compute. reflexivity.
Defined.

(** When the chain has no record for a content id, [log_analysis]
    followed by [get_audit_record] gives the block just logged: its hash
    is the digest the call returned, and it carries the text and the
    analysis that were passed. *)
Theorem get_audit_record_after_log
        (blocks : list Block) (now cid : string) (analysis : json)
        (content_text : string) :
  get_audit_record blocks cid = None ->
  exists b,
    get_audit_record
      (snd (log_analysis blocks now cid analysis content_text)) cid = Some b
    /\ hash b = fst (log_analysis blocks now cid analysis content_text)
    /\ block_number b = Z.of_nat (length blocks)
    /\ (content_id b, timestamp b) = (cid, now)
    /\ data b = JDict [("content_text", JStr content_text);
                       ("analysis", analysis)].
Proof.
  intros H. eexists. split.
  - simpl. unfold get_audit_record in *. rewrite find_app_first, H.
    simpl. rewrite String.eqb_refl. reflexivity.
  - repeat split.
Qed.

Lemma get_audit_record_after_log_witness :
  exists b,
    get_audit_record
      (snd (log_analysis (log_all [] Scenarios.two_calls)
                         "2026-02-08T08:00:00.000000" "test_003"
                         Scenarios.sample_analysis "Third")) "test_003"
    = Some b
    /\ hash b = fst (log_analysis (log_all [] Scenarios.two_calls)
                                  "2026-02-08T08:00:00.000000" "test_003"
                                  Scenarios.sample_analysis "Third")
    /\ block_number b
       = Z.of_nat (length (log_all [] Scenarios.two_calls))
    /\ (content_id b, timestamp b)
       = ("test_003", "2026-02-08T08:00:00.000000")
    /\ data b = JDict [("content_text", JStr "Third");
                       ("analysis", Scenarios.sample_analysis)].
Proof.
  apply (get_audit_record_after_log
           (log_all [] Scenarios.two_calls) "2026-02-08T08:00:00.000000"
           "test_003" Scenarios.sample_analysis "Third").
  vm_compute. reflexivity.
Defined.

(** From the empty chain file, [get_audit_record] returns None exactly
    for the content ids that no call has logged. *)
Theorem get_audit_record_none_iff (calls : list LogCall) (cid : string) :
  get_audit_record (log_all [] calls) cid = None
  <-> ~ In cid (map call_content_id calls).
Proof.
  destruct (log_all_extends [] calls) as (added & -> & Hids).
  rewrite <- Hids. simpl. unfold get_audit_record. clear Hids. split.
  - intros H Hin. apply in_map_iff in Hin as (b & Hb & Hin).
    apply (find_none _ _ H) in Hin. rewrite Hb, String.eqb_refl in Hin.
    discriminate.
  - intros H. destruct (find _ added) as [b|] eqn:E; [|reflexivity].
    apply find_some in E as [Hin Hb]. apply String.eqb_eq in Hb.
    exfalso. apply H. rewrite <- Hb. apply in_map, Hin.
Qed.

End LedgerLookup.

(** ** From the signals to the action *)

Section Pipeline.
Import Actions ActionCard.

Lemma scoring_result_shape (signals : Signals) (r : ScoringResult) :
  Scoring.calculate_harm_score signals = Py.Ok r
  \/ ImprovedScoring.calculate_harm_score signals = Py.Ok r ->
  risk_score r <= 100
  /\ risk_label r = label_of (risk_score r)
  /\ child_escalation r
     = get (child_flag signals) false
       && (0.5 <? get (child_score signals) 0)%float.
Proof.
  unfold Scoring.calculate_harm_score, ImprovedScoring.calculate_harm_score,
    Scoring.calculate_improved_harm_score,
    ImprovedScoring.calculate_improved_harm_score.
  cbv zeta. destruct (ImprovedScoring.overridden signals) as [ri ria].
  intros [H|H].
  - destruct (Py.int_round (Scoring.overridden signals)); [|discriminate].
    injection H as <-. simpl. repeat split. lia.
  - destruct (Py.int_round ri); [|discriminate].
    injection H as <-. simpl. repeat split. lia.
Qed.

(** Scoring followed by [recommend_action], for either scoring module.
    The score is at most 100 and the label is the band of the score.  The
    item is escalated at CRITICAL priority exactly when the child flag is
    set and the child-safety score is above 0.5, whatever the other
    signals and the score are.  A High label always gets HIGH or CRITICAL
    priority, and LOW priority is only given under a Low label, with a
    score of at most 39. *)
Theorem scoring_then_recommend_action (signals : Signals) (r : ScoringResult) :
  Scoring.calculate_harm_score signals = Py.Ok r
  \/ ImprovedScoring.calculate_harm_score signals = Py.Ok r ->
  risk_score r <= 100
  /\ (risk_label r = "Low" /\ risk_score r <= 49
      \/ risk_label r = "Medium" /\ 50 <= risk_score r <= 74
      \/ risk_label r = "High" /\ 75 <= risk_score r)
  /\ (priority (recommend_action r) = "CRITICAL"
      <-> get (child_flag signals) false = true
          /\ (0.5 <? get (child_score signals) 0)%float = true)
  /\ (risk_label r = "High" ->
      priority (recommend_action r) = "HIGH"
      \/ priority (recommend_action r) = "CRITICAL")
  /\ (priority (recommend_action r) = "LOW" ->
      risk_label r = "Low" /\ risk_score r <= 39).
Proof.
  intros H. destruct (scoring_result_shape signals r H) as (Hcap & Hl & He).
  rewrite <- andb_true_iff, <- He, Hl. clear H He Hl.
  unfold recommend_action, label_of.
  destruct (child_escalation r);
    destruct (Z.leb_spec (risk_score r) 39);
    destruct (Z.leb_spec (risk_score r) 69);
    destruct (Z.leb_spec (risk_score r) 49);
    destruct (Z.leb_spec (risk_score r) 74); simpl;
    try lia;
    (split; [lia|]);
    (split; [first [ left; split; [reflexivity|lia]
                   | right; left; split; [reflexivity|lia]
                   | right; right; split; [reflexivity|lia] ]|]);
    (split; [split; intros; first [reflexivity|discriminate]|]);
    (split; intros; first [ discriminate | left; reflexivity
                          | right; reflexivity
                          | split; [reflexivity|lia] ]).
Qed.

Lemma scoring_then_recommend_action_witness :
  let r := mkScoringResult 85 "High"
             [("Child Safety", 0.5%float); ("Toxicity", 0%float);
              ("Emotion", 0%float); ("Call-to-Action", 0%float);
              ("Context Sensitivity", 0%float)]
             false true "low" (Some "medium") in
  risk_score r <= 100
  /\ (risk_label r = "Low" /\ risk_score r <= 49
      \/ risk_label r = "Medium" /\ 50 <= risk_score r <= 74
      \/ risk_label r = "High" /\ 75 <= risk_score r)
  /\ (priority (recommend_action r) = "CRITICAL"
      <-> get (child_flag (Scenarios.flagged_child 0.5)) false = true
          /\ (0.5 <? get (child_score (Scenarios.flagged_child 0.5)) 0)%float
             = true)
  /\ (risk_label r = "High" ->
      priority (recommend_action r) = "HIGH"
      \/ priority (recommend_action r) = "CRITICAL")
  /\ (priority (recommend_action r) = "LOW" ->
      risk_label r = "Low" /\ risk_score r <= 39).
Proof.
  apply (scoring_then_recommend_action (Scenarios.flagged_child 0.5)).
  right. vm_compute. reflexivity.
Defined.

(** The card of a recommendation never takes the fallback colour: its
    colour is the one listed for its priority, red exactly when the item
    is a child-safety escalation, and title, queue, rationale and steps are
    those of the recommendation. *)
Theorem format_action_card_of_recommendation (r : ScoringResult) :
  let card := format_action_card (recommend_action r) in
  In (card_priority card, priority_color card) priority_colors
  /\ priority_color card <> "#6b7280"
  /\ (priority_color card = "#dc2626" <-> child_escalation r = true)
  /\ (title card, card_queue card, card_rationale card, steps card)
     = (action (recommend_action r), queue (recommend_action r),
        rationale (recommend_action r),
        recommended_steps (recommend_action r)).
Proof.
  intros card. subst card. unfold recommend_action.
  destruct (child_escalation r), (risk_score r <=? 39),
    (risk_score r <=? 69); simpl;
    (split; [tauto|]); (split; [discriminate|]);
    (split; [split; intros; first [reflexivity|discriminate]|reflexivity]).
Qed.

End Pipeline.

(** ** The harm categories *)

Section HarmCategories.
Import Categories.

Lemma existsb_eqb_In (x : string) (l : list string) :
  existsb (String.eqb x) l = true <-> In x l.
Proof.
  rewrite existsb_exists. split.
  - intros (y & Hy & E). apply String.eqb_eq in E. subst. exact Hy.
  - intros H. exists x. split; [exact H|apply String.eqb_refl].
Qed.

Lemma dedupe_spec (categories seen unique : list string) :
  (forall x, In x seen <-> In x unique) -> NoDup unique ->
  NoDup (dedupe categories seen unique)
  /\ (forall x, In x (dedupe categories seen unique)
                <-> In x unique \/ In x categories)
  /\ exists rest, dedupe categories seen unique = unique ++ rest.
Proof.
  revert seen unique.
  induction categories as [|cat rest IH]; intros seen unique Hseen Hnd; simpl.
  - split; [exact Hnd|]. split; [tauto|].
    exists []. symmetry. apply app_nil_r.
  - destruct (existsb (String.eqb cat) seen) eqn:E.
    + apply existsb_eqb_In in E.
      destruct (IH seen unique Hseen Hnd) as (N & M & P).
      split; [exact N|]. split; [|exact P].
      intros x. rewrite M. split; [tauto|].
      intros [H|[<-|H]]; auto. left. apply Hseen, E.
    + assert (Hcat : ~ In cat unique).
      { intros H. apply Hseen, existsb_eqb_In in H. congruence. }
      destruct (IH (cat :: seen) (unique ++ [cat])) as (N & M & [rest' P]).
      * intros x. simpl. rewrite in_app_iff, Hseen. simpl. tauto.
      * apply NoDup_app. split; [exact Hnd|]. split.
        -- intros x Hx [->|[]]%list_elem_of_In. apply Hcat.
           apply list_elem_of_In, Hx.
        -- apply NoDup_singleton.
      * split; [exact N|]. split.
        -- intros x. rewrite M, in_app_iff. simpl. tauto.
        -- exists (cat :: rest'). rewrite P, <- app_assoc. reflexivity.
Qed.

(** [get_improved_harm_categories] never returns an empty list and never
    returns a category twice.  General Content is returned only as the
    single default, when nothing was collected, or when the detector
    itself listed it. *)
Theorem harm_categories_nonempty_nodup
        (signals : Signals) (emotion_labels : option (list string))
        (context_topic : option string) (threshold : float) :
  let result :=
    get_improved_harm_categories signals emotion_labels context_topic
                                 threshold in
  result <> [] /\ NoDup result
  /\ (In "General Content" result ->
      result = ["General Content"]
      \/ In "General Content" (get (toxicity_categories signals) [])).
Proof.
  intros result. subst result. unfold get_improved_harm_categories.
  set (cats := collected signals emotion_labels context_topic threshold).
  destruct (dedupe_spec cats [] []) as (N & M & _);
    [tauto|apply NoDup_nil_2|].
  destruct (dedupe cats [] []) as [|c l] eqn:E.
  - simpl. split; [discriminate|]. split; [apply NoDup_singleton|].
    intros _. left. reflexivity.
  - split; [discriminate|]. split; [exact N|].
    intros H. apply M in H as [[]|H]. right.
    subst cats. unfold collected in H. cbv zeta in H.
    repeat match type of H with
           | context [if ?c then _ else _] => destruct c eqn:?
           end;
      repeat (apply in_app_iff in H as [H|H]);
      repeat match goal with
             | H : In _ [_] |- _ => destruct H as [H|[]]; try discriminate H
             | H : In _ [] |- _ => destruct H
             end;
      try assumption.
    all: exfalso; unfold category_map in *;
      repeat match goal with
             | H : context [if ?c then _ else _] |- _ =>
                 destruct c eqn:?; try discriminate H
             end.
Qed.

Lemma collected_prefix (signals : Signals)
      (emotion_labels : option (list string)) (context_topic : option string)
      (threshold : float) :
  exists rest,
    collected signals emotion_labels context_topic threshold
    = (if negb (Nat.eqb (length (get (toxicity_categories signals) [])) 0)
          && negb (safe_only (get (toxicity_categories signals) []))
       then get (toxicity_categories signals) [] else []) ++ rest.
Proof.
  unfold collected. cbv zeta.
  set (start := if _ && _ then _ else _). clearbody start.
  repeat match goal with
         | |- context [if ?c then _ else _] => destruct c
         end;
    rewrite <- ?app_assoc; eexists; first [reflexivity|symmetry; apply app_nil_r].
Qed.

Lemma collected_child_flag (signals : Signals)
      (emotion_labels : option (list string)) (context_topic : option string)
      (threshold : float) :
  get (child_flag signals) false = true ->
  In "Child Safety Concern"
     (collected signals emotion_labels context_topic threshold)
  \/ In "Child Safety"
        (collected signals emotion_labels context_topic threshold).
Proof.
  intros H. unfold collected. cbv zeta. rewrite H.
  match goal with
  | |- context [existsb (String.eqb "Child Safety") ?l] =>
      generalize l; intros before
  end.
  destruct (existsb (String.eqb "Child Safety") before) eqn:E; simpl.
  - right. apply existsb_eqb_In, E.
  - left. apply in_app_iff. right. left. reflexivity.
Qed.

(** What the categories contain.  A set child flag always shows, as Child
    Safety Concern unless Child Safety is listed already.  The toxicity
    categories of the detector are all kept, except that the single list
    ['Safe'] is dropped. *)
Theorem harm_categories_content
        (signals : Signals) (emotion_labels : option (list string))
        (context_topic : option string) (threshold : float) :
  let result :=
    get_improved_harm_categories signals emotion_labels context_topic
                                 threshold in
  let toxicity_categories := get (toxicity_categories signals) [] in
  (get (child_flag signals) false = true ->
   In "Child Safety Concern" result \/ In "Child Safety" result)
  /\ (toxicity_categories <> ["Safe"] ->
      forall cat, In cat toxicity_categories -> In cat result)
  /\ (toxicity_categories = ["Safe"] -> ~ In "Safe" result).
Proof.
  intros result tc. subst result. unfold get_improved_harm_categories.
  set (cats := collected signals emotion_labels context_topic threshold).
  destruct (dedupe_spec cats [] []) as (N & M & _);
    [tauto|apply NoDup_nil_2|].
  assert (Hres : forall x, In x cats ->
                           In x match dedupe cats [] [] with
                                | [] => dedupe cats [] [] ++ ["General Content"]
                                | _ => dedupe cats [] []
                                end).
  { intros x Hx. assert (Hd : In x (dedupe cats [] [])) by (apply M; auto).
    destruct (dedupe cats [] []); [destruct Hd|exact Hd]. }
  split; [|split].
  - intros H.
    destruct (collected_child_flag signals emotion_labels context_topic
                                   threshold H); [left|right];
      apply Hres; assumption.
  - intros Hsafe cat Hcat. apply Hres. subst cats.
    destruct (collected_prefix signals emotion_labels context_topic threshold)
      as [rest ->].
    fold tc. apply in_app_iff. left.
    assert (safe_only tc = false) as ->.
    { destruct tc as [|c [|c' l]]; try reflexivity. simpl.
      apply String.eqb_neq. congruence. }
    destruct tc; [destruct Hcat|exact Hcat].
  - intros Hsafe Hin.
    assert (Hc : In "Safe" cats).
    { destruct (dedupe cats [] []) eqn:E.
      - destruct Hin as [Hin|[]]. discriminate Hin.
      - apply M in Hin as [[]|Hin]. exact Hin. }
    subst cats. unfold collected in Hc. cbv zeta in Hc. fold tc in Hc.
    rewrite Hsafe in Hc. simpl in Hc.
    repeat match type of Hc with
           | context [if ?c then _ else _] => destruct c eqn:?
           end;
      repeat (apply in_app_iff in Hc as [Hc|Hc]);
      repeat match goal with
             | H : In _ [_] |- _ => destruct H as [H|[]]; try discriminate H
             | H : In _ [] |- _ => destruct H
             end.
    all: unfold category_map in *;
      repeat match goal with
             | H : context [if ?c then _ else _] |- _ =>
                 destruct c eqn:?; try discriminate H
             end.
Qed.

End HarmCategories.

(** ** The analysis table *)

Section AnalysisTable.
Import Database Storage.

Lemma existsb_content_id (cid : string) (rows : list ContentRow) :
  existsb (fun r => String.eqb (row_content_id r) cid) rows = true
  <-> In cid (map row_content_id rows).
Proof.
  rewrite existsb_exists, in_map_iff. split.
  - intros (r & Hr & E). apply String.eqb_eq in E. eauto.
  - intros (r & E & Hr). exists r. split; [exact Hr|].
    apply String.eqb_eq, E.
Qed.

(** [save_analysis] stores a content id once.  It returns True exactly
    when a text is given and the content id is not in the table yet; it
    then appends one row, with a fresh id, that holds what was passed.
    Otherwise it returns False and changes nothing.  Content ids that are
    distinct stay distinct. *)
Theorem save_analysis_stores_once
        (s : Store) (now cid : string) (analysis : Analysis)
        (request_data : RequestData) :
  let saved := fst (save_analysis s now cid analysis request_data) in
  let s' := snd (save_analysis s now cid analysis request_data) in
  (saved = true
   <-> text request_data <> None
       /\ ~ In cid (map row_content_id (contents s)))
  /\ (saved = false -> s' = s)
  /\ (saved = true ->
      exists row,
        contents s' = contents s ++ [row]
        /\ row_content_id row = cid
        /\ Some (row_content_text row) = text request_data
        /\ (row_risk_score row, row_risk_label row, row_priority row,
            row_queue row)
           = (risk_score analysis, risk_label analysis, priority analysis,
              queue analysis)
        /\ Forall (fun r => row_id r < row_id row) (contents s)
        /\ (queue_rows s', escalation_rows s', action_log s', webhook_log s')
           = (queue_rows s, escalation_rows s, action_log s, webhook_log s))
  /\ (NoDup (map row_content_id (contents s)) ->
      NoDup (map row_content_id (contents s'))).
Proof.
  intros saved s'. subst saved s'. unfold save_analysis.
  destruct (existsb _ (contents s)) eqn:E.
  - apply existsb_content_id in E. simpl.
    split; [split; [discriminate|tauto]|].
    split; [reflexivity|]. split; [discriminate|tauto].
  - assert (Hnew : ~ In cid (map row_content_id (contents s))).
    { intros H. apply existsb_content_id in H. congruence. }
    destruct (text request_data) as [content_text|]; simpl.
    + split; [split; [intros _; split; [discriminate|exact Hnew]
                     |reflexivity]|].
      split; [discriminate|]. split.
      * intros _. eexists. split; [reflexivity|]. simpl.
        repeat (split; [reflexivity|]). split; [|reflexivity].
        pose proof (next_id_fresh (map row_id (contents s))) as H.
        rewrite Forall_map in H. exact H.
      * intros Hnd. rewrite map_app. simpl. apply NoDup_app.
        split; [exact Hnd|]. split; [|apply NoDup_singleton].
        intros x Hx [->|[]]%list_elem_of_In. apply Hnew.
        apply list_elem_of_In, Hx.
    + split; [split; [discriminate|intros [H _]; congruence]|].
      split; [reflexivity|]. split; [discriminate|tauto].
Qed.

Lemma filter_none {A : Type} (f : A -> bool) (l : list A) :
  (forall x, In x l -> f x = false) -> List.filter f l = [].
Proof.
  induction l as [|x l IH]; simpl; intros H; [reflexivity|].
  rewrite (H x) by (left; reflexivity). apply IH. intros y Hy.
  apply H. right. exact Hy.
Qed.

Lemma unique_match_filter (cid : string) (rows : list ContentRow) :
  NoDup (map row_content_id rows) ->
  (length (List.filter (fun c => String.eqb cid (row_content_id c)) rows)
   <= 1)%nat.
Proof.
  induction rows as [|r rows IH]; simpl; [lia|].
  intros [Hr Hnd]%NoDup_cons.
  destruct (String.eqb_spec cid (row_content_id r)) as [->|Hne].
  - assert (List.filter (fun c => String.eqb (row_content_id r)
                                             (row_content_id c)) rows = [])
      as ->; [|simpl; lia].
    apply filter_none. intros c Hc.
    destruct (String.eqb_spec (row_content_id r) (row_content_id c))
      as [E|]; [|reflexivity].
    exfalso. apply Hr. rewrite E. apply list_elem_of_In, in_map, Hc.
  - apply IH, Hnd.
Qed.

Lemma map_flat_map_optional {A B : Type} (proj : B -> A) (f : A -> list B)
      (p : A -> bool) (l : list A) :
  (forall x, map proj (f x) = if p x then [x] else []) ->
  map proj (flat_map f l) = List.filter p l.
Proof.
  intros H. induction l as [|x l IH]; simpl; [reflexivity|].
  rewrite map_app, H, IH. destruct (p x); reflexivity.
Qed.

Lemma filter_filter {A : Type} (p q : A -> bool) (l : list A) :
  List.filter p (List.filter q l) = List.filter (fun x => q x && p x) l.
Proof.
  induction l as [|x l IH]; simpl; [reflexivity|].
  destruct (q x); simpl; [destruct (p x)|]; rewrite IH; reflexivity.
Qed.

(** While content ids are distinct in the analysis table, as
    [save_analysis] keeps them, [get_queue_items] lists every queue
    entry that passes the filter and has an analysis exactly once, and no
    other entry. *)
Theorem get_queue_items_each_entry_once
        (s : Store) (queue_name : option string) (wanted_status : string) :
  NoDup (map row_content_id (contents s)) ->
  map entry (get_queue_items s queue_name wanted_status)
  ≡ₚ List.filter
       (fun q =>
          (if given queue_name
           then String.eqb (Database.queue_name q) (get queue_name EmptyString)
                && String.eqb (status q) wanted_status
           else String.eqb (status q) wanted_status)
          && existsb (fun r => String.eqb (row_content_id r) (content_id q))
                     (contents s))
       (queue_rows s).
Proof.
  intros Hnd. unfold get_queue_items, Database.get_queue_items.
  rewrite order_by_Permutation. unfold select_queue_items. simpl.
  rewrite <- filter_filter.
  erewrite (map_flat_map_optional entry); [reflexivity|].
  intros q. rewrite map_map, List.filter_map_swap, map_map. simpl.
  pose proof (unique_match_filter (content_id q) (contents s) Hnd) as Hlen.
  destruct (existsb _ (contents s)) eqn:Ex.
  - apply existsb_content_id, in_map_iff in Ex as (r & Er & Hr).
    destruct (List.filter _ (contents s)) as [|c [|c' l]] eqn:F.
    + exfalso. assert (Hin : In r []); [|exact Hin].
      rewrite <- F. apply filter_In. split; [exact Hr|].
      apply String.eqb_eq. congruence.
    + reflexivity.
    + simpl in Hlen. lia.
  - destruct (List.filter _ (contents s)) as [|c l] eqn:F; [reflexivity|].
    assert (Hc : In c (c :: l)) by (left; reflexivity).
    rewrite <- F in Hc. apply filter_In in Hc as [Hc Ec].
    apply String.eqb_eq in Ec.
    assert (existsb (fun r => String.eqb (row_content_id r) (content_id q))
                    (contents s) = true); [|congruence].
    apply existsb_content_id. rewrite Ec. apply in_map, Hc.
Qed.

Lemma get_queue_items_each_entry_once_witness :
  map entry (get_queue_items Samples.one_queued None "pending")
  ≡ₚ queue_rows Samples.one_queued.
Proof.
  apply (get_queue_items_each_entry_once Samples.one_queued None "pending").
  apply (bool_decide_unpack _). vm_compute. exact I.
Defined.

End AnalysisTable.

(** ** Saving, queueing and listing *)

Section SaveQueueList.
Import Database Storage.

(** After [save_analysis] has stored a content id, [add_to_queue] for
    that content id makes it show among the pending items of its queue,
    with the text and the score that were saved. *)
Theorem saved_then_queued_is_listed
        (s : Store) (now now' cid : string) (analysis : Analysis)
        (request_data : RequestData) :
  fst (save_analysis s now cid analysis request_data) = true ->
  let s1 := snd (save_analysis s now cid analysis request_data) in
  let s2 := add_to_queue s1 now' cid (queue analysis) (priority analysis) in
  exists item,
    In item (get_queue_items s2 (Some (queue analysis)) "pending")
    /\ (content_id (entry item), queue_name (entry item),
        Database.priority (entry item), status (entry item),
        created_at (entry item))
       = (cid, queue analysis, priority analysis, "pending", now')
    /\ Some (item_content_text item) = text request_data
    /\ item_risk_score item = risk_score analysis.
Proof.
  intros Hsaved s1 s2. subst s1 s2. revert Hsaved. unfold save_analysis.
  destruct (existsb _ (contents s)); [discriminate|].
  destruct (text request_data) as [content_text|]; [|discriminate].
  intros _. simpl.
  eexists (mkQueueItem (mkQueueRow _ cid (queue analysis) (priority analysis)
                                   None "pending" now' None None None)
                       content_text (risk_score analysis) _).
  split; [|repeat split].
  unfold get_queue_items, Database.get_queue_items.
  apply list_elem_of_In. rewrite order_by_Permutation.
  apply list_elem_of_In, select_queue_items_spec. simpl.
  split; [apply in_app_iff; right; left; reflexivity|].
  split; [reflexivity|]. split; [reflexivity|].
  eexists (mkAnalysisRow cid content_text (risk_score analysis) _).
  split; [|split; reflexivity].
  rewrite map_app. apply in_app_iff. right. left. reflexivity.
Qed.

Lemma saved_then_queued_is_listed_witness :
  exists item,
    In item (get_queue_items Samples.one_queued
                             (Some "Priority Review Queue") "pending")
    /\ (content_id (entry item), queue_name (entry item),
        Database.priority (entry item), status (entry item),
        created_at (entry item))
       = ("post-1", "Priority Review Queue", "HIGH", "pending",
          "2026-02-08 08:00:01")
    /\ Some (item_content_text item) = Some "Example text"
    /\ item_risk_score item = 82.
Proof.
  apply (saved_then_queued_is_listed
           Samples.empty_store "2026-02-08 08:00:00" "2026-02-08 08:00:01"
           "post-1" Samples.high_risk_analysis Samples.post_request).
  reflexivity.
Defined.

End SaveQueueList.

(** ** The escalation table, continued *)

Section Escalations.
Import Database Storage.

Lemma escalation_le_spec (a b : EscalationItem) :
  escalation_le a b <->
  priority_rank (esc_priority (escalation a))
  < priority_rank (esc_priority (escalation b))
  \/ (priority_rank (esc_priority (escalation a))
      = priority_rank (esc_priority (escalation b))
      /\ String.leb (esc_created_at (escalation b))
                    (esc_created_at (escalation a)) = true).
Proof.
  unfold escalation_le, escalation_leb.
  rewrite orb_true_iff, andb_true_iff, Z.ltb_lt, Z.eqb_eq. reflexivity.
Qed.

#[global] Instance escalation_le_total : Total escalation_le.
Proof.
  intros a b. rewrite !escalation_le_spec.
  destruct (String.leb_total (esc_created_at (escalation a))
                             (esc_created_at (escalation b)));
    destruct (Z.lt_trichotomy (priority_rank (esc_priority (escalation a)))
                              (priority_rank (esc_priority (escalation b))))
      as [?|[?|?]]; intuition lia.
Qed.

#[global] Instance escalation_le_trans : Transitive escalation_le.
Proof.
  intros a b c. rewrite !escalation_le_spec.
  intros [Hab|[Hab Tab]] [Hbc|[Hbc Tbc]]; try (left; lia).
  right. split; [lia|]. eapply string_leb_trans; eauto.
Qed.

(** [get_escalations] returns the rows its SELECT matches ordered by
    priority rank and, within a rank, newest first.  The join is a LEFT
    JOIN: every escalation that passes the filters is listed, with or
    without an analysis of its content. *)
Theorem get_escalations_sorted_complete
        (s : Store) (wanted_status wanted_by : option string) :
  let items := get_escalations s wanted_status wanted_by in
  StronglySorted
    (fun a b =>
       priority_rank (esc_priority (escalation a))
       < priority_rank (esc_priority (escalation b))
       \/ (priority_rank (esc_priority (escalation a))
           = priority_rank (esc_priority (escalation b))
           /\ String.leb (esc_created_at (escalation b))
                         (esc_created_at (escalation a)) = true))
    items
  /\ items ≡ₚ select_escalations s wanted_status wanted_by
  /\ (forall e,
         In e (escalation_rows s) ->
         (given wanted_status = true -> wanted_status = Some (esc_status e)) ->
         (given wanted_by = true -> wanted_by = Some (escalated_by e)) ->
         exists item, In item items /\ escalation item = e)
  /\ (forall item,
         In item items ->
         In (escalation item) (escalation_rows s)
         /\ (given wanted_status = true ->
             wanted_status = Some (esc_status (escalation item)))
         /\ (given wanted_by = true ->
             wanted_by = Some (escalated_by (escalation item)))).
Proof.
  intros items.
  assert (Hp : items ≡ₚ select_escalations s wanted_status wanted_by)
    by apply order_by_Permutation.
  split; [|split; [exact Hp|split]].
  - apply (StronglySorted_weaken escalation_le).
    + intros a b. apply escalation_le_spec.
    + apply order_by_sorted;
        [exact escalation_le_total|exact escalation_le_trans].
  - intros e He Hst Hby.
    assert (Hw : exists item, In item (select_escalations s wanted_status
                                                          wanted_by)
                              /\ escalation item = e).
    { unfold select_escalations.
      destruct (List.filter (fun c => String.eqb (esc_content_id e)
                                                 (row_content_id c))
                            (contents s)) as [|c l] eqn:F.
      - exists (mkEscalationItem e None None None None).
        split; [|reflexivity]. apply in_flat_map. exists e. split.
        + apply filter_In. split; [exact He|].
          apply andb_true_iff. split.
          * destruct (given wanted_status); [|reflexivity].
            rewrite (Hst eq_refl). apply String.eqb_refl.
          * destruct (given wanted_by); [|reflexivity].
            rewrite (Hby eq_refl). apply String.eqb_refl.
        + rewrite F. left. reflexivity.
      - eexists (mkEscalationItem e _ _ _ _).
        split; [|reflexivity]. apply in_flat_map. exists e. split.
        + apply filter_In. split; [exact He|].
          apply andb_true_iff. split.
          * destruct (given wanted_status); [|reflexivity].
            rewrite (Hst eq_refl). apply String.eqb_refl.
          * destruct (given wanted_by); [|reflexivity].
            rewrite (Hby eq_refl). apply String.eqb_refl.
        + rewrite F. left. reflexivity. }
    destruct Hw as (item & Hin & E). exists item. split; [|exact E].
    apply list_elem_of_In. rewrite Hp. apply list_elem_of_In, Hin.
  - intros item Hin.
    apply list_elem_of_In in Hin. rewrite Hp in Hin.
    apply list_elem_of_In in Hin. unfold select_escalations in Hin.
    apply in_flat_map in Hin as (e & He & Hitem).
    apply filter_In in He as [He Hw].
    apply andb_true_iff in Hw as [Hst Hby].
    assert (E : escalation item = e).
    { destruct (List.filter _ (contents s)) as [|c l].
      - destruct Hitem as [<-|[]]. reflexivity.
      - apply in_map_iff in Hitem as (c' & <- & _). reflexivity. }
    rewrite E. split; [exact He|]. split.
    + intros G. rewrite G in Hst. apply String.eqb_eq in Hst.
      destruct wanted_status; [|discriminate G]. simpl in Hst. congruence.
    + intros G. rewrite G in Hby. apply String.eqb_eq in Hby.
      destruct wanted_by; [|discriminate G]. simpl in Hby. congruence.
Qed.

(** [create_escalation] returns the id of the row it adds, which is
    larger than every id in the table; the row is pending, unassigned, and
    its response time estimate is fixed from the priority: under an hour
    for CRITICAL, 2-4 hours for HIGH, 4-8 hours for MEDIUM and 24-48 hours
    for LOW and for any other text. *)
Theorem create_escalation_row
        (db : ModerationDatabase)
        (now cid by_whom reason kind prio : string) :
  let escalation_id :=
    fst (Database.create_escalation db now cid by_whom reason kind prio) in
  let db' :=
    snd (Database.create_escalation db now cid by_whom reason kind prio) in
  exists row,
    escalations db' = escalations db ++ [row]
    /\ esc_id row = escalation_id
    /\ Forall (fun e => esc_id e < escalation_id) (escalations db)
    /\ (esc_content_id row, escalated_by row, escalation_reason row,
        escalation_type row, esc_priority row, esc_created_at row)
       = (cid, by_whom, reason, kind, prio, now)
    /\ (esc_status row, esc_assigned_to row, responded_at row,
        resolved_at row, resolution_notes row)
       = ("pending", None, None, None, None)
    /\ response_time_estimate row
       = Some (if String.eqb prio "CRITICAL" then "< 1 hour"
               else if String.eqb prio "HIGH" then "2-4 hours"
               else if String.eqb prio "MEDIUM" then "4-8 hours"
               else "24-48 hours")
    /\ (content_analysis db', moderation_queue db')
       = (content_analysis db, moderation_queue db).
Proof.
  intros escalation_id db'. subst escalation_id db'. simpl.
  eexists. split; [reflexivity|]. simpl. split; [reflexivity|]. split.
  - pose proof (next_id_fresh (map esc_id (escalations db))) as H.
    rewrite Forall_map in H. exact H.
  - repeat (split; [reflexivity|]). split; [|reflexivity].
    unfold time_estimate.
    repeat match goal with
           | |- context [String.eqb ?a ?b] => destruct (String.eqb a b)
           end; reflexivity.
Qed.

(** The columns an escalation keeps for life. *)
Lemma map_lookup_unchanged {A : Type} (f : A -> A) (l : list A) :
  (forall x, In x l -> f x = x) -> map f l = l.
Proof.
  induction l as [|x l IH]; simpl; intros H; [reflexivity|].
  rewrite (H x) by (left; reflexivity). f_equal. apply IH.
  intros y Hy. apply H. right. exact Hy.
Qed.

(** [update_escalation_status] touches nothing but the rows with the
    given id: the other rows, the queue and the analysis rows stay as they
    are, and an id that is not in the table changes nothing at all.  In
    the rows it does touch it keeps the id, the content id, who escalated
    and why, the type, the priority, the creation time and the response
    time estimate. *)
Theorem update_escalation_status_frame
        (db : ModerationDatabase) (now : string) (escalation_id : Z)
        (new_status : string) (assignee notes : option string) :
  let db' := Database.update_escalation_status db now escalation_id
                                               new_status assignee notes in
  map (fun e => (esc_id e, esc_content_id e, escalated_by e,
                 escalation_reason e, escalation_type e, esc_priority e,
                 esc_created_at e, response_time_estimate e))
      (escalations db')
  = map (fun e => (esc_id e, esc_content_id e, escalated_by e,
                   escalation_reason e, escalation_type e, esc_priority e,
                   esc_created_at e, response_time_estimate e))
        (escalations db)
  /\ (forall i e, escalations db !! i = Some e ->
                  esc_id e <> escalation_id ->
                  escalations db' !! i = Some e)
  /\ (content_analysis db', moderation_queue db')
     = (content_analysis db, moderation_queue db)
  /\ (~ In escalation_id (map esc_id (escalations db)) ->
      escalations db' = escalations db).
Proof.
  intros db'. subst db'. simpl. split; [|split; [|split]].
  - rewrite map_map. apply map_ext. intros e.
    destruct (esc_id e =? escalation_id); reflexivity.
  - intros i e He Hne. rewrite list_lookup_fmap, He. simpl.
    apply Z.eqb_neq in Hne. rewrite Hne. reflexivity.
  - reflexivity.
  - intros Hid. apply map_lookup_unchanged. intros e He.
    destruct (Z.eqb_spec (esc_id e) escalation_id) as [E|]; [|reflexivity].
    exfalso. apply Hid. rewrite <- E. apply in_map, He.
Qed.

(** [update_queue_status] touches nothing but the rows with the given
    id; an id that is not in the queue changes nothing, and no error is
    raised for it. *)
Theorem update_queue_status_frame
        (db : ModerationDatabase) (now : string) (queue_id : Z)
        (new_status : string) (reviewer decision notes : option string) :
  let db' := Database.update_queue_status db now queue_id new_status
                                          reviewer decision notes in
  map (fun q => (id q, content_id q, queue_name q, Database.priority q,
                 created_at q))
      (moderation_queue db')
  = map (fun q => (id q, content_id q, queue_name q, Database.priority q,
                   created_at q))
        (moderation_queue db)
  /\ (forall i q, moderation_queue db !! i = Some q ->
                  id q <> queue_id ->
                  moderation_queue db' !! i = Some q)
  /\ (content_analysis db', escalations db')
     = (content_analysis db, escalations db)
  /\ (~ In queue_id (map id (moderation_queue db)) ->
      moderation_queue db' = moderation_queue db).
Proof.
  intros db'. subst db'. simpl. split; [|split; [|split]].
  - rewrite map_map. apply map_ext. intros q.
    destruct (id q =? queue_id); reflexivity.
  - intros i q Hq Hne. rewrite list_lookup_fmap, Hq. simpl.
    apply Z.eqb_neq in Hne. rewrite Hne. reflexivity.
  - reflexivity.
  - intros Hid. apply map_lookup_unchanged. intros q Hq.
    destruct (Z.eqb_spec (id q) queue_id) as [E|]; [|reflexivity].
    exfalso. apply Hid. rewrite <- E. apply in_map, Hq.
Qed.

End Escalations.

(** ** Executing the actions *)

Section Executing.
Import Database Storage Execution.

#[local] Arguments among : simpl never.

(** The loop of [_send_webhooks] writes the webhook log only, one row for
    each webhook it was to send, in order. *)
Lemma send_each_frame (env : Environment) (cid : string)
      (analysis : Analysis) (to_send : list (string * string)) :
  forall (tick : nat) (s : Store) (result : WebhookResult),
    let s' := fst (send_each env cid analysis to_send tick s result) in
    (contents s', queue_rows s', escalation_rows s', action_log s')
    = (contents s, queue_rows s, escalation_rows s, action_log s)
    /\ map (fun r => (delivery_content_id r, webhook_url r)) (webhook_log s')
       = map (fun r => (delivery_content_id r, webhook_url r)) (webhook_log s)
         ++ map (fun w => (cid, snd w)) to_send.
Proof.
  induction to_send as [|[webhook_type url] rest IH]; intros tick s result.
  - simpl. split; [reflexivity|]. rewrite app_nil_r. reflexivity.
  - simpl.
    destruct (post env url _) as [code body|message];
      match goal with
      | |- context [send_each _ _ _ _ ?t ?s0 ?r0] =>
          destruct (IH t s0 r0) as [Hframe Hlog]
      end;
      (split; [rewrite Hframe; reflexivity|]);
      rewrite Hlog; simpl; rewrite map_app, <- app_assoc; reflexivity.
Qed.

(** The loop reports [sent] as soon as one request got a response. *)
Lemma send_each_sent (env : Environment) (cid : string)
      (analysis : Analysis) (to_send : list (string * string)) :
  forall (tick : nat) (s : Store) (result : WebhookResult),
    sent (snd (send_each env cid analysis to_send tick s result)) = true
    <-> sent result = true
        \/ exists (i : nat) webhook_type url code body,
          to_send !! i = Some (webhook_type, url)
          /\ post env url (webhook_payload webhook_type cid analysis
                                           (utcnow env (tick + i)%nat))
             = Responded code body.
Proof.
  induction to_send as [|[webhook_type url] rest IH]; intros tick s result.
  - simpl. split; [tauto|]. intros [H|(i & t & u & c & b & H & _)];
      [exact H|discriminate H].
  - simpl. destruct (post env url _) as [code body|message] eqn:P.
    + rewrite IH. simpl. split; [intros _|tauto].
      right. exists 0%nat, webhook_type, url, code, body.
      rewrite Nat.add_0_r. split; [reflexivity|exact P].
    + rewrite IH. simpl. split.
      * intros [H|(i & t & u & c & b & H & HP)]; [tauto|].
        right. exists (S i), t, u, c, b. split; [exact H|].
        rewrite Nat.add_succ_r. exact HP.
      * intros [H|(i & t & u & c & b & H & HP)]; [tauto|].
        destruct i as [|i].
        -- simpl in H. injection H as <- <-. rewrite Nat.add_0_r in HP.
           congruence.
        -- right. exists i, t, u, c, b. split; [exact H|].
           rewrite Nat.add_succ_r in HP. exact HP.
Qed.

Ltac backends ex :=
  unfold execute_analysis_actions;
  destruct (save_analysis _ _ _ _ _) as [saved s1] eqn:Esave;
  match goal with
  | |- context [_send_webhooks ?env ?s ?cid ?a ?t] =>
      let Hf := fresh "Hframe" in
      let Hl := fresh "Hlog" in
      destruct (send_each_frame env cid a (webhooks_to_send (webhooks env) a)
                                t s
                                {| sent := false; responses := [];
                                   webhook_error := None |})
        as [Hf Hl];
      unfold _send_webhooks;
      destruct (send_each env cid a _ t s _) as [s2 webhook_result]
  end;
  simpl in *;
  destruct (blockchain ex) as [|m|blocks];
  [|destruct (given (manager_tx m _))|]; simpl.

(** The moderation queue after [execute_analysis_actions]. *)
Lemma execute_analysis_queue_rows
      (env : Environment) (ex : Executor) (cid : string)
      (analysis : Analysis) (request_data : RequestData) :
  queue_rows
    (db (snd (execute_analysis_actions env ex cid analysis request_data)))
  = if among (Storage.priority analysis) ["HIGH"; "CRITICAL"; "MEDIUM"]
    then queue_rows (db ex)
         ++ [mkQueueRow (next_id (map id (queue_rows (db ex)))) cid
                        (queue analysis) (Storage.priority analysis) None
                        "pending" (current_timestamp env 2) None None None]
    else queue_rows (db ex).
Proof.
  assert (Hsave : queue_rows
                    (snd (save_analysis (db ex) (current_timestamp env 0) cid
                                        analysis request_data))
                  = queue_rows (db ex)).
  { unfold save_analysis. destruct (existsb _ _); [reflexivity|].
    destruct (text request_data); reflexivity. }
  backends ex; injection Hframe as _ Hq _ _; rewrite Hq;
    destruct (among _ _); destruct saved; simpl; rewrite ?Hsave; reflexivity.
Qed.

Lemma execute_analysis_queue_added
      (env : Environment) (ex : Executor) (cid : string)
      (analysis : Analysis) (request_data : RequestData) :
  queue_added (fst (execute_analysis_actions env ex cid analysis request_data))
  = among (Storage.priority analysis) ["HIGH"; "CRITICAL"; "MEDIUM"].
Proof. backends ex; reflexivity. Qed.

(** Whatever happened to the save, [execute_analysis_actions] queues the
    content exactly when its priority is HIGH, CRITICAL or MEDIUM; it
    then appends one pending row, with a fresh id, to the moderation
    queue, and otherwise leaves the queue as it was. *)
Theorem execute_analysis_queues_by_priority
        (env : Environment) (ex : Executor) (cid : string)
        (analysis : Analysis) (request_data : RequestData) :
  let r := fst (execute_analysis_actions env ex cid analysis request_data) in
  let ex' := snd (execute_analysis_actions env ex cid analysis request_data) in
  (queue_added r = true
   <-> Storage.priority analysis = "HIGH"
       \/ Storage.priority analysis = "CRITICAL"
       \/ Storage.priority analysis = "MEDIUM")
  /\ (queue_added r = true ->
      exists row,
        queue_rows (db ex') = queue_rows (db ex) ++ [row]
        /\ (content_id row, queue_name row, Database.priority row, status row)
           = (cid, queue analysis, Storage.priority analysis, "pending")
        /\ Forall (fun q => id q < id row) (queue_rows (db ex)))
  /\ (queue_added r = false -> queue_rows (db ex') = queue_rows (db ex)).
Proof.
  intros r ex'. subst r ex'.
  rewrite execute_analysis_queue_added, execute_analysis_queue_rows.
  split; [|split].
  - unfold among. simpl. rewrite !orb_true_iff, !String.eqb_eq.
    intuition discriminate.
  - intros ->. eexists. split; [reflexivity|]. split; [reflexivity|].
    simpl. pose proof (next_id_fresh (map id (queue_rows (db ex)))) as H.
    rewrite Forall_map in H. exact H.
  - intros ->. reflexivity.
Qed.

(** A content id that is analysed again is not saved again, since the
    analysis table keeps one row for a content id, but it is queued
    again: the moderation queue gets one more row for it. *)
Theorem reanalysis_is_queued_again
        (env : Environment) (ex : Executor) (cid : string)
        (analysis : Analysis) (request_data : RequestData) :
  In cid (map row_content_id (contents (db ex))) ->
  among (Storage.priority analysis) ["HIGH"; "CRITICAL"; "MEDIUM"] = true ->
  let r := fst (execute_analysis_actions env ex cid analysis request_data) in
  let ex' := snd (execute_analysis_actions env ex cid analysis request_data) in
  database_saved r = false
  /\ queue_added r = true
  /\ contents (db ex') = contents (db ex)
  /\ exists row,
      queue_rows (db ex') = queue_rows (db ex) ++ [row]
      /\ content_id row = cid
      /\ status row = "pending"
      /\ Forall (fun q => id q < id row) (queue_rows (db ex)).
Proof.
  intros Hin Hprio r ex'.
  pose proof (execute_analysis_queue_added env ex cid analysis request_data)
    as Hadded.
  pose proof (execute_analysis_queue_rows env ex cid analysis request_data)
    as Hrows.
  fold r in Hadded. fold ex' in Hrows. rewrite Hprio in Hadded, Hrows.
  assert (Hsaved : database_saved r = false
                   /\ contents (db ex') = contents (db ex)).
  { subst r ex'.
    assert (Hsave : save_analysis (db ex) (current_timestamp env 0) cid
                                  analysis request_data
                    = (false, db ex)).
    { unfold save_analysis. apply existsb_content_id in Hin.
      rewrite Hin. reflexivity. }
    backends ex; injection Hsave as -> ->; injection Hframe as Hc _ _ _;
      rewrite Hc; rewrite Hprio; split; reflexivity. }
  destruct Hsaved as [Hsaved Hcontents].
  split; [exact Hsaved|]. split; [exact Hadded|].
  split; [exact Hcontents|].
  eexists. split; [exact Hrows|]. split; [reflexivity|].
  split; [reflexivity|]. simpl.
  pose proof (next_id_fresh (map id (queue_rows (db ex)))) as H.
  rewrite Forall_map in H. exact H.
Qed.

Lemma reanalysis_is_queued_again_witness :
  let r := fst (execute_analysis_actions
                  Samples.quiet Samples.plain_executor "post-1"
                  Samples.high_risk_analysis Samples.post_request) in
  let ex' := snd (execute_analysis_actions
                    Samples.quiet Samples.plain_executor "post-1"
                    Samples.high_risk_analysis Samples.post_request) in
  database_saved r = false
  /\ queue_added r = true
  /\ contents (db ex') = contents Samples.one_queued
  /\ exists row,
      queue_rows (db ex') = queue_rows Samples.one_queued ++ [row]
      /\ content_id row = "post-1"
      /\ status row = "pending"
      /\ Forall (fun q => id q < id row) (queue_rows Samples.one_queued).
Proof.
  apply (reanalysis_is_queued_again
           Samples.quiet Samples.plain_executor "post-1"
           Samples.high_risk_analysis Samples.post_request).
  - left. reflexivity.
  - reflexivity.
Defined.

(** The action log gets one row for each step that succeeded, in the
    order of the steps, all for the content id; nothing else is logged
    and no row is rewritten. *)
Theorem execute_analysis_action_log
        (env : Environment) (ex : Executor) (cid : string)
        (analysis : Analysis) (request_data : RequestData) :
  let r := fst (execute_analysis_actions env ex cid analysis request_data) in
  let ex' := snd (execute_analysis_actions env ex cid analysis request_data) in
  exists rows,
    action_log (db ex') = action_log (db ex) ++ rows
    /\ map action_type rows
       = (if database_saved r then ["analysis_saved"] else [])
         ++ (if queue_added r then ["added_to_queue"] else [])
         ++ (if blockchain_logged r then ["blockchain_logged"] else [])
    /\ Forall (fun row => log_content_id row = cid) rows.
Proof.
  intros r ex'. subst r ex'.
  assert (Hsave : action_log
                    (snd (save_analysis (db ex) (current_timestamp env 0) cid
                                        analysis request_data))
                  = action_log (db ex)).
  { unfold save_analysis. destruct (existsb _ _); [reflexivity|].
    destruct (text request_data); reflexivity. }
  backends ex; injection Hframe as _ _ _ Ha; rewrite ?Ha;
    destruct (among _ _); destruct saved; simpl; rewrite ?Hsave;
    rewrite <- ?app_assoc; simpl;
    eexists;
    (split; [first [reflexivity | symmetry; apply app_nil_r]|]); simpl;
    (split; [reflexivity|]); repeat constructor.
Qed.

(** With the local simulator as the blockchain, no analysis and no
    escalation is ever logged to it by the executor: the methods it calls
    are those of the Ethereum manager, which the simulator does not have,
    so each call ends in the error message and the chain stays as it
    was. *)
Theorem simulator_backend_never_logs
        (env : Environment) (s : Store)
        (blocks : list Blockchain.LocalBlockchainSimulator.Block)
        (cid : string) (analysis : Analysis) (request_data : RequestData)
        (reviewer_address decision notes : string) :
  let ex := mkExecutor s (ActionExecutor.Simulator blocks) in
  let r := fst (execute_analysis_actions env ex cid analysis request_data) in
  let ex' := snd (execute_analysis_actions env ex cid analysis request_data) in
  let e := execute_escalation_actions env ex cid reviewer_address decision
                                      notes in
  (blockchain_logged r, tx_hash r, ipfs_hash r) = (false, None, None)
  /\ last (errors r)
     = Some ("Blockchain logging failed: 'LocalBlockchainSimulator' object "
               +:+ "has no attribute 'log_analysis_to_blockchain'")
  /\ blockchain ex' = ActionExecutor.Simulator blocks
  /\ (esc_blockchain_logged (fst e), esc_tx_hash (fst e)) = (false, None)
  /\ esc_errors (fst e)
     = ["Blockchain logging failed: 'LocalBlockchainSimulator' object "
          +:+ "has no attribute 'log_escalation_to_blockchain'"]
  /\ snd e = ex.
Proof.
  intros ex r ex' e. subst r ex' e ex.
  unfold execute_analysis_actions, execute_escalation_actions.
  destruct (save_analysis _ _ _ _ _) as [saved s1].
  destruct (_send_webhooks _ _ _ _ _) as [s2 webhook_result].
  simpl. split; [reflexivity|]. split; [|repeat split].
  rewrite last_snoc. reflexivity.
Qed.

(** [execute_analysis_actions] reports [webhook_sent] exactly when one of
    the webhooks it was to call answered, whatever the status code of the
    answer; and the webhook log gets one row for each webhook it was to
    call, answered or not: at most two, the child safety one first. *)
Theorem analysis_webhook_sent_on_any_response
        (env : Environment) (ex : Executor) (cid : string)
        (analysis : Analysis) (request_data : RequestData) :
  let r := fst (execute_analysis_actions env ex cid analysis request_data) in
  let ex' := snd (execute_analysis_actions env ex cid analysis request_data) in
  let to_send := webhooks_to_send (webhooks env) analysis in
  (webhook_sent r = true
   <-> exists (i : nat) webhook_type url code body,
      to_send !! i = Some (webhook_type, url)
      /\ post env url (webhook_payload webhook_type cid analysis
                                       (utcnow env (4 + i)%nat))
         = Responded code body)
  /\ map (fun row => (delivery_content_id row, webhook_url row))
         (webhook_log (db ex'))
     = map (fun row => (delivery_content_id row, webhook_url row))
           (webhook_log (db ex))
       ++ map (fun w => (cid, snd w)) to_send
  /\ (length to_send <= 2)%nat
  /\ (forall url, In ("child_safety", url) to_send
                  <-> get (child_escalation analysis) false = true
                      /\ given (child_safety (webhooks env)) = true
                      /\ child_safety (webhooks env) = Some url)
  /\ (forall url, In ("high_risk", url) to_send
                  <-> among (Storage.priority analysis) ["HIGH"; "CRITICAL"]
                      = true
                      /\ given (high_risk (webhooks env)) = true
                      /\ high_risk (webhooks env) = Some url).
Proof.
  intros r ex' to_send. subst r ex'.
  assert (Hsave : webhook_log
                    (snd (save_analysis (db ex) (current_timestamp env 0) cid
                                        analysis request_data))
                  = webhook_log (db ex)).
  { unfold save_analysis. destruct (existsb _ _); [reflexivity|].
    destruct (text request_data); reflexivity. }
  split; [|split; [|split; [|split]]].
  - unfold execute_analysis_actions.
    destruct (save_analysis _ _ _ _ _) as [saved s1].
    match goal with
    | |- context [_send_webhooks ?env ?s ?cid ?a ?t] =>
        pose proof (send_each_sent env cid a to_send t s
                                   {| sent := false; responses := [];
                                      webhook_error := None |}) as Hsent;
        unfold _send_webhooks; fold to_send;
        destruct (send_each env cid a to_send t s _) as [s2 webhook_result]
    end.
    simpl in Hsent.
    assert (Hr : sent webhook_result = true
                 <-> exists (i : nat) webhook_type url code body,
                   to_send !! i = Some (webhook_type, url)
                   /\ post env url (webhook_payload webhook_type cid analysis
                                                    (utcnow env (4 + i)%nat))
                      = Responded code body).
    { rewrite Hsent. split; [intros [H|H]; [discriminate H|exact H]|tauto]. }
    destruct (blockchain ex) as [|m|blocks];
      [|destruct (given (manager_tx m _))|]; exact Hr.
  - backends ex; rewrite Hlog; simpl;
      destruct (among _ [_; _; _]); destruct saved; simpl; rewrite ?Hsave;
      reflexivity.
  - subst to_send. unfold webhooks_to_send.
    repeat match goal with |- context [if ?b then _ else _] =>
                             destruct b end; simpl; lia.
  - intros url. subst to_send. unfold webhooks_to_send.
    destruct (get (child_escalation analysis) false);
      destruct (child_safety (webhooks env)) as [u|] eqn:Eu; simpl;
      try destruct (negb (u =? EmptyString)%string);
      destruct (among _ _); try destruct (given (high_risk _)); simpl;
      split; intros H; try tauto; try (destruct H as (? & ? & ?); congruence);
      repeat match goal with
             | H : _ \/ _ |- _ => destruct H
             | H : (_, _) = (_, _) |- _ => inversion H; clear H; subst
             | H : False |- _ => destruct H
             end; auto; try discriminate.
    all: destruct H as (_ & _ & H); injection H as <-; auto.
  - intros url. subst to_send. unfold webhooks_to_send.
    destruct (among _ _);
      destruct (high_risk (webhooks env)) as [u|] eqn:Eu; simpl;
      try destruct (negb (u =? EmptyString)%string);
      destruct (get (child_escalation analysis) false);
      try destruct (given (child_safety _)); simpl;
      split; intros H; try tauto; try (destruct H as (? & ? & ?); congruence);
      repeat match goal with
             | H : _ \/ _ |- _ => destruct H
             | H : (_, _) = (_, _) |- _ => inversion H; clear H; subst
             | H : False |- _ => destruct H
             end; auto; try discriminate.
    all: destruct H as (_ & _ & H); injection H as <-; auto.
Qed.

(** [execute_escalation_actions] reports [webhook_sent] only for an answer
    with status code 200 from a configured escalation webhook. *)
Theorem escalation_webhook_sent_only_on_200
        (env : Environment) (ex : Executor)
        (cid reviewer_address decision notes : string) :
  let r := fst (execute_escalation_actions env ex cid reviewer_address
                                           decision notes) in
  esc_webhook_sent r = true
  <-> exists url body,
    escalation_url (webhooks env) = Some url
    /\ url <> EmptyString
    /\ post env url
            (JDict [("event", JStr "escalation_reviewed");
                    ("content_id", JStr cid);
                    ("decision", JStr decision);
                    ("notes", JStr notes);
                    ("timestamp", JStr (utcnow env 1))])
       = Responded 200 body.
Proof.
  intros r. subst r.
  assert (Hr : esc_webhook_sent
                 (fst (execute_escalation_actions env ex cid reviewer_address
                                                  decision notes))
               = _send_escalation_webhook env cid decision notes).
  { unfold execute_escalation_actions.
    destruct (blockchain ex) as [|m|blocks];
      [|destruct (given (manager_tx m _))|]; reflexivity. }
  rewrite Hr. unfold _send_escalation_webhook.
  destruct (escalation_url (webhooks env)) as [url|]; simpl.
  - destruct (String.eqb_spec url EmptyString) as [->|Hne]; simpl.
    + split; [discriminate|]. intros (u & b & [= <-] & Hu & _). congruence.
    + destruct (post env url _) as [code body|message] eqn:P.
      * split.
        -- intros H. apply Z.eqb_eq in H. subst code. eauto.
        -- intros (u & b & [= <-] & _ & HP). rewrite P in HP.
           injection HP as -> _. reflexivity.
      * split; [discriminate|].
        intros (u & b & [= <-] & _ & HP). congruence.
  - split; [discriminate|]. intros (u & b & H & _). discriminate H.
Qed.

(** [process_queue_item] marks the queue entry as reviewed and then looks
    for it among the pending items, where it can no longer be: the
    [human_review] row is never written to the action log, and nothing
    but the queue table changes. *)
Theorem process_queue_item_never_logs_review
        (env : Environment) (ex : Executor) (queue_id : Z)
        (reviewer decision : string) (notes : option string) :
  process_queue_item env ex queue_id reviewer decision notes
  = mkExecutor
      (update_queue_status (db ex) (current_timestamp env 0) queue_id
                           "reviewed" (Some reviewer) (Some decision) notes)
      (blockchain ex).
Proof.
  unfold process_queue_item.
  destruct (find _ _) as [item|] eqn:F; [|reflexivity].
  exfalso. apply find_some in F as [Hin Hid].
  apply Z.eqb_eq in Hid.
  unfold Storage.get_queue_items, Database.get_queue_items in Hin.
  apply list_elem_of_In in Hin. rewrite order_by_Permutation in Hin.
  apply list_elem_of_In, select_queue_items_spec in Hin
    as (Hrow & Hstatus & _).
  simpl in Hrow. apply in_map_iff in Hrow as (q & Hq & _).
  destruct (id q =? queue_id) eqn:E.
  - rewrite <- Hq in Hstatus. discriminate Hstatus.
  - apply Z.eqb_neq in E. congruence.
Qed.

End Executing.

(** ** Roles, users and tokens *)

Section Authorization.
Import Auth.

Lemma dict_get_set {V : Type} (d : dict V) (key : string) (value : V) :
  dict_get (dict_set d key value) key = Some value.
Proof.
  induction d as [|[k v] d IH]; simpl.
  - rewrite String.eqb_refl. reflexivity.
  - destruct (String.eqb k key) eqn:E; simpl; rewrite E; [reflexivity|exact IH].
Qed.

Lemma dict_get_set_other {V : Type} (d : dict V) (key key' : string)
      (value : V) :
  key <> key' -> dict_get (dict_set d key value) key' = dict_get d key'.
Proof.
  intros Hne. induction d as [|[k v] d IH]; simpl.
  - apply String.eqb_neq in Hne. rewrite Hne. reflexivity.
  - destruct (String.eqb k key) eqn:E; simpl.
    + apply String.eqb_eq in E. subst k.
      apply String.eqb_neq in Hne. rewrite Hne. reflexivity.
    + rewrite IH. reflexivity.
Qed.

Lemma dict_get_del {V : Type} (d : dict V) (key : string) :
  dict_get (dict_del d key) key = None.
Proof.
  induction d as [|[k v] d IH]; simpl; [reflexivity|].
  destruct (String.eqb k key) eqn:E; simpl; [exact IH|].
  rewrite E. exact IH.
Qed.

Lemma dict_get_del_other {V : Type} (d : dict V) (key key' : string) :
  key <> key' -> dict_get (dict_del d key) key' = dict_get d key'.
Proof.
  intros Hne. induction d as [|[k v] d IH]; simpl; [reflexivity|].
  destruct (String.eqb k key) eqn:E; simpl.
  - apply String.eqb_eq in E. subst k.
    apply String.eqb_neq in Hne. rewrite Hne. exact IH.
  - rewrite IH. reflexivity.
Qed.

Lemma dict_get_In {V : Type} (d : dict V) (key : string) (value : V) :
  dict_get d key = Some value -> In (key, value) d.
Proof.
  induction d as [|[k v] d IH]; simpl; [discriminate|].
  destruct (String.eqb k key) eqn:E.
  - apply String.eqb_eq in E. intros [= ->]. left. congruence.
  - intros H. right. apply IH, H.
Qed.

(** Assigning to a key keeps the keys and their order, or adds the key
    at the end. *)
Lemma dict_set_keys {V : Type} (d : dict V) (key : string) (value : V) :
  map fst (dict_set d key value)
  = match dict_get d key with
    | Some _ => map fst d
    | None => map fst d ++ [key]
    end.
Proof.
  induction d as [|[k v] d IH]; simpl; [reflexivity|].
  destruct (String.eqb k key) eqn:E; simpl; [reflexivity|].
  rewrite IH. destruct (dict_get d key); reflexivity.
Qed.

Lemma has_permission_In (u : User) (p : Permission) :
  has_permission u p = true <-> In p (ROLE_PERMISSIONS (role u)).
Proof.
  unfold has_permission. rewrite existsb_exists. split.
  - intros (q & Hq & E). apply bool_decide_eq_true in E. congruence.
  - intros H. exists p. split; [exact H|]. apply bool_decide_eq_true.
    reflexivity.
Qed.

(** The permissions grow with the role: what a viewer may do a reviewer
    may do, what a reviewer may do a moderator may do, and an admin may
    do everything.  A viewer may only view content; managing users is
    for admins only; analysing, exporting, queue management, escalation
    and verification need a moderator or an admin. *)
Theorem role_permissions_nested :
  incl (ROLE_PERMISSIONS VIEWER) (ROLE_PERMISSIONS REVIEWER)
  /\ incl (ROLE_PERMISSIONS REVIEWER) (ROLE_PERMISSIONS MODERATOR)
  /\ incl (ROLE_PERMISSIONS MODERATOR) (ROLE_PERMISSIONS ADMIN)
  /\ (forall u p, role u = ADMIN -> has_permission u p = true)
  /\ (forall u p, role u = VIEWER ->
                  (has_permission u p = true <-> p = VIEW_CONTENT))
  /\ (forall u, has_permission u MANAGE_USERS = true <-> role u = ADMIN)
  /\ (forall u p,
         In p [ANALYZE_CONTENT; EXPORT_AUDIT_LOG; MANAGE_QUEUE; ESCALATE;
               VERIFY_BLOCKCHAIN] ->
         (has_permission u p = true
          <-> role u = ADMIN \/ role u = MODERATOR)).
Proof.
  split; [|split; [|split; [|split; [|split; [|split]]]]].
  - intros p H. simpl in *. tauto.
  - intros p H. simpl in *. tauto.
  - intros p H. simpl in *. tauto.
  - intros u p Hr. unfold has_permission. rewrite Hr.
    destruct p; reflexivity.
  - intros u p Hr. unfold has_permission. rewrite Hr.
    destruct p; simpl; split; intros H; try reflexivity; discriminate H.
  - intros u. unfold has_permission.
    destruct (role u); simpl; split; intros H; try reflexivity;
      discriminate H.
  - intros u p Hp. unfold has_permission. simpl in Hp.
    destruct Hp as [<-|[<-|[<-|[<-|[<-|[]]]]]];
      destruct (role u); simpl; split; intros H;
      try discriminate H; try reflexivity; auto;
      destruct H as [H|H]; discriminate H.
Qed.

(** A token generated for a known user validates to that user, with the
    login time set, up to and including its expiry time; after that it
    does not validate, and the first failed validation removes it, so it
    stays invalid whatever the clock reads later. *)
Theorem generate_token_then_validate
        (m : AuthManager) (token : string) (clock : nat -> datetime)
        (uid : string) (expires_in_hours : Z) (u : User) :
  get_user m uid = Some u ->
  exists m',
    generate_token m token clock uid expires_in_hours = Py.Ok (token, m')
    /\ forall now,
      (now <= clock 0%nat + expires_in_hours * 3600000000 ->
       validate_token m' now token
       = (Some (mkUser (user_id u) (username u) (role u) (eth_address u)
                       (email u) (created_at u) (Some (clock 2%nat))),
          m'))
      /\ (clock 0%nat + expires_in_hours * 3600000000 < now ->
          fst (validate_token m' now token) = None
          /\ forall later,
            fst (validate_token (snd (validate_token m' now token)) later
                                token)
            = None).
Proof.
  intros Hu. unfold generate_token. rewrite Hu.
  eexists. split; [reflexivity|]. intros now.
  unfold validate_token, get_user. simpl. rewrite dict_get_set. simpl.
  unfold hours. split; intros H.
  - destruct (Z.ltb_spec (clock 0%nat + expires_in_hours * 3600000000) now);
      [lia|].
    rewrite dict_get_set. reflexivity.
  - destruct (Z.ltb_spec (clock 0%nat + expires_in_hours * 3600000000) now);
      [|lia].
    simpl. split; [reflexivity|]. intros later.
    rewrite dict_get_del. reflexivity.
Qed.

Lemma generate_token_then_validate_witness :
  exists m',
    generate_token Samples.with_rita "tok-rita" (fun _ => 20)
                   "reviewer_1a2b3c4d" 24
    = Py.Ok ("tok-rita", m')
    /\ forall now,
      (now <= 20 + 24 * 3600000000 ->
       validate_token m' now "tok-rita"
       = (Some (mkUser "reviewer_1a2b3c4d" "rita" REVIEWER None None 10
                       (Some 20)),
          m'))
      /\ (20 + 24 * 3600000000 < now ->
          fst (validate_token m' now "tok-rita") = None
          /\ forall later,
            fst (validate_token (snd (validate_token m' now "tok-rita"))
                                later "tok-rita")
            = None).
Proof.
  apply (generate_token_then_validate
           Samples.with_rita "tok-rita" (fun _ => 20) "reviewer_1a2b3c4d" 24
           Samples.rita).
  reflexivity.
Defined.

(** A revoked token does not validate any more; the users and the other
    tokens are as before. *)
Theorem revoke_token_invalidates
        (m : AuthManager) (token : string) (now : datetime) :
  let m' := revoke_token m token in
  validate_token m' now token = (None, m')
  /\ users m' = users m
  /\ forall other,
      other <> token ->
      dict_get (tokens m') other = dict_get (tokens m) other
      /\ fst (validate_token m' now other) = fst (validate_token m now other).
Proof.
  intros m'. subst m'. unfold revoke_token.
  destruct (dict_get (tokens m) token) eqn:E.
  - unfold validate_token, get_user. simpl. rewrite dict_get_del.
    split; [reflexivity|]. split; [reflexivity|]. intros other Hne.
    rewrite dict_get_del_other by congruence.
    split; [reflexivity|].
    destruct (dict_get (tokens m) other); [|reflexivity].
    destruct (_ <? _); reflexivity.
  - unfold validate_token. rewrite E. repeat split.
Qed.

Lemma get_user_after_delete (m : AuthManager) (uid : string) :
  get_user (snd (delete_user m uid)) uid = None.
Proof.
  unfold delete_user, get_user.
  destruct (dict_get (users m) uid) eqn:E; simpl;
    [apply dict_get_del|exact E].
Qed.

(** [delete_user] leaves the tokens of the user in the token table, but
    they do not validate any more, no new token can be generated for the
    user, and the user no longer shows in the audit access log. *)
Theorem deleted_user_tokens_fail
        (m : AuthManager) (uid token : string) (data : TokenData)
        (now : datetime) (fresh_token : string) (clock : nat -> datetime)
        (expires_in_hours : Z) :
  dict_get (tokens m) token = Some data ->
  token_user_id data = uid ->
  let m' := snd (delete_user m uid) in
  tokens m' = tokens m
  /\ fst (validate_token m' now token) = None
  /\ generate_token m' fresh_token clock uid expires_in_hours
     = Py.Raise "ValueError"
  /\ forall e, In e (get_audit_access_log m') -> access_user_id e <> uid.
Proof.
  intros Hdata Huid m'.
  pose proof (get_user_after_delete m uid) as Hgone. fold m' in Hgone.
  assert (Ht : tokens m' = tokens m).
  { subst m'. unfold delete_user.
    destruct (dict_get (users m) uid); reflexivity. }
  split; [exact Ht|]. split; [|split].
  - unfold validate_token. rewrite Ht, Hdata.
    destruct (_ <? _); [reflexivity|]. simpl. rewrite Huid. exact Hgone.
  - unfold generate_token. rewrite Hgone. reflexivity.
  - intros e He. unfold get_audit_access_log in He.
    apply in_flat_map in He as ([t d] & _ & He). simpl in He.
    destruct (get_user m' (token_user_id d)) as [user|] eqn:Eu; [|destruct He].
    destruct (has_permission user VIEW_AUDIT_LOG); [|destruct He].
    destruct He as [<-|[]]. simpl. intros Heq. rewrite Heq in Eu.
    congruence.
Qed.

Lemma deleted_user_tokens_fail_witness :
  let m' := snd (delete_user Samples.rita_logged_in "reviewer_1a2b3c4d") in
  tokens m' = tokens Samples.rita_logged_in
  /\ fst (validate_token m' 30 "tok-rita") = None
  /\ generate_token m' "tok-new" (fun _ => 40) "reviewer_1a2b3c4d" 24
     = Py.Raise "ValueError"
  /\ forall e, In e (get_audit_access_log m') ->
               access_user_id e <> "reviewer_1a2b3c4d".
Proof.
  apply (deleted_user_tokens_fail
           Samples.rita_logged_in "reviewer_1a2b3c4d" "tok-rita"
           Samples.rita_token 30 "tok-new" (fun _ => 40) 24).
  - reflexivity.
  - reflexivity.
Defined.

(** [delete_user] never looks at the role: when the admins are all
    stored under the id that is deleted, no admin is left. *)
Theorem delete_user_may_remove_last_admin (m : AuthManager) (uid : string) :
  (forall key u, In (key, u) (users m) -> role u = ADMIN -> key = uid) ->
  forall u, In u (list_users (snd (delete_user m uid)) None) ->
            role u <> ADMIN.
Proof.
  intros Honly u Hu Hadmin. unfold list_users, values in Hu.
  apply in_map_iff in Hu as ([key u'] & <- & Hin). simpl in Hadmin.
  unfold delete_user in Hin.
  destruct (dict_get (users m) uid) eqn:E; simpl in Hin.
  - unfold dict_del in Hin. apply filter_In in Hin as [Hin Hkey].
    simpl in Hkey. apply negb_true_iff, String.eqb_neq in Hkey.
    apply Hkey, (Honly key u'); assumption.
  - pose proof (Honly key u' Hin Hadmin) as ->.
    assert (Hsome : dict_get (users m) uid <> None); [|congruence].
    clear E Honly. induction (users m) as [|[k v] d IH]; [destruct Hin|].
    simpl. destruct (String.eqb k uid) eqn:Ek; [discriminate|].
    destruct Hin as [[= -> _]|Hin]; [|apply IH, Hin].
    rewrite String.eqb_refl in Ek. discriminate Ek.
Qed.

Lemma delete_user_may_remove_last_admin_witness :
  Forall (fun u => role u <> ADMIN)
         (list_users (snd (delete_user Samples.fresh_manager "admin_001"))
                     None).
Proof.
  apply List.Forall_forall.
  apply (delete_user_may_remove_last_admin Samples.fresh_manager "admin_001").
  intros key u [[= <- _]|[]] _. reflexivity.
Defined.

(** A change of role applies at once to the tokens the user holds: such
    a token validates to the user with the new role, and so with the
    permissions of the new role, while the token still records the role
    it was generated with. *)
Theorem update_user_role_applies_to_live_tokens
        (m : AuthManager) (uid : string) (new_role : Role) (token : string)
        (data : TokenData) (now : datetime) (u : User) :
  dict_get (tokens m) token = Some data ->
  token_user_id data = uid ->
  now <= expires_at data ->
  get_user m uid = Some u ->
  let m' := snd (update_user_role m uid new_role) in
  fst (update_user_role m uid new_role) = true
  /\ validate_token m' now token
     = (Some (mkUser (user_id u) (username u) new_role (eth_address u)
                     (email u) (created_at u) (last_login u)),
        m')
  /\ (forall u' p,
         fst (validate_token m' now token) = Some u' ->
         (has_permission u' p = true <-> In p (ROLE_PERMISSIONS new_role)))
  /\ dict_get (tokens m') token = Some data.
Proof.
  intros Hdata Huid Hnow Hu m'. subst m'. unfold update_user_role.
  rewrite Hu. simpl. split; [reflexivity|].
  assert (Hv : validate_token
                 {| users :=
                      dict_set (users m) uid
                               (mkUser (user_id u) (username u) new_role
                                       (eth_address u) (email u)
                                       (created_at u) (last_login u));
                    tokens := tokens m |} now token
               = (Some (mkUser (user_id u) (username u) new_role
                               (eth_address u) (email u) (created_at u)
                               (last_login u)),
                  {| users :=
                       dict_set (users m) uid
                                (mkUser (user_id u) (username u) new_role
                                        (eth_address u) (email u)
                                        (created_at u) (last_login u));
                     tokens := tokens m |})).
  { unfold validate_token, get_user. simpl. rewrite Hdata.
    destruct (Z.ltb_spec (expires_at data) now); [lia|].
    rewrite Huid, dict_get_set. reflexivity. }
  split; [exact Hv|]. split; [|exact Hdata].
  intros u' p. rewrite Hv. simpl. intros [= <-].
  apply has_permission_In.
Qed.

Lemma update_user_role_applies_to_live_tokens_witness :
  let m' := snd (update_user_role Samples.rita_logged_in "reviewer_1a2b3c4d"
                                  VIEWER) in
  fst (update_user_role Samples.rita_logged_in "reviewer_1a2b3c4d" VIEWER)
  = true
  /\ validate_token m' 30 "tok-rita"
     = (Some (mkUser "reviewer_1a2b3c4d" "rita" VIEWER None None 10
                     (Some 20)),
        m')
  /\ (forall u' p,
         fst (validate_token m' 30 "tok-rita") = Some u' ->
         (has_permission u' p = true <-> In p (ROLE_PERMISSIONS VIEWER)))
  /\ dict_get (tokens m') "tok-rita" = Some Samples.rita_token.
Proof.
  apply (update_user_role_applies_to_live_tokens
           Samples.rita_logged_in "reviewer_1a2b3c4d" VIEWER "tok-rita"
           Samples.rita_token 30
           (mkUser "reviewer_1a2b3c4d" "rita" REVIEWER None None 10
                   (Some 20))).
  - reflexivity.
  - reflexivity.
  - vm_compute. discriminate.
  - reflexivity.
Defined.

(** The audit access log lists the tokens, in the order of the token
    table, whose user exists and is not a viewer, with the name and the
    role recorded in the token; whether a token has expired is not
    looked at. *)
Theorem audit_access_log_spec (m : AuthManager) (e : AccessEntry) :
  In e (get_audit_access_log m)
  <-> exists token data user,
    In (token, data) (tokens m)
    /\ get_user m (token_user_id data) = Some user
    /\ role user <> VIEWER
    /\ e = mkAccessEntry (token_user_id data) (token_username data)
                         (token_role data) (token_created_at data).
Proof.
  unfold get_audit_access_log. rewrite in_flat_map. split.
  - intros ([token data] & Hin & He). simpl in He.
    destruct (get_user m (token_user_id data)) as [user|] eqn:Eu;
      [|destruct He].
    destruct (has_permission user VIEW_AUDIT_LOG) eqn:Ep; [|destruct He].
    destruct He as [<-|[]]. exists token, data, user.
    split; [exact Hin|]. split; [exact Eu|]. split; [|reflexivity].
    intros Hr. unfold has_permission in Ep. rewrite Hr in Ep.
    discriminate Ep.
  - intros (token & data & user & Hin & Hu & Hr & ->).
    exists (token, data). split; [exact Hin|]. simpl. rewrite Hu.
    assert (Ep : has_permission user VIEW_AUDIT_LOG = true).
    { unfold has_permission. destruct (role user); try reflexivity.
      congruence. }
    rewrite Ep. left. reflexivity.
Qed.

Lemma existsb_admin (l : list User) :
  existsb (fun u => bool_decide (role u = ADMIN)) l = true
  <-> exists u, In u l /\ role u = ADMIN.
Proof.
  rewrite existsb_exists. split; intros (u & Hu & H); exists u;
    (split; [exact Hu|]); [apply bool_decide_eq_true in H|
                           apply bool_decide_eq_true]; exact H.
Qed.

(** A manager starts with an admin: when none of the loaded users is an
    admin, the default admin is stored under [admin_001]; otherwise the
    loaded users are kept as they are.  The loaded tokens are kept, and
    creating the default admin a second time changes nothing. *)
Theorem init_has_admin
        (loaded_users : dict User) (loaded_tokens : dict TokenData)
        (now later : datetime) :
  let m := init loaded_users loaded_tokens now in
  (exists u, In u (list_users m (Some ADMIN)))
  /\ tokens m = loaded_tokens
  /\ ((exists u, In u (values loaded_users) /\ role u = ADMIN) ->
      users m = loaded_users)
  /\ (~ (exists u, In u (values loaded_users) /\ role u = ADMIN) ->
      get_user m "admin_001"
      = Some (mkUser "admin_001" "admin" ADMIN None
                     (Some "admin@harmlens.ai") now None)
      /\ forall other, other <> "admin_001" ->
                       get_user m other = dict_get loaded_users other)
  /\ _create_default_admin m later = m.
Proof.
  intros m. subst m. unfold init, _create_default_admin. simpl.
  destruct (existsb _ (values loaded_users)) eqn:E.
  - pose proof E as (u & Hu & Hr)%existsb_admin. simpl. rewrite E.
    split; [|split; [reflexivity|split; [reflexivity|split; [|reflexivity]]]].
    + exists u. apply filter_In. split; [exact Hu|].
      apply bool_decide_eq_true, Hr.
    + intros Hno. exfalso. apply Hno. eauto.
  - set (admin := mkUser "admin_001" "admin" ADMIN None
                         (Some "admin@harmlens.ai") now None).
    assert (Hin : In admin (values (dict_set loaded_users "admin_001" admin))).
    { unfold values. apply in_map_iff. exists ("admin_001", admin).
      split; [reflexivity|]. apply dict_get_In, dict_get_set. }
    simpl.
    assert (E' : existsb (fun u => bool_decide (role u = ADMIN))
                         (values (dict_set loaded_users "admin_001" admin))
                 = true).
    { apply existsb_admin. exists admin. split; [exact Hin|reflexivity]. }
    rewrite E'.
    split; [|split; [reflexivity|split; [|split; [|reflexivity]]]].
    + exists admin. apply filter_In. split; [exact Hin|reflexivity].
    + intros H. apply existsb_admin in H. congruence.
    + intros _. unfold get_user. simpl. split; [apply dict_get_set|].
      intros other Hne. apply dict_get_set_other. congruence.
Qed.

(** [create_user] stores the new user under the id made of the role and
    the random part, where [get_user] finds it; the other ids and the
    tokens are untouched.  An id that is in use already is not detected:
    the user stored under it is replaced and no id is added. *)
Theorem create_user_then_get
        (m : AuthManager) (hex : string) (now : datetime) (name : string)
        (r : Role) (eth_address email : option string) :
  let user := fst (create_user m hex now name r eth_address email) in
  let m' := snd (create_user m hex now name r eth_address email) in
  user = mkUser (role_value r +:+ "_" +:+ hex) name r eth_address email now
                None
  /\ get_user m' (user_id user) = Some user
  /\ (forall other, other <> user_id user ->
                    get_user m' other = get_user m other)
  /\ tokens m' = tokens m
  /\ map fst (users m')
     = match get_user m (user_id user) with
       | Some _ => map fst (users m)
       | None => map fst (users m) ++ [user_id user]
       end.
Proof.
  intros user m'. subst user m'. unfold create_user, get_user. simpl.
  split; [reflexivity|]. split; [apply dict_get_set|].
  split; [|split; [reflexivity|apply dict_set_keys]].
  intros other Hne. apply dict_get_set_other. congruence.
Qed.

End Authorization.
